(** * DocPilot: adaptive hierarchical summarisation and retrieval

    A shallow embedding of the backend of DocPilot (Python) and the
    properties of its section segmenter, chunk splitter, section loop,
    page synthesiser, dual-type embedding index, context builder and
    link-following fallback.

    Conventions of the embedding
    - a Python [str] is a [string]; a character is a code point below 256,
      so the text handled here is Latin-1;
    - a Python [int] is a [Z]; list positions and lengths are [nat];
    - a Python [float] that is only compared, sorted or printed (a
      similarity score) is the rational it denotes, a [Q];
    - a Python [dict] used as an insertion-ordered map is an association
      list with unique keys; the vector index is a [gmap];
    - a call that may raise returns an [option]: [None] is the exception;
      where a handler reads [str(e)], the exception is its text;
    - services outside the repository (MD5, the embedding model, the
      generative model, the HTML parser, the URL library) are fields of
      type classes, and so is the version of the interpreter;
    - the embedding model and the index are remote: a [Fault] says which
      of the calls made inside a [try] raises, if one does. *)

From Stdlib Require Import String Ascii ZArith QArith Qabs List Bool Lia.
From stdpp Require Import base option list gmap strings.
Close Scope Q_scope.

(** ** Python string primitives *)

Module Py.

Definition LF : ascii := "010"%char.
Definition SP : ascii := " "%char.

(** [str.isspace] on one character of the Latin-1 range; also what the
    regular-expression class [\s] matches on [str] patterns. *)
Definition isspace (c : ascii) : bool :=
  let n := nat_of_ascii c in
  ((9 <=? n) && (n <=? 13)) || ((28 <=? n) && (n <=? 32))
  || (n =? 133) || (n =? 160).

Definition is_empty (s : string) : bool :=
  match s with EmptyString => true | String _ _ => false end.

(** [bool(s)] : a string is truthy when it is not empty. *)
Definition truthy (s : string) : bool := negb (is_empty s).

Fixpoint lstrip (s : string) : string :=
  match s with
  | EmptyString => EmptyString
  | String c s' => if isspace c then lstrip s' else s
  end.

Fixpoint rstrip (s : string) : string :=
  match s with
  | EmptyString => EmptyString
  | String c s' =>
      let r := rstrip s' in
      if is_empty r && isspace c then EmptyString else String c r
  end.

(** [s.strip()] *)
Definition strip (s : string) : string := rstrip (lstrip s).

(** [s.split()] : the maximal runs of non-whitespace characters. *)
Fixpoint split_ws (s : string) : list string :=
  match s with
  | EmptyString => []
  | String c s' =>
      let rest := split_ws s' in
      if isspace c then rest
      else match s' with
           | EmptyString => [String c EmptyString]
           | String d _ =>
               if isspace d then String c EmptyString :: rest
               else match rest with
                    | w :: ws => String c w :: ws
                    | [] => [String c EmptyString]
                    end
           end
  end.

(** The scan of [s.split(sep)] for a non-empty [sep]: the piece being
    read and the pieces after it; [skip] characters of a separator that
    was just recognised are still to be passed over. *)
Fixpoint split_scan (sep : string) (skip : nat) (s : string)
  : string * list string :=
  match s with
  | EmptyString => (EmptyString, [])
  | String c s' =>
      match skip with
      | S k => split_scan sep k s'
      | O =>
          if String.prefix sep s then
            let '(p, ps) := split_scan sep (String.length sep - 1) s' in
            (EmptyString, p :: ps)
          else
            let '(p, ps) := split_scan sep 0 s' in
            (String c p, ps)
      end
  end.

(** [s.split(sep)] *)
Definition split (sep s : string) : list string :=
  let '(p, ps) := split_scan sep 0 s in p :: ps.

Fixpoint map_chars (f : ascii -> ascii) (s : string) : string :=
  match s with
  | EmptyString => EmptyString
  | String c s' => String (f c) (map_chars f s')
  end.

(** [s.replace(a, b)] for single characters [a] and [b]. *)
Definition replace_char (a b : ascii) (s : string) : string :=
  map_chars (fun c => if Ascii.eqb c a then b else c) s.

(** [sep.join(l)] *)
Definition join (sep : string) (l : list string) : string :=
  String.concat sep l.

(** [s.startswith(p)] *)
Definition startswith (p s : string) : bool := String.prefix p s.

(** [s[i:j]] for [0 <= i] and [0 <= j] (an empty string when [j <= i]). *)
Definition slice (i j : nat) (s : string) : string := substring i (j - i) s.

(** [s[:n]] for [0 <= n]. *)
Definition take (n : nat) (s : string) : string := substring 0 n s.

(** [s[i:]] for [0 <= i]. *)
Fixpoint drop (i : nat) (s : string) : string :=
  match i, s with
  | O, _ => s
  | S k, String _ s' => drop k s'
  | S _, EmptyString => EmptyString
  end.

(** [s.lower()] on the Latin-1 range. *)
Definition lower_char (c : ascii) : ascii :=
  let n := nat_of_ascii c in
  if ((65 <=? n) && (n <=? 90))
     || ((192 <=? n) && (n <=? 222) && negb (n =? 215))
  then ascii_of_nat (n + 32) else c.

Definition lower (s : string) : string := map_chars lower_char s.

Definition digit (n : nat) : ascii := ascii_of_nat (48 + n).

Fixpoint str_nat_fuel (fuel n : nat) (acc : string) : string :=
  match fuel with
  | O => acc
  | S f =>
      let acc' := String (digit (n mod 10)) acc in
      if n <? 10 then acc' else str_nat_fuel f (n / 10) acc'
  end.

(** [str(n)] for a natural number. *)
Definition str_nat (n : nat) : string := str_nat_fuel (S n) n EmptyString.

(** [int(n * 1.3)] for a word count [n].  The double nearest to 1.3 lies
    above 1.3 by less than 5e-17, so for every count below 2^50 the
    product rounds to a double in [[13n/10, 13n/10 + 1/20)], whose
    truncation is the integer quotient of [13 n] by [10]. *)
Definition int_times_1_3 (n : Z) : Z := (13 * n) `div` 10.

End Py.

(** ** Configuration ([app/config.py]) *)

Module Settings.
Record t := mk {
  section_small_threshold : Z;
  chunk_max_tokens : Z;
  max_sections_per_page : nat;
  top_k_retrieval : nat;
  similarity_threshold : Q
}.
End Settings.

(** The [float] that the literal [0.35] denotes: the double nearest to
    35/100, which is 3152519739159347 / 2^53 and lies just below it. *)
Definition double_0_35 : Q := 3152519739159347 # 9007199254740992.

(** The defaults of [class Settings]. *)
Definition settings : Settings.t := {|
  Settings.section_small_threshold := 400;
  Settings.chunk_max_tokens := 512;
  Settings.max_sections_per_page := 30;
  Settings.top_k_retrieval := 5;
  Settings.similarity_threshold := double_0_35
|}.

(** ** State schema ([app/agent/state.py]) *)

Inductive PageType := DOCS | BLOG | API | README | UNKNOWN.

Definition PageType_value (p : PageType) : string :=
  match p with
  | DOCS => "docs" | BLOG => "blog" | API => "api"
  | README => "readme" | UNKNOWN => "unknown"
  end.

Inductive EmbeddingType := SOURCE | SUMMARY.

Definition EmbeddingType_value (e : EmbeddingType) : string :=
  match e with SOURCE => "source" | SUMMARY => "summary" end.

Definition EmbeddingType_eqb (a b : EmbeddingType) : bool :=
  match a, b with
  | SOURCE, SOURCE | SUMMARY, SUMMARY => true
  | _, _ => false
  end.

Definition EmbeddingType_name (e : EmbeddingType) : string :=
  match e with SOURCE => "SOURCE" | SUMMARY => "SUMMARY" end.

(** The object a caller passes for a parameter [embedding_type], which
    is annotated [Literal["source", "summary"]]: the plain string, as
    [reindex_page], the chat route and the defaults pass it, or a member
    of [EmbeddingType], as the nodes pass it.  [EmbeddingType] mixes in
    [str], so a member equals its value ([EmbeddingType.SOURCE ==
    "source"]) and is stored and compared as that string. *)
Inductive RoleArg :=
  | Str (e : EmbeddingType)
  | Member (e : EmbeddingType).

(** The role an argument stands for: the string it equals. *)
Definition role_of (embedding_type : RoleArg) : EmbeddingType :=
  match embedding_type with Str e | Member e => e end.

(** The interpreter the program runs on, Python 3.[minor]; the
    repository does not fix it. *)
Class Python := { minor : nat }.

(** [f"{embedding_type}"].  A string formats as itself.  A member of an
    enum that mixes in [str] formats as its value up to Python 3.10, and
    as [str()] gives it, [EmbeddingType.SOURCE], from Python 3.11 on. *)
Definition format_role `{Python} (embedding_type : RoleArg) : string :=
  match embedding_type with
  | Str e => EmbeddingType_value e
  | Member e =>
      if 11 <=? minor
      then "EmbeddingType." +:+ EmbeddingType_name e
      else EmbeddingType_value e
  end.

Module ChunkData.
Record t := mk {
  index : nat;
  text : string;
  heading : string;
  section_id : string;
  token_count : Z;
  extracted_facts : option string
}.
End ChunkData.

Module SectionData.
Record t := mk {
  section_id : string;
  heading : string;
  heading_level : nat;
  raw_text : string;
  token_count : Z;
  is_large : bool;
  chunks : list ChunkData.t;
  merged_facts : option string;
  summary_text : option string;
  is_summarized : bool;
  source_embedded : bool;
  summary_embedded : bool
}.
End SectionData.

(** ** Chunk splitter ([_split_section_into_chunks] in [app/agent/nodes.py]) *)

Module Splitter.

(** The three variables of the loop. *)
Record loop := mk {
  chunks : list ChunkData.t;
  current_chunk : list string;
  current_tokens : Z
}.

Definition close_chunk (section : SectionData.t) (st : loop) : ChunkData.t := {|
  ChunkData.index := length (chunks st);
  ChunkData.text := Py.join ". " (current_chunk st) +:+ ".";
  ChunkData.heading := SectionData.heading section;
  ChunkData.section_id := SectionData.section_id section;
  ChunkData.token_count := current_tokens st;
  ChunkData.extracted_facts := None
|}.

Definition is_nil {A} (l : list A) : bool :=
  match l with [] => true | _ => false end.

(** One turn of [for sentence in sentences]. *)
Definition step (max_chunk_tokens : Z) (section : SectionData.t)
           (st : loop) (sentence0 : string) : loop :=
  let sentence := Py.strip sentence0 in
  if Py.is_empty sentence then st
  else
    let sentence_tokens :=
      Py.int_times_1_3 (Z.of_nat (length (Py.split_ws sentence))) in
    if (max_chunk_tokens <? current_tokens st + sentence_tokens)%Z
       && negb (is_nil (current_chunk st))
    then {| chunks := chunks st ++ [close_chunk section st];
            current_chunk := [sentence];
            current_tokens := sentence_tokens |}
    else {| chunks := chunks st;
            current_chunk := current_chunk st ++ [sentence];
            current_tokens := (current_tokens st + sentence_tokens)%Z |}.

Definition sentences_of (text : string) : list string :=
  Py.split ". " (Py.replace_char Py.LF Py.SP text).

End Splitter.

Definition _split_section_into_chunks (cfg : Settings.t)
           (section : SectionData.t) : list ChunkData.t :=
  let max_chunk_tokens := Settings.chunk_max_tokens cfg in
  let text := SectionData.raw_text section in
  let sentences := Splitter.sentences_of text in
  let st := fold_left (Splitter.step max_chunk_tokens section) sentences
                      (Splitter.mk [] [] 0%Z) in
  if Splitter.is_nil (Splitter.current_chunk st) then Splitter.chunks st
  else Splitter.chunks st ++ [Splitter.close_chunk section st].

(** The sentences the splitter keeps: stripped, empty ones skipped. *)
Definition sentence_stream (text : string) : list string :=
  List.filter Py.truthy (map Py.strip (Splitter.sentences_of text)).

Definition render_group (g : list string) : string := Py.join ". " g +:+ ".".


(** What the splitter's loop maintains after reading the sentences [seen]:
    the closed chunks render consecutive non-empty groups of the kept
    sentences, and the open chunk holds the rest. *)
Definition kept_sentences (l : list string) : list string :=
  List.filter Py.truthy (map Py.strip l).

Definition splitter_inv (st : Splitter.loop) (seen : list string) : Prop :=
  exists groups : list (list string),
    map ChunkData.text (Splitter.chunks st) = map render_group groups
    /\ Forall (fun g => g <> []) groups
    /\ concat groups ++ Splitter.current_chunk st = kept_sentences seen
    /\ map ChunkData.index (Splitter.chunks st)
       = seq 0 (length (Splitter.chunks st)).

(** ** Services outside the repository *)

(** [hashlib.md5(s.encode()).hexdigest()] *)
Class Hash := { md5_hexdigest : string -> string }.

(** ** MD5 ([hashlib.md5(s.encode()).hexdigest()])

    RFC 1321 on the UTF-8 encoding of the text, with 32-bit words as
    integers reduced modulo 2^32. *)
Module MD5.
Local Open Scope Z_scope.

Definition wrap (x : Z) : Z := x `mod` 4294967296.

Definition rotl (x : Z) (c : Z) : Z :=
  wrap (Z.lor (Z.shiftl x c) (Z.shiftr x (32 - c))).

Definition lnot32 (x : Z) : Z := 4294967295 - x.

(** [s.encode()] : UTF-8 of code points below 256. *)
Fixpoint encode (s : string) : list Z :=
  match s with
  | EmptyString => []
  | String c s' =>
      let n := Z.of_nat (nat_of_ascii c) in
      if n <? 128 then n :: encode s'
      else Z.lor 192 (Z.shiftr n 6) :: Z.lor 128 (Z.land n 63) :: encode s'
  end.

Definition K : list Z :=
    [3614090360; 3905402710; 606105819; 3250441966; 4118548399;
     1200080426; 2821735955; 4249261313; 1770035416; 2336552879;
     4294925233; 2304563134; 1804603682; 4254626195; 2792965006;
     1236535329; 4129170786; 3225465664; 643717713; 3921069994;
     3593408605; 38016083; 3634488961; 3889429448; 568446438;
     3275163606; 4107603335; 1163531501; 2850285829; 4243563512;
     1735328473; 2368359562; 4294588738; 2272392833; 1839030562;
     4259657740; 2763975236; 1272893353; 4139469664; 3200236656;
     681279174; 3936430074; 3572445317; 76029189; 3654602809;
     3873151461; 530742520; 3299628645; 4096336452; 1126891415;
     2878612391; 4237533241; 1700485571; 2399980690; 4293915773;
     2240044497; 1873313359; 4264355552; 2734768916; 1309151649;
     4149444226; 3174756917; 718787259; 3951481745].

Definition S : list Z :=
    [7; 12; 17; 22; 7; 12; 17; 22; 7; 12; 17; 22; 7; 12; 17; 22;
     5; 9; 14; 20; 5; 9; 14; 20; 5; 9; 14; 20; 5; 9; 14; 20;
     4; 11; 16; 23; 4; 11; 16; 23; 4; 11; 16; 23; 4; 11; 16; 23;
     6; 10; 15; 21; 6; 10; 15; 21; 6; 10; 15; 21; 6; 10; 15; 21].

(** The bytes of [n] in little-endian order, [count] of them. *)
Fixpoint le_bytes (count : nat) (n : Z) : list Z :=
  match count with
  | O => []
  | Datatypes.S k => n `mod` 256 :: le_bytes k (n `div` 256)
  end.

Definition pad (msg : list Z) : list Z :=
  let len := Z.of_nat (length msg) in
  let zeros := Z.to_nat ((55 - len) `mod` 64) in
  msg ++ [128] ++ List.repeat 0 zeros ++ le_bytes 8 (8 * len).

Fixpoint le_word (bs : list Z) : Z :=
  match bs with
  | [] => 0
  | b :: bs' => b + 256 * le_word bs'
  end.

Fixpoint words (count : nat) (bs : list Z) : list Z :=
  match count with
  | O => []
  | Datatypes.S k => le_word (firstn 4 bs) :: words k (skipn 4 bs)
  end.

Definition round (M : list Z) (st : Z * Z * Z * Z) (i : nat)
  : Z * Z * Z * Z :=
  let '(a, b, c, d) := st in
  let '(f, g) :=
    if (i <? 16)%nat then
      (Z.lor (Z.land b c) (Z.land (lnot32 b) d), i)
    else if (i <? 32)%nat then
      (Z.lor (Z.land d b) (Z.land (lnot32 d) c), ((5 * i + 1) mod 16)%nat)
    else if (i <? 48)%nat then
      (Z.lxor (Z.lxor b c) d, ((3 * i + 5) mod 16)%nat)
    else
      (Z.lxor c (Z.lor b (lnot32 d)), ((7 * i) mod 16)%nat) in
  let f := wrap (f + a + nth i K 0 + nth g M 0) in
  (d, wrap (b + rotl f (nth i S 0)), b, c).

Definition block (st : Z * Z * Z * Z) (bs : list Z) : Z * Z * Z * Z :=
  let M := words 16 bs in
  let '(a, b, c, d) := st in
  let '(a', b', c', d') := fold_left (round M) (seq 0 64) st in
  (wrap (a + a'), wrap (b + b'), wrap (c + c'), wrap (d + d')).

Fixpoint blocks (count : nat) (st : Z * Z * Z * Z) (bs : list Z)
  : Z * Z * Z * Z :=
  match count with
  | O => st
  | Datatypes.S k => blocks k (block st (firstn 64 bs)) (skipn 64 bs)
  end.

Definition digest (msg : list Z) : list Z :=
  let padded := pad msg in
  let '(a, b, c, d) :=
    blocks (length padded / 64)
           (1732584193, 4023233417, 2562383102, 271733878) padded in
  le_bytes 4 a ++ le_bytes 4 b ++ le_bytes 4 c ++ le_bytes 4 d.

Definition hex_digit (n : Z) : ascii :=
  if n <? 10 then ascii_of_nat (48 + Z.to_nat n)
  else ascii_of_nat (87 + Z.to_nat n).

Fixpoint hex (bs : list Z) : string :=
  match bs with
  | [] => EmptyString
  | b :: bs' =>
      String (hex_digit (b `div` 16)) (String (hex_digit (b `mod` 16))
                                              (hex bs'))
  end.

Definition hexdigest (s : string) : string := hex (digest (encode s)).

End MD5.

#[global] Instance md5 : Hash := {| md5_hexdigest := MD5.hexdigest |}.

(** ** Section segmenter ([app/services/section_extractor.py]) *)

Module Heading.
Record t := mk {
  text : string;
  level : nat;
  start : nat;
  end_ : nat
}.
End Heading.

Module ExtractedSection.
Record t := mk {
  section_id : string;
  heading : string;
  heading_level : nat;
  raw_text : string;
  start_pos : nat;
  end_pos : nat;
  token_count : Z
}.
End ExtractedSection.

(** The two heading patterns, matched the way [re] matches them
    (leftmost, greedy or lazy as written, with backtracking). *)
Module Regex.

Definition HASH : ascii := "#"%char.

Fixpoint span (p : ascii -> bool) (s : string) : nat :=
  match s with
  | EmptyString => 0
  | String c s' => if p c then S (span p s') else 0
  end.

Definition not_LF (c : ascii) : bool := negb (Ascii.eqb c Py.LF).

(** For [\s+(.+)$] on [rest], whose leading whitespace run has length [j]
    at the first call: the longest prefix of that run after which a
    character other than a line feed follows; [\s+] gives back one
    character at a time until [.+] can start. *)
Fixpoint group2_start (rest : string) (j : nat) : option nat :=
  match j with
  | O => None
  | S k =>
      match String.get j rest with
      | Some c => if not_LF c then Some j else group2_start rest k
      | None => group2_start rest k
      end
  end.

(** [^(#{1,3})\s+(.+)$] tried at a line start: the level, group 2 and the
    length of the match. *)
Definition md_heading_at (s : string) : option (nat * string * nat) :=
  let h := span (Ascii.eqb HASH) s in
  if (1 <=? h) && (h <=? 3) then
    let rest := Py.drop h s in
    match group2_start rest (span Py.isspace rest) with
    | Some j =>
        let tail := Py.drop j rest in
        let n := span not_LF tail in
        Some (h, Py.take n tail, h + j + n)
    | None => None
    end
  else None.

(** [finditer] of the Markdown pattern under [re.MULTILINE]: [p] is the
    position of [s] in the text, [bol] says that [p] starts a line and
    [skip] counts the characters of the last match still to pass. *)
Fixpoint md_finditer (s : string) (p skip : nat) (bol : bool)
  : list Heading.t :=
  match s with
  | EmptyString => []
  | String c s' =>
      match skip with
      | S k => md_finditer s' (S p) k false
      | O =>
          match (if bol then md_heading_at s else None) with
          | Some (lvl, g2, len) =>
              Heading.mk (Py.strip g2) lvl p (p + len)
              :: md_finditer s' (S p) (len - 1) false
          | None => md_finditer s' (S p) 0 (Ascii.eqb c Py.LF)
          end
      end
  end.

Definition is_h (c : ascii) : bool :=
  Ascii.eqb c "h"%char || Ascii.eqb c "H"%char.

Definition level_of_digit (c : ascii) : option nat :=
  if Ascii.eqb c "1"%char then Some 1
  else if Ascii.eqb c "2"%char then Some 2
  else if Ascii.eqb c "3"%char then Some 3
  else None.

(** [</h\1>] at the head of [s], for the digit [d] of group 1. *)
Definition closes (d : ascii) (s : string) : bool :=
  match s with
  | String c1 (String c2 (String c3 (String c4 (String c5 _)))) =>
      Ascii.eqb c1 "<"%char && Ascii.eqb c2 "/"%char && is_h c3
      && Ascii.eqb c4 d && Ascii.eqb c5 ">"%char
  | _ => false
  end.

(** The lazy [(.+?)]: the least [k >= 1] at which the closing tag
    starts; [body] is the text from offset [k] on. *)
Fixpoint lazy_body (d : ascii) (body : string) (k : nat) : option nat :=
  match body with
  | EmptyString => None
  | String _ body' =>
      if (1 <=? k) && closes d body then Some k
      else lazy_body d body' (S k)
  end.

(** [<h([1-3])[^>]*>(.+?)</h\1>] under [re.IGNORECASE | re.DOTALL],
    tried at the head of [s]. *)
Definition html_heading_at (s : string) : option (nat * string * nat) :=
  match s with
  | String c1 (String c2 (String d rest)) =>
      if Ascii.eqb c1 "<"%char && is_h c2 then
        match level_of_digit d with
        | Some lvl =>
            let a := span (fun c => negb (Ascii.eqb c ">"%char)) rest in
            match Py.drop a rest with
            | String _ body =>
                match lazy_body d body 0 with
                | Some k => Some (lvl, Py.take k body, 3 + a + 1 + k + 5)
                | None => None
                end
            | EmptyString => None
            end
        | None => None
        end
      else None
  | _ => None
  end.

Fixpoint html_finditer (s : string) (p skip : nat) : list Heading.t :=
  match s with
  | EmptyString => []
  | String _ s' =>
      match skip with
      | S k => html_finditer s' (S p) k
      | O =>
          match html_heading_at s with
          | Some (lvl, g2, len) =>
              Heading.mk (Py.strip g2) lvl p (p + len)
              :: html_finditer s' (S p) (len - 1)
          | None => html_finditer s' (S p) 0
          end
      end
  end.

End Regex.

Module SectionExtractor.
Section WithHash.
Context `{Hash}.

Definition estimate_tokens (text : string) : Z :=
  if Py.is_empty text then 0%Z
  else
    let words := Z.of_nat (length (Py.split_ws text)) in
    Z.max 1 (Py.int_times_1_3 words).

Definition generate_section_id (page_url heading : string) (index : nat)
  : string :=
  let content :=
    page_url +:+ ":section:" +:+ Py.str_nat index +:+ ":" +:+ heading in
  Py.take 12 (md5_hexdigest content).

Fixpoint insert_by_start (h : Heading.t) (l : list Heading.t)
  : list Heading.t :=
  match l with
  | [] => [h]
  | x :: l' =>
      if Heading.start h <? Heading.start x then h :: x :: l'
      else x :: insert_by_start h l'
  end.

(** [headings.sort(key=lambda x: x["start"])], a stable sort. *)
Definition sort_by_start (l : list Heading.t) : list Heading.t :=
  fold_left (fun acc h => insert_by_start h acc) l [].

Definition extract_headings (text : string) : list Heading.t :=
  let md := Regex.md_finditer text 0 0 true in
  let headings :=
    if Splitter.is_nil md then Regex.html_finditer text 0 0 else md in
  sort_by_start headings.

(** The body of [for i, heading in enumerate(headings)]: [hs] are the
    headings from the current one on. *)
Fixpoint heading_sections (text page_url : string) (hs : list Heading.t)
         (sections : list ExtractedSection.t) (section_index : nat)
  : list ExtractedSection.t :=
  match hs with
  | [] => sections
  | heading :: rest =>
      let section_start := Heading.end_ heading + 1 in
      let section_end :=
        match rest with
        | next :: _ => Heading.start next
        | [] => String.length text
        end in
      let section_text :=
        Py.strip (Py.slice section_start section_end text) in
      if Py.is_empty section_text || (String.length section_text <? 20)
      then heading_sections text page_url rest sections section_index
      else
        let token_count := estimate_tokens section_text in
        heading_sections text page_url rest
          (sections ++ [ExtractedSection.mk
             (generate_section_id page_url (Heading.text heading)
                                  section_index)
             (Heading.text heading) (Heading.level heading) section_text
             section_start section_end token_count])
          (S section_index)
  end.

Definition extract_sections (cfg : Settings.t) (text page_url : string)
  : list ExtractedSection.t :=
  let headings := extract_headings text in
  let '(sections, section_index) :=
    match headings with
    | h0 :: _ =>
        if 0 <? Heading.start h0 then
          let intro_text := Py.strip (Py.take (Heading.start h0) text) in
          if Py.truthy intro_text && (50 <? String.length intro_text) then
            ([ExtractedSection.mk
                (generate_section_id page_url "Introduction" 0)
                "Introduction" 1 intro_text 0 (Heading.start h0)
                (estimate_tokens intro_text)], 1)
          else ([], 0)
        else ([], 0)
    | [] => ([], 0)
    end in
  let sections :=
    heading_sections text page_url headings sections section_index in
  let sections :=
    if Splitter.is_nil sections && Py.truthy (Py.strip text) then
      sections ++ [ExtractedSection.mk
                     (generate_section_id page_url "Content" 0)
                     "Content" 1 (Py.strip text) 0 (String.length text)
                     (estimate_tokens text)]
    else sections in
  if Settings.max_sections_per_page cfg <? length sections
  then firstn (Settings.max_sections_per_page cfg) sections
  else sections.

Definition is_large_section (cfg : Settings.t) (token_count : Z) : bool :=
  (Settings.section_small_threshold cfg <? token_count)%Z.

End WithHash.
End SectionExtractor.

(** ** The generative service ([LLMService.generate]) *)

Module Request.
Record t := mk {
  prompt : string;
  system_prompt : string;
  max_tokens : Z;
  temperature : Q
}.
End Request.

(** The generative service.  [answer] is what it answers to a request,
    given the requests made before it; [None] is a raised exception
    (transport, authentication, or the rate limit after the retries), and
    [exception_text] is then [str(e)].  A streamed request that fails
    does not raise: [streamed_before] is the tokens it has yielded up to
    the failure (none when the failure is a status code or the rate
    limit) and [stream_error] the text reported for it ([API returned
    500], [Rate limit exceeded. Please try again in a moment.], or
    [str(e)]).  An oracle applied to a log and a request is its
    answer. *)
Record Oracle := mkOracle {
  answer :> list Request.t -> Request.t -> option string;
  exception_text : list Request.t -> Request.t -> string;
  streamed_before : list Request.t -> Request.t -> string;
  stream_error : list Request.t -> Request.t -> string
}.

(** Computations that call the service: they read the oracle, extend the
    log of requests, and either return or raise. *)
Definition LLM (A : Type) : Type :=
  Oracle -> list Request.t -> option A * list Request.t.

#[global] Instance LLM_ret : MRet LLM :=
  fun A (a : A) _ log => (Some a, log).

#[global] Instance LLM_bind : MBind LLM :=
  fun A B (k : A -> LLM B) (m : LLM A) llm log =>
    match m llm log with
    | (Some a, log') => k a llm log'
    | (None, log') => (None, log')
    end.

(** [await llm.generate(...)] *)
Definition generate (req : Request.t) : LLM string :=
  fun llm log => (llm log req, log ++ [req]).

(** ** Prompts ([app/agent/prompts.py]) *)

Module Prompts.

Definition NL : string := String Py.LF EmptyString.

Definition SYSTEM_fact_extraction : string :=
"You are a fact extraction agent.
Extract ONLY factual points and key concepts from the text.
DO NOT summarize, explain, or rewrite.
DO NOT add interpretations or generalizations.
Output bullet points of raw facts only.".

Definition SYSTEM_section_summary : string :=
"You are a documentation summarizer for developers.
Summarize clearly and concisely.
Preserve important technical details.
Use bullet points for lists.
Assume the reader is a contributor who needs actionable information.".

Definition SYSTEM_page_synthesis : string :=
"You are a documentation overview generator.
Create high-level page summaries that:
- Provide a TL;DR (5 bullet points max)
- Highlight relationships between sections
- Avoid repeating section-level details
- Help readers navigate the document quickly".

Definition SYSTEM_followup : string :=
"You are a documentation assistant.
Answer questions ONLY using the provided context.
Be direct and specific.
If information is not in the context, say so clearly.
Cite specific sections when relevant.".

Definition PAGE_TYPE_INSTRUCTIONS (p : PageType) : string :=
  match p with
  | DOCS =>
"Technical documentation for developers.
Focus on: core functionality, usage patterns, configuration, prerequisites."
  | BLOG =>
"Blog post or article.
Focus on: main arguments, key insights, conclusions, practical takeaways."
  | API =>
"API reference documentation.
Focus on: endpoints, request/response formats, parameters, authentication, errors."
  | README =>
"README file or project description.
Focus on: project purpose, installation, quick start, key features."
  | UNKNOWN =>
"General web content.
Focus on: main topics, key information, actionable items."
  end.

Definition build_chunk_fact_extraction_prompt
           (chunk_text chunk_heading : string) : string :=
  "Section: " +:+ chunk_heading +:+ "

Text:
" +:+ chunk_text +:+ "

Extract factual points and key concepts only.
Do not summarize, explain, or rewrite.
Output as bullet points:".

Definition build_section_summary_prompt_direct
           (section_text section_heading : string) (page_type : PageType)
  : string :=
  "Summarize this documentation section clearly and concisely.
Assume the reader is a contributor.
Preserve important technical details.

Page Type: " +:+ PageType_value page_type +:+ NL
  +:+ PAGE_TYPE_INSTRUCTIONS page_type +:+ "

Section: " +:+ section_heading +:+ "

Content:
" +:+ section_text +:+ "

Summary (2-4 paragraphs, use bullet points for lists):".

Definition build_section_summary_prompt_from_facts
           (merged_facts section_heading : string) (page_type : PageType)
  : string :=
  "Summarize this documentation section using the extracted facts.
Assume the reader is a contributor.
Preserve important technical details.

Page Type: " +:+ PageType_value page_type +:+ NL
  +:+ PAGE_TYPE_INSTRUCTIONS page_type +:+ "

Section: " +:+ section_heading +:+ "

Extracted Facts:
" +:+ merged_facts +:+ "

Summary (2-4 paragraphs, synthesize the facts into a coherent summary):".

(** The loop over [enumerate(section_summaries.items(), 1)]. *)
Fixpoint summaries_text (items : list (string * string)) (i : nat)
  : string :=
  match items with
  | [] => EmptyString
  | (_, summary) :: rest =>
      (NL +:+ "**Section " +:+ Py.str_nat i +:+ ":**" +:+ NL +:+ summary
       +:+ NL) +:+ summaries_text rest (S i)
  end.

Definition build_page_synthesis_prompt
           (section_summaries : list (string * string))
           (page_title : string) (page_type : PageType) : string :=
  let title_context :=
    if Py.truthy page_title then "Page: " +:+ page_title +:+ NL
    else EmptyString in
  "Create a high-level overview of this page.
Highlight relationships between sections.
Avoid repeating section-level details.

" +:+ title_context +:+ "Page Type: " +:+ PageType_value page_type +:+ "

Section Summaries:
" +:+ summaries_text section_summaries 1 +:+ "

Generate:
1. **TL;DR** (5 bullet points max - the essential takeaways)
2. **Section Outline** (brief description of what each section covers)

Page Overview:".

Definition build_followup_prompt
           (user_query retrieved_context page_title : string) : string :=
  let title_context :=
    if Py.truthy page_title then "Document: " +:+ page_title +:+ NL
    else EmptyString in
  "Answer the following question using ONLY the provided context.
Be precise and specific.
If the context doesn't contain enough information, say so clearly.

" +:+ title_context +:+ "
Relevant Context:
" +:+ retrieved_context +:+ "

Question: " +:+ user_query +:+ "

Provide a clear, direct answer. Cite specific sections when relevant.

Answer:".

End Prompts.

(** ** Python dictionaries that keep insertion order *)

Module Dict.

(** [d[k] = v] : a present key keeps its place, a new key goes last. *)
Fixpoint set (k v : string) (d : list (string * string))
  : list (string * string) :=
  match d with
  | [] => [(k, v)]
  | (k', v') :: d' =>
      if String.eqb k' k then (k, v) :: d' else (k', v') :: set k v d'
  end.

Fixpoint get (k : string) (d : list (string * string)) : option string :=
  match d with
  | [] => None
  | (k', v') :: d' => if String.eqb k' k then Some v' else get k d'
  end.

Definition values (d : list (string * string)) : list string := map snd d.

End Dict.

(** ** Scores *)

Module Score.

Definition ltb (a b : Q) : bool := negb (Qle_bool b a).

(** The nearest integer to a rational [q >= 0], ties to even. *)
Definition round_half_even (q : Q) : Z :=
  let n := Qnum q in
  let d := Z.pos (Qden q) in
  let f := (n `div` d)%Z in
  let r := (n `mod` d)%Z in
  if (2 * r <? d)%Z then f
  else if (d <? 2 * r)%Z then (f + 1)%Z
  else if Z.even f then f else (f + 1)%Z.

(** [f"{score:.2f}"] : the decimal with two places nearest to the value
    of the float, ties to even, with the sign of the float. *)
Definition format_2f (q : Q) : string :=
  let hundredths := Z.to_nat (round_half_even (Qabs q * (100 # 1))%Q) in
  (if (Qnum q <? 0)%Z then "-" else EmptyString)
  +:+ Py.str_nat (hundredths / 10 / 10) +:+ "."
  +:+ String (Py.digit (hundredths / 10 mod 10))
        (String (Py.digit (hundredths mod 10)) EmptyString).

Fixpoint insert_desc {A} (key : A -> Q) (x : A) (l : list A) : list A :=
  match l with
  | [] => [x]
  | y :: l' =>
      if ltb (key y) (key x) then x :: y :: l'
      else y :: insert_desc key x l'
  end.

(** [l.sort(key=key, reverse=True)] : descending and stable. *)
Definition sort_desc {A} (key : A -> Q) (l : list A) : list A :=
  fold_left (fun acc x => insert_desc key x acc) l [].

End Score.

(** ** The embedding model and the metric of the index *)

Class Embedder := {
  Vec : Type;
  (** [input_type = "passage"], one vector per text *)
  embed_passage : string -> Vec;
  (** [input_type = "query"] *)
  embed_query : string -> Vec;
  (** the similarity the index ranks by (cosine) *)
  metric : Vec -> Vec -> Q
}.

(** ** Failures of the remote services

    The embedding model ([client.inference.embed]) and the index
    ([index.describe_index_stats], [index.upsert], [index.query]) are
    remote: a call returns, with the result and the effect modelled
    below, or raises.  The functions of [PineconeClient] and
    [RetrievalService] that carry the names of the source describe
    calls that return.  The nodes make these calls inside a [try]; for
    them a [Fault] says which remote call raises during one run of the
    node, if one does, with [str(e)] of the exception: the calls before
    it have returned, and the calls after it are not made. *)
Inductive Fault :=
  | no_fault
  (** [index.describe_index_stats()] raises *)
  | stats_raises (e : string)
  (** [client.inference.embed(...)] raises, for a batch of passages or
      for the query *)
  | embed_raises (e : string)
  (** [index.upsert(...)] raises for batch number [batch], counted
      from 0 *)
  | upsert_raises (batch : nat) (e : string)
  (** [index.query(...)] raises *)
  | query_raises (e : string).

(** ** Vector index ([app/services/pinecone_client.py]) *)

Module Metadata.
Record t := mk {
  vector_id : string;
  page_url : string;
  section_id : string;
  heading : string;
  text : string;
  section_text : string;
  summary_text : string;
  embedding_type : EmbeddingType
}.
End Metadata.

(** A section as the nodes hand it to the store: a dict with the keys
    [section_id], [heading], [text] and [summary_text]; every [.get] of
    the store finds its key. *)
Module SectionDict.
Record t := mk {
  section_id : string;
  heading : string;
  text : string;
  summary_text : string
}.
End SectionDict.

(** A search result: the dict built by [search_sections] or by the legacy
    [search_similar]; a key that one of them does not set is [None]. *)
Module Result.
Record t := mk {
  section_id : string;
  score : Q;
  text : string;
  heading : string;
  summary_text : option string;
  embedding_type : option EmbeddingType;
  chunk_id : option string;
  chunk_index : option Z
}.
End Result.

Module PineconeClient.
Section WithServices.
Context `{Python} `{Hash} `{Embedder}.

Record Vector := mkVector {
  id : string;
  values : Vec;
  metadata : Metadata.t
}.

Record Match := mkMatch {
  match_id : string;
  match_score : Q;
  match_metadata : Metadata.t
}.

(** The index: namespace, then vector id. *)
Abbreviation Index := (gmap string (gmap string Vector)).

Definition namespace_of (idx : Index) (namespace : string)
  : gmap string Vector :=
  default ∅ (idx !! namespace).

(** [index.upsert(vectors=batch, namespace=namespace)] : each vector
    replaces the one stored under its id, or is added. *)
Definition index_upsert (batch : list Vector) (namespace : string)
           (idx : Index) : Index :=
  if Splitter.is_nil batch then idx
  else <[namespace :=
           fold_left (fun m v => <[id v := v]> m) batch
                     (namespace_of idx namespace)]> idx.

(** [index.query(vector, top_k, namespace, include_metadata=True,
    filter={"embedding_type": {"$eq": e}})] : the [top_k] best scored
    vectors of the namespace among those whose metadata pass the
    filter, best first. *)
Definition index_query (idx : Index) (vector : Vec) (top_k : nat)
           (namespace : string) (filter : option EmbeddingType)
  : list Match :=
  let stored := map snd (map_to_list (namespace_of idx namespace)) in
  let eligible :=
    List.filter
      (fun v => match filter with
                | Some e =>
                    EmbeddingType_eqb
                      (Metadata.embedding_type (metadata v)) e
                | None => true
                end) stored in
  let scored :=
    map (fun v => mkMatch (id v) (metric vector (values v)) (metadata v))
        eligible in
  firstn top_k (Score.sort_desc match_score scored).

Definition generate_namespace (page_url : string) : string :=
  Py.take 16 (md5_hexdigest page_url).

(** [f"{page_url}:{section_id}:{embedding_type}"]: the role enters the
    id as the object passed formats. *)
Definition generate_section_id (page_url section_id : string)
           (embedding_type : RoleArg) : string :=
  let content :=
    page_url +:+ ":" +:+ section_id +:+ ":"
    +:+ format_role embedding_type in
  md5_hexdigest content.

Fixpoint batches {A} (fuel size : nat) (l : list A) : list (list A) :=
  match fuel with
  | O => []
  | S f =>
      match l with
      | [] => []
      | _ => firstn size l :: batches f size (skipn size l)
      end
  end.

(** [for i in range(0, len(vectors), batch_size)] with 100 per batch. *)
Definition _batch_upsert (vectors : list Vector) (namespace : string)
           (idx : Index) : Index * nat :=
  let batch_size := 100 in
  fold_left
    (fun '(idx, total_upserted) batch =>
       (index_upsert batch namespace idx, total_upserted + length batch))
    (batches (length vectors) batch_size vectors) (idx, 0).

(** The vector built for one section.  The metadata holds the object
    passed as [embedding_type]; the index stores it as the string it
    is. *)
Definition section_vector (page_url : string)
           (embedding_type : RoleArg)
           (section : SectionDict.t) (embedding : Vec) : Vector :=
  let vector_id :=
    generate_section_id page_url (SectionDict.section_id section)
                        embedding_type in
  mkVector vector_id embedding
    (Metadata.mk vector_id page_url (SectionDict.section_id section)
       (SectionDict.heading section)
       (Py.take 1000 (SectionDict.text section))
       (SectionDict.text section)
       (SectionDict.summary_text section)
       (role_of embedding_type)).

Definition upsert_sections (page_url : string)
           (sections : list SectionDict.t) (embeddings : list Vec)
           (embedding_type : RoleArg) (idx : Index) : Index * nat :=
  let namespace := generate_namespace page_url in
  let vectors :=
    map (fun '(section, embedding) =>
           section_vector page_url embedding_type section embedding)
        (combine sections embeddings) in
  _batch_upsert vectors namespace idx.

(** The loop of [_batch_upsert] from batch number [i] on, when an upsert
    may raise: the batches before the one that raises are written. *)
Fixpoint attempt_batches (fault : Fault) (i : nat)
         (batches : list (list Vector)) (namespace : string)
         (idx : Index) (total_upserted : nat) : Index * (string + nat) :=
  match batches with
  | [] => (idx, inr total_upserted)
  | batch :: rest =>
      let raised :=
        match fault with
        | upsert_raises k e => if k =? i then Some e else None
        | _ => None
        end in
      match raised with
      | Some e => (idx, inl e)
      | None =>
          attempt_batches fault (S i) rest namespace
                          (index_upsert batch namespace idx)
                          (total_upserted + length batch)
      end
  end.

(** [upsert_sections] as a [try] around it sees it: the index it leaves,
    and the count it returns or [str(e)] of the exception. *)
Definition attempt_upsert_sections (fault : Fault) (page_url : string)
           (sections : list SectionDict.t) (embeddings : list Vec)
           (embedding_type : RoleArg) (idx : Index)
  : Index * (string + nat) :=
  let namespace := generate_namespace page_url in
  let vectors :=
    map (fun '(section, embedding) =>
           section_vector page_url embedding_type section embedding)
        (combine sections embeddings) in
  attempt_batches fault 0 (batches (length vectors) 100 vectors)
                  namespace idx 0.

(** The filter [{"embedding_type": {"$eq": embedding_type}}] compares the
    string stored with the string that the object passed is, whether a
    plain string or a member of the enum: the search takes the role. *)
Definition search_sections (idx : Index) (page_url : string)
           (query_embedding : Vec) (embedding_type : EmbeddingType)
           (top_k : nat) (score_threshold : Q) : list Result.t :=
  let namespace := generate_namespace page_url in
  let matches :=
    index_query idx query_embedding top_k namespace
                (Some embedding_type) in
  map (fun m =>
         let md := match_metadata m in
         Result.mk (Metadata.section_id md) (match_score m)
                   (Metadata.section_text md) (Metadata.heading md)
                   (Some (Metadata.summary_text md))
                   (Some (Metadata.embedding_type md)) None None)
      (List.filter (fun m => Qle_bool score_threshold (match_score m))
                   matches).

(** The legacy search: the query carries no filter. *)
Definition search_similar (idx : Index) (page_url : string)
           (query_embedding : Vec) (top_k : nat) (score_threshold : Q)
  : list Result.t :=
  let namespace := generate_namespace page_url in
  let matches := index_query idx query_embedding top_k namespace None in
  map (fun m =>
         let md := match_metadata m in
         Result.mk (Metadata.section_id md) (match_score m)
                   (Metadata.section_text md) (Metadata.heading md)
                   None None (Some (match_id m)) (Some 0%Z))
      (List.filter (fun m => Qle_bool score_threshold (match_score m))
                   matches).

Definition delete_page_vectors (page_url : string) (idx : Index) : Index :=
  delete (generate_namespace page_url) idx.

Definition check_page_exists (idx : Index) (page_url : string) : bool :=
  match idx !! generate_namespace page_url with
  | Some m => 0 <? size m
  | None => false
  end.

End WithServices.
End PineconeClient.

(** ** Retrieval service ([app/services/retrieval.py]) *)

Module RetrievalService.
Section WithServices.
Context `{Python} `{Hash} `{Embedder}.

Abbreviation Index := (gmap string (gmap string PineconeClient.Vector)).

(** [if embedding_type == "source": ... else: ...]: a member of the enum
    equals its value. *)
Definition texts_to_embed (embedding_type : RoleArg)
           (sections : list SectionDict.t) : list string :=
  match role_of embedding_type with
  | SOURCE => map SectionDict.text sections
  | SUMMARY => map SectionDict.summary_text sections
  end.

Definition store_sections (idx : Index) (page_url : string)
           (sections : list SectionDict.t)
           (embedding_type : RoleArg) : Index * nat :=
  if Splitter.is_nil sections then (idx, 0)
  else
    let texts := texts_to_embed embedding_type sections in
    let embeddings := map embed_passage texts in
    PineconeClient.upsert_sections page_url sections embeddings
                                   embedding_type idx.

(** [store_sections] as a [try] around it sees it: [embed_texts] raises
    before anything is written, an upsert after the batches before
    it. *)
Definition attempt_store_sections (fault : Fault) (idx : Index)
           (page_url : string) (sections : list SectionDict.t)
           (embedding_type : RoleArg) : Index * (string + nat) :=
  if Splitter.is_nil sections then (idx, inr 0)
  else
    let texts := texts_to_embed embedding_type sections in
    match fault with
    | embed_raises e => (idx, inl e)
    | _ =>
        let embeddings := map embed_passage texts in
        PineconeClient.attempt_upsert_sections
          fault page_url sections embeddings embedding_type idx
    end.

(** [top_k or self.top_k] *)
Definition top_k_or (cfg : Settings.t) (top_k : option nat) : nat :=
  match top_k with
  | Some (S k) => S k
  | _ => Settings.top_k_retrieval cfg
  end.

(** [score_threshold or self.threshold] *)
Definition threshold_or (cfg : Settings.t) (score_threshold : option Q)
  : Q :=
  match score_threshold with
  | Some t => if Qeq_bool t 0 then Settings.similarity_threshold cfg else t
  | None => Settings.similarity_threshold cfg
  end.

Definition retrieve_sections (cfg : Settings.t) (idx : Index)
           (page_url query : string) (embedding_type : EmbeddingType)
           (top_k : option nat) (score_threshold : option Q)
  : list Result.t :=
  let top_k := top_k_or cfg top_k in
  let score_threshold := threshold_or cfg score_threshold in
  let query_embedding := embed_query query in
  let results :=
    PineconeClient.search_sections idx page_url query_embedding
                                   embedding_type top_k score_threshold in
  Score.sort_desc Result.score results.

Definition section_block (section : Result.t) : string :=
  "## " +:+ Result.heading section +:+ " (relevance: "
  +:+ Score.format_2f (Result.score section) +:+ ")" +:+ Prompts.NL
  +:+ Result.text section +:+ Prompts.NL.

Definition tokens_of (section_text : string) : Z :=
  (Z.of_nat (String.length section_text) `div` 4)%Z.

(** The loop of [build_context_from_sections]; returning without the
    recursive call is its [break]. *)
Fixpoint context_loop (max_tokens : Z) (sections : list Result.t)
         (context_parts : list string) (current_length : Z)
  : list string :=
  match sections with
  | [] => context_parts
  | section :: rest =>
      let section_text := section_block section in
      let section_tokens := tokens_of section_text in
      if (max_tokens <? current_length + section_tokens)%Z then
        let remaining := (max_tokens - current_length)%Z in
        let remaining_chars := (remaining * 4)%Z in
        if (100 <? remaining_chars)%Z then
          context_parts
          ++ [Py.take (Z.to_nat remaining_chars) section_text +:+ "..."]
        else context_parts
      else
        context_loop max_tokens rest (context_parts ++ [section_text])
                     (current_length + section_tokens)%Z
  end.

Definition build_context_from_sections (sections : list Result.t)
           (max_tokens : Z) : string :=
  if Splitter.is_nil sections then EmptyString
  else Py.join Prompts.NL (context_loop max_tokens sections [] 0%Z).

Definition retrieve_relevant_chunks (cfg : Settings.t) (idx : Index)
           (page_url query : string)
           (top_k : option nat) (score_threshold : option Q)
  : list Result.t :=
  let top_k := top_k_or cfg top_k in
  let score_threshold := threshold_or cfg score_threshold in
  let query_embedding := embed_query query in
  let results :=
    PineconeClient.search_similar idx page_url query_embedding
                                  top_k score_threshold in
  Score.sort_desc Result.score results.

Definition build_context_from_chunks (chunks : list Result.t)
           (max_tokens : Z) : string :=
  build_context_from_sections chunks max_tokens.

Definition check_page_indexed (idx : Index) (page_url : string) : bool :=
  PineconeClient.check_page_exists idx page_url.

Definition reindex_page (idx : Index) (page_url : string)
           (sections : list SectionDict.t) : Index * nat :=
  store_sections (PineconeClient.delete_page_vectors page_url idx)
                 page_url sections (Str SOURCE).

(** [check_page_indexed] and [retrieve_sections] as a [try] around them
    sees them: the result, or [str(e)] of the exception. *)
Definition attempt_check_page_indexed (fault : Fault) (idx : Index)
           (page_url : string) : string + bool :=
  match fault with
  | stats_raises e => inl e
  | _ => inr (check_page_indexed idx page_url)
  end.

Definition attempt_retrieve_sections (fault : Fault) (cfg : Settings.t)
           (idx : Index) (page_url query : string)
           (embedding_type : EmbeddingType)
           (top_k : option nat) (score_threshold : option Q)
  : string + list Result.t :=
  match fault with
  | embed_raises e | query_raises e => inl e
  | _ =>
      inr (retrieve_sections cfg idx page_url query embedding_type
                             top_k score_threshold)
  end.

End WithServices.
End RetrievalService.

Module RetrievedSection.
Record t := mk {
  section_id : string;
  heading : string;
  text : string;
  summary_text : option string;
  score : Q;
  embedding_type : EmbeddingType
}.
End RetrievedSection.

(** The state passed between the nodes.  A node returns the fields it
    changes and the graph merges them into the state; here a node returns
    the merged state.  The deprecated fields ([chunks], [summaries]) and
    the conversation and streaming fields, which no node below reads or
    writes, are left out. *)
Module AgentState.
Record t := mk {
  page_url : string;
  page_title : string;
  page_text : string;
  page_type : PageType;
  sections : list SectionData.t;
  current_section_index : nat;
  section_summaries : list (string * string);
  page_summary : string;
  final_summary : string;
  embeddings_saved : bool;
  summary_embeddings_saved : bool;
  user_query : option string;
  retrieved_sections : list RetrievedSection.t;
  followup_response : string;
  current_status : string;
  error : option string
}.

Definition set_sections (v : list SectionData.t) (s : t) : t :=
  mk (page_url s) (page_title s) (page_text s) (page_type s) v
     (current_section_index s) (section_summaries s) (page_summary s)
     (final_summary s) (embeddings_saved s) (summary_embeddings_saved s)
     (user_query s) (retrieved_sections s) (followup_response s)
     (current_status s) (error s).

Definition set_current_section_index (v : nat) (s : t) : t :=
  mk (page_url s) (page_title s) (page_text s) (page_type s) (sections s) v
     (section_summaries s) (page_summary s) (final_summary s)
     (embeddings_saved s) (summary_embeddings_saved s) (user_query s)
     (retrieved_sections s) (followup_response s) (current_status s)
     (error s).

Definition set_section_summaries (v : list (string * string)) (s : t) : t :=
  mk (page_url s) (page_title s) (page_text s) (page_type s) (sections s)
     (current_section_index s) v (page_summary s) (final_summary s)
     (embeddings_saved s) (summary_embeddings_saved s) (user_query s)
     (retrieved_sections s) (followup_response s) (current_status s)
     (error s).

Definition set_page_summary (v : string) (s : t) : t :=
  mk (page_url s) (page_title s) (page_text s) (page_type s) (sections s)
     (current_section_index s) (section_summaries s) v (final_summary s)
     (embeddings_saved s) (summary_embeddings_saved s) (user_query s)
     (retrieved_sections s) (followup_response s) (current_status s)
     (error s).

Definition set_final_summary (v : string) (s : t) : t :=
  mk (page_url s) (page_title s) (page_text s) (page_type s) (sections s)
     (current_section_index s) (section_summaries s) (page_summary s) v
     (embeddings_saved s) (summary_embeddings_saved s) (user_query s)
     (retrieved_sections s) (followup_response s) (current_status s)
     (error s).

Definition set_embeddings_saved (v : bool) (s : t) : t :=
  mk (page_url s) (page_title s) (page_text s) (page_type s) (sections s)
     (current_section_index s) (section_summaries s) (page_summary s)
     (final_summary s) v (summary_embeddings_saved s) (user_query s)
     (retrieved_sections s) (followup_response s) (current_status s)
     (error s).

Definition set_summary_embeddings_saved (v : bool) (s : t) : t :=
  mk (page_url s) (page_title s) (page_text s) (page_type s) (sections s)
     (current_section_index s) (section_summaries s) (page_summary s)
     (final_summary s) (embeddings_saved s) v (user_query s)
     (retrieved_sections s) (followup_response s) (current_status s)
     (error s).

Definition set_user_query (v : option string) (s : t) : t :=
  mk (page_url s) (page_title s) (page_text s) (page_type s) (sections s)
     (current_section_index s) (section_summaries s) (page_summary s)
     (final_summary s) (embeddings_saved s) (summary_embeddings_saved s) v
     (retrieved_sections s) (followup_response s) (current_status s)
     (error s).

Definition set_retrieved_sections (v : list RetrievedSection.t) (s : t) : t :=
  mk (page_url s) (page_title s) (page_text s) (page_type s) (sections s)
     (current_section_index s) (section_summaries s) (page_summary s)
     (final_summary s) (embeddings_saved s) (summary_embeddings_saved s)
     (user_query s) v (followup_response s) (current_status s) (error s).

Definition set_followup_response (v : string) (s : t) : t :=
  mk (page_url s) (page_title s) (page_text s) (page_type s) (sections s)
     (current_section_index s) (section_summaries s) (page_summary s)
     (final_summary s) (embeddings_saved s) (summary_embeddings_saved s)
     (user_query s) (retrieved_sections s) v (current_status s) (error s).

Definition set_current_status (v : string) (s : t) : t :=
  mk (page_url s) (page_title s) (page_text s) (page_type s) (sections s)
     (current_section_index s) (section_summaries s) (page_summary s)
     (final_summary s) (embeddings_saved s) (summary_embeddings_saved s)
     (user_query s) (retrieved_sections s) (followup_response s) v
     (error s).

Definition set_error (v : option string) (s : t) : t :=
  mk (page_url s) (page_title s) (page_text s) (page_type s) (sections s)
     (current_section_index s) (section_summaries s) (page_summary s)
     (final_summary s) (embeddings_saved s) (summary_embeddings_saved s)
     (user_query s) (retrieved_sections s) (followup_response s)
     (current_status s) v.

(** [AgentState(page_url=..., page_text=..., page_title=...)] with the
    defaults of the schema. *)
Definition create_initial_state (page_url page_text page_title : string)
  : t :=
  mk page_url page_title page_text UNKNOWN [] 0 [] EmptyString EmptyString
     false false None [] EmptyString "reading page" None.

Definition create_followup_state (existing_state : t)
           (user_query : string) : t :=
  set_error None
    (set_current_status "processing query"
       (set_followup_response EmptyString
          (set_retrieved_sections []
             (set_user_query (Some user_query) existing_state)))).
End AgentState.

(** ** Nodes of the graph ([app/agent/nodes.py]) *)

(** A node that catches every exception of its body: it always returns a
    state. *)
Definition Node : Type :=
  Oracle -> list Request.t -> AgentState.t * list Request.t.

Definition request (prompt system_prompt : string) (max_tokens : Z)
           (temperature : Q) : Request.t :=
  Request.mk prompt system_prompt max_tokens temperature.

Definition direct_summary_request (section : SectionData.t)
           (page_type : PageType) : Request.t :=
  request
    (Prompts.build_section_summary_prompt_direct
       (SectionData.raw_text section) (SectionData.heading section)
       page_type)
    Prompts.SYSTEM_section_summary 512 (5 # 10).

Definition _process_small_section (section : SectionData.t)
           (page_type : PageType) : LLM string :=
  generate (direct_summary_request section page_type).

Definition fact_request (section : SectionData.t) (chunk : ChunkData.t)
  : Request.t :=
  request
    (Prompts.build_chunk_fact_extraction_prompt
       (ChunkData.text chunk) (SectionData.heading section))
    Prompts.SYSTEM_fact_extraction 300 (3 # 10).

(** [for chunk in chunks: ... all_facts.append(facts)] *)
Fixpoint extract_facts (section : SectionData.t) (chunks : list ChunkData.t)
         (all_facts : list string) : LLM (list string) :=
  match chunks with
  | [] => mret all_facts
  | chunk :: rest =>
      facts ← generate (fact_request section chunk);
      extract_facts section rest (all_facts ++ [facts])
  end.

Definition summary_from_facts_request (section : SectionData.t)
           (page_type : PageType) (merged_facts : string) : Request.t :=
  request
    (Prompts.build_section_summary_prompt_from_facts
       merged_facts (SectionData.heading section) page_type)
    Prompts.SYSTEM_section_summary 512 (5 # 10).

Definition _process_large_section (cfg : Settings.t)
           (section : SectionData.t) (page_type : PageType) : LLM string :=
  let chunks := _split_section_into_chunks cfg section in
  all_facts ← extract_facts section chunks [];
  let merged_facts := Py.join Prompts.NL all_facts in
  generate (summary_from_facts_request section page_type merged_facts).

Definition error_placeholder (section : SectionData.t) : string :=
  "[Error summarizing: " +:+ SectionData.heading section +:+ "]".

(** [section.model_copy(update={"summary_text": summary,
    "is_summarized": True})] *)
Definition summarized (summary : string) (s : SectionData.t)
  : SectionData.t :=
  SectionData.mk (SectionData.section_id s) (SectionData.heading s)
    (SectionData.heading_level s) (SectionData.raw_text s)
    (SectionData.token_count s) (SectionData.is_large s)
    (SectionData.chunks s) (SectionData.merged_facts s)
    (Some summary) true
    (SectionData.source_embedded s) (SectionData.summary_embedded s).

(** The body of the [try] of [process_section_node]. *)
Definition summarize_section (cfg : Settings.t) (section : SectionData.t)
           (page_type : PageType) : LLM string :=
  if SectionData.is_large section
  then _process_large_section cfg section page_type
  else _process_small_section section page_type.

Definition process_section_node (cfg : Settings.t) (state : AgentState.t)
  : Node :=
  fun llm log =>
    let idx := AgentState.current_section_index state in
    match AgentState.sections state !! idx with
    | None =>
        (AgentState.set_current_status "all sections processed" state, log)
    | Some section =>
        let n := length (AgentState.sections state) in
        match summarize_section cfg section (AgentState.page_type state)
                                llm log with
        | (Some summary, log') =>
            let updated_summaries :=
              Dict.set (SectionData.section_id section) summary
                       (AgentState.section_summaries state) in
            let updated_sections :=
              <[idx := summarized summary section]>
                (AgentState.sections state) in
            (AgentState.set_current_status
               ("summarized section " +:+ Py.str_nat (idx + 1) +:+ "/"
                +:+ Py.str_nat n)
               (AgentState.set_current_section_index (idx + 1)
                  (AgentState.set_section_summaries updated_summaries
                     (AgentState.set_sections updated_sections state))),
             log')
        | (None, log') =>
            let updated_summaries :=
              Dict.set (SectionData.section_id section)
                       (error_placeholder section)
                       (AgentState.section_summaries state) in
            (AgentState.set_current_status
               ("error on section " +:+ Py.str_nat (idx + 1))
               (AgentState.set_current_section_index (idx + 1)
                  (AgentState.set_section_summaries updated_summaries
                     state)),
             log')
        end
    end.

Definition should_continue_processing (state : AgentState.t) : string :=
  if AgentState.current_section_index state
     <? length (AgentState.sections state)
  then "continue" else "embed".

Definition synthesis_request (state : AgentState.t) : Request.t :=
  request
    (Prompts.build_page_synthesis_prompt
       (AgentState.section_summaries state) (AgentState.page_title state)
       (AgentState.page_type state))
    Prompts.SYSTEM_page_synthesis 800 (5 # 10).

Definition synthesize_page_node (state : AgentState.t) : Node :=
  fun llm log =>
    let summaries := AgentState.section_summaries state in
    if Splitter.is_nil summaries then
      (AgentState.set_current_status "complete"
         (AgentState.set_page_summary "No content was summarized." state),
       log)
    else if length summaries =? 1 then
      let only_summary := List.hd EmptyString (Dict.values summaries) in
      (AgentState.set_current_status "complete"
         (AgentState.set_final_summary only_summary
            (AgentState.set_page_summary only_summary state)),
       log)
    else
      match generate (synthesis_request state) llm log with
      | (Some page_summary, log') =>
          (AgentState.set_current_status "complete"
             (AgentState.set_final_summary page_summary
                (AgentState.set_page_summary page_summary state)),
           log')
      | (None, log') =>
          let fallback :=
            Py.join (Prompts.NL +:+ Prompts.NL +:+ "---" +:+ Prompts.NL
                     +:+ Prompts.NL)
                    (Dict.values summaries) in
          (AgentState.set_current_status "complete (synthesis failed)"
             (AgentState.set_final_summary fallback
                (AgentState.set_page_summary fallback state)),
           log')
      end.

(** The loop of the summarisation graph: [process_section], then the
    conditional edge [should_continue_processing].  The result carries
    the number of times the node ran; [None] is fuel exhausted. *)
Fixpoint section_loop (cfg : Settings.t) (fuel : nat)
         (state : AgentState.t) (runs : nat)
         (llm : Oracle) (log : list Request.t)
  : option (AgentState.t * nat * list Request.t) :=
  match fuel with
  | O => None
  | S fuel' =>
      let '(state', log') := process_section_node cfg state llm log in
      if String.eqb (should_continue_processing state') "continue"
      then section_loop cfg fuel' state' (S runs) llm log'
      else Some (state', S runs, log')
  end.

(** The requests of the direct path: the one summary request built from
    the raw text of the section. *)
Definition direct_trace (section : SectionData.t) (page_type : PageType)
           (log log' : list Request.t) : Prop :=
  log' = log ++ [direct_summary_request section page_type].

(** The requests of the hierarchical path: one fact extraction per chunk
    of the splitter, in chunk order, then, once all have answered, the
    summary request built from the merged facts; after a fact extraction
    that fails, nothing more. *)
Definition hierarchical_trace (cfg : Settings.t) (section : SectionData.t)
           (page_type : PageType) (log log' : list Request.t) : Prop :=
  let chunks := _split_section_into_chunks cfg section in
  (exists facts : list string,
      length facts = length chunks
      /\ log' = log ++ map (fact_request section) chunks
                ++ [summary_from_facts_request
                      section page_type (Py.join Prompts.NL facts)])
  \/ (exists k, k < length chunks
               /\ log' = log ++ map (fact_request section)
                                    (firstn (S k) chunks)).

Section NodesWithServices.
Context `{Python} `{Hash} `{Embedder}.

Abbreviation Index := (gmap string (gmap string PineconeClient.Vector)).

Definition section_data_of (cfg : Settings.t)
           (raw : ExtractedSection.t) : SectionData.t :=
  let is_large :=
    SectionExtractor.is_large_section
      cfg (ExtractedSection.token_count raw) in
  SectionData.mk (ExtractedSection.section_id raw)
    (ExtractedSection.heading raw) (ExtractedSection.heading_level raw)
    (ExtractedSection.raw_text raw) (ExtractedSection.token_count raw)
    is_large [] None None false false false.

Definition extract_sections_node (cfg : Settings.t)
           (state : AgentState.t) : AgentState.t :=
  let raw_sections :=
    SectionExtractor.extract_sections
      cfg (AgentState.page_text state) (AgentState.page_url state) in
  let sections := map (section_data_of cfg) raw_sections in
  AgentState.set_current_status
    ("extracted " +:+ Py.str_nat (length sections) +:+ " sections")
    (AgentState.set_current_section_index 0
       (AgentState.set_sections sections state)).

Definition source_embedded (s : SectionData.t) : SectionData.t :=
  SectionData.mk (SectionData.section_id s) (SectionData.heading s)
    (SectionData.heading_level s) (SectionData.raw_text s)
    (SectionData.token_count s) (SectionData.is_large s)
    (SectionData.chunks s) (SectionData.merged_facts s)
    (SectionData.summary_text s) (SectionData.is_summarized s)
    true (SectionData.summary_embedded s).

Definition summary_embedded (s : SectionData.t) : SectionData.t :=
  SectionData.mk (SectionData.section_id s) (SectionData.heading s)
    (SectionData.heading_level s) (SectionData.raw_text s)
    (SectionData.token_count s) (SectionData.is_large s)
    (SectionData.chunks s) (SectionData.merged_facts s)
    (SectionData.summary_text s) (SectionData.is_summarized s)
    (SectionData.source_embedded s) true.

(** [for section in state.sections: sections_for_embedding.append({...})] *)
Definition sections_for_embedding (sections : list SectionData.t)
  : list SectionDict.t :=
  map (fun section =>
         SectionDict.mk (SectionData.section_id section)
           (SectionData.heading section)
           (SectionData.raw_text section)
           (default EmptyString (SectionData.summary_text section)))
      sections.

(** The node passes the member [EmbeddingType.SOURCE].  An exception of
    the check or of the store is caught: the state then says that the
    embeddings are not saved, and the index keeps what was written
    before the exception. *)
Definition embed_section_source_node (fault : Fault)
           (state : AgentState.t) (idx : Index) : AgentState.t * Index :=
  let skipped :=
    AgentState.set_current_status "embedding skipped (error)"
      (AgentState.set_embeddings_saved false state) in
  match RetrievalService.attempt_check_page_indexed
          fault idx (AgentState.page_url state) with
  | inl e => (skipped, idx)
  | inr true =>
      (AgentState.set_current_status "using cached source embeddings"
         (AgentState.set_embeddings_saved true state), idx)
  | inr false =>
      match RetrievalService.attempt_store_sections
              fault idx (AgentState.page_url state)
              (sections_for_embedding (AgentState.sections state))
              (Member SOURCE) with
      | (idx', inr stored_count) =>
          let updated_sections :=
            map source_embedded (AgentState.sections state) in
          (AgentState.set_current_status
             ("embedded " +:+ Py.str_nat stored_count +:+ " sections")
             (AgentState.set_embeddings_saved true
                (AgentState.set_sections updated_sections state)), idx')
      | (idx', inl e) => (skipped, idx')
      end
  end.

(** [for section in state.sections: if section.summary_text: ...] *)
Definition summaries_for_embedding (sections : list SectionData.t)
  : list SectionDict.t :=
  omap (fun section =>
          match SectionData.summary_text section with
          | Some summary =>
              if Py.truthy summary then
                Some (SectionDict.mk
                        (SectionData.section_id section +:+ "_summary")
                        (SectionData.heading section) summary summary)
              else None
          | None => None
          end) sections.

Definition embed_section_summary_node (fault : Fault)
           (state : AgentState.t) (idx : Index) : AgentState.t * Index :=
  let for_embedding := summaries_for_embedding (AgentState.sections state) in
  if Splitter.is_nil for_embedding then
    (AgentState.set_current_status "no summaries to embed"
       (AgentState.set_summary_embeddings_saved false state), idx)
  else
    match RetrievalService.attempt_store_sections
            fault idx (AgentState.page_url state) for_embedding
            (Member SUMMARY) with
    | (idx', inr stored_count) =>
        let updated_sections :=
          map summary_embedded (AgentState.sections state) in
        (AgentState.set_current_status
           ("embedded " +:+ Py.str_nat stored_count +:+ " summaries")
           (AgentState.set_summary_embeddings_saved true
              (AgentState.set_sections updated_sections state)), idx')
    | (idx', inl e) =>
        (AgentState.set_current_status "summary embedding skipped"
           (AgentState.set_summary_embeddings_saved false state), idx')
    end.

Definition NOT_FOUND : string :=
  "I couldn't find relevant information to answer that question.".

Definition followup_request (state : AgentState.t) (user_query : string)
           (context : string) : Request.t :=
  request
    (Prompts.build_followup_prompt user_query context
                                   (AgentState.page_title state))
    Prompts.SYSTEM_followup 512 (3 # 10).

(** The retrieval of [handle_followup_node]. *)
Definition followup_results (cfg : Settings.t) (idx : Index)
           (state : AgentState.t) (user_query : string) : list Result.t :=
  RetrievalService.retrieve_sections
    cfg idx (AgentState.page_url state) user_query SOURCE None None.

(** [{"error": f"Failed to answer question: {str(e)}", "current_status":
    "error"}] *)
Definition followup_failed (e : string) (state : AgentState.t)
  : AgentState.t :=
  AgentState.set_current_status "error"
    (AgentState.set_error (Some ("Failed to answer question: " +:+ e))
                          state).

(** The [try] covers the retrieval and the generation: an exception of
    either is caught and reported in the error field. *)
Definition handle_followup_node (cfg : Settings.t) (idx : Index)
           (fault : Fault) (state : AgentState.t) : Node :=
  fun llm log =>
    match AgentState.user_query state with
    | None | Some EmptyString =>
        (AgentState.set_current_status "error"
           (AgentState.set_error (Some "No query provided") state), log)
    | Some user_query =>
        match RetrievalService.attempt_retrieve_sections
                fault cfg idx (AgentState.page_url state) user_query
                SOURCE None None with
        | inl e => (followup_failed e state, log)
        | inr results =>
            let retrieved :=
              map (fun r =>
                     RetrievedSection.mk (Result.section_id r)
                       (Result.heading r) (Result.text r)
                       (Result.summary_text r) (Result.score r) SOURCE)
                  results in
            if Splitter.is_nil retrieved then
              (AgentState.set_current_status "complete"
                 (AgentState.set_followup_response NOT_FOUND
                    (AgentState.set_retrieved_sections [] state)), log)
            else
              let context :=
                RetrievalService.build_context_from_sections
                  results 2000 in
              let req := followup_request state user_query context in
              match generate req llm log with
              | (Some response, log') =>
                  (AgentState.set_current_status "complete"
                     (AgentState.set_followup_response response
                        (AgentState.set_retrieved_sections
                           retrieved state)),
                   log')
              | (None, log') =>
                  (followup_failed (exception_text llm log req) state,
                   log')
              end
        end
    end.

(** [llm.generate_stream(...)] read to its end: the text streamed.  A
    failure does not raise: the stream is then the tokens yielded before
    it, followed by the bracketed error ([yield f"[Error: {str(e)}]"]). *)
Definition generate_stream (req : Request.t) : LLM string :=
  fun llm log =>
    (Some (match llm log req with
           | Some text => text
           | None =>
               streamed_before llm log req
               +:+ "[Error: " +:+ stream_error llm log req +:+ "]"
           end),
     log ++ [req]).

(** The retrieval of [handle_followup_streaming]. *)
Definition followup_streaming_results (cfg : Settings.t) (idx : Index)
           (state : AgentState.t) (user_query : string) : list Result.t :=
  RetrievalService.retrieve_relevant_chunks
    cfg idx (AgentState.page_url state) user_query None None.

(** [handle_followup_streaming] as the module binds it: of the two
    definitions of that name in [nodes.py] the later one, which the
    graph imports and the streaming follow-up route runs.  The result
    is the text it yields. *)
Definition handle_followup_streaming (cfg : Settings.t) (idx : Index)
           (state : AgentState.t) : LLM string :=
  match AgentState.user_query state with
  | None | Some EmptyString => mret "No query provided."
  | Some user_query =>
      let results := followup_streaming_results cfg idx state user_query in
      if Splitter.is_nil results then mret NOT_FOUND
      else
        let context :=
          RetrievalService.build_context_from_chunks results 2000 in
        generate_stream (followup_request state user_query context)
  end.

End NodesWithServices.

(** ** Link-following fallback ([app/services/link_crawler.py]) *)

(** An [<a href=...>] element as the HTML parser reports it. *)
Module ATag.
Record t := mk {
  href : string;
  (** [a_tag.get_text(strip=True)] *)
  text : string;
  (** [a_tag.parent.get_text(strip=True)], when there is a parent *)
  parent_text : option string
}.
End ATag.

Module Page.
Record t := mk {
  url : string;
  title : string;
  text : string;
  html : string
}.
End Page.

(** The HTML parser, the URL library and the HTTP client. *)
Class Web := {
  (** [BeautifulSoup(page_text, 'html.parser').find_all('a', href=True)] *)
  find_all_a : string -> list ATag.t;
  (** [urllib.parse.urljoin] *)
  urljoin : string -> string -> string;
  (** [urllib.parse.urlparse(url).netloc] *)
  netloc : string -> string;
  (** [fetch_page_content] : the page, or [None] on any failure *)
  fetch_page_content : string -> option Page.t
}.

Module Link.
Record t := mk {
  url : string;
  text : string;
  context : string
}.
End Link.

Module ScoredLink.
Record t := mk {
  link : Link.t;
  relevance_score : nat
}.
End ScoredLink.

Module LinkCrawler.

(** [\[([^\]]+)\]\(([^)]+)\)] tried at the head of [s]: groups 1 and 2
    and the length of the match. *)
Definition md_link_at (s : string) : option (string * string * nat) :=
  match s with
  | String c1 rest1 =>
      if Ascii.eqb c1 "["%char then
        let a := Regex.span (fun c => negb (Ascii.eqb c "]"%char)) rest1 in
        match Py.drop a rest1 with
        | String _ (String c3 rest2) =>
            if (1 <=? a) && Ascii.eqb c3 "("%char then
              let b :=
                Regex.span (fun c => negb (Ascii.eqb c ")"%char)) rest2 in
              match Py.drop b rest2 with
              | String _ _ =>
                  if 1 <=? b then
                    Some (Py.take a rest1, Py.take b rest2,
                          1 + a + 2 + b + 1)
                  else None
              | EmptyString => None
              end
            else None
        | _ => None
        end
      else None
  | EmptyString => None
  end.

(** [md_link_pattern.finditer(page_text)] : groups, start and end. *)
Fixpoint md_link_finditer (s : string) (p skip : nat)
  : list (string * string * nat * nat) :=
  match s with
  | EmptyString => []
  | String _ s' =>
      match skip with
      | S k => md_link_finditer s' (S p) k
      | O =>
          match md_link_at s with
          | Some (text, href, len) =>
              (text, href, p, p + len)
              :: md_link_finditer s' (S p) (len - 1)
          | None => md_link_finditer s' (S p) 0
          end
      end
  end.

Section WithWeb.
Context `{Web}.

(** The loop over the [<a>] elements. *)
Fixpoint html_links (base_url : string) (tags : list ATag.t)
         (links : list Link.t) : list Link.t :=
  match tags with
  | [] => links
  | a_tag :: rest =>
      let href := ATag.href a_tag in
      let text := ATag.text a_tag in
      if Py.is_empty href || Py.startswith "#" href
         || Py.startswith "javascript:" href
      then html_links base_url rest links
      else if Py.startswith "mailto:" href || Py.startswith "tel:" href
      then html_links base_url rest links
      else
        let full_url := urljoin base_url href in
        if negb (String.eqb (netloc full_url) (netloc base_url))
        then html_links base_url rest links
        else
          let context :=
            match ATag.parent_text a_tag with
            | Some t => Py.take 200 t
            | None => EmptyString
            end in
          html_links base_url rest (links ++ [Link.mk full_url text context])
  end.

(** The loop over the Markdown links. *)
Fixpoint md_links (page_text base_url : string)
         (found : list (string * string * nat * nat))
         (links : list Link.t) : list Link.t :=
  match found with
  | [] => links
  | (text, href, match_start, match_end) :: rest =>
      if Py.startswith "#" href
         || (Py.startswith "http://" href
             && negb (String.eqb (netloc href) (netloc base_url)))
      then md_links page_text base_url rest links
      else
        let full_url := urljoin base_url href in
        let start := match_start - 100 in
        let end_ := Nat.min (String.length page_text) (match_end + 100) in
        let context := Py.slice start end_ page_text in
        if existsb (fun l => String.eqb (Link.url l) full_url) links
        then md_links page_text base_url rest links
        else md_links page_text base_url rest
                      (links ++ [Link.mk full_url text context])
  end.

Definition extract_links (page_text base_url : string) : list Link.t :=
  let links := html_links base_url (find_all_a page_text) [] in
  md_links page_text base_url (md_link_finditer page_text 0 0) links.

Definition words (s : string) : gset string :=
  list_to_set (Py.split_ws (Py.lower s)).

Definition doc_keywords : gset string :=
  list_to_set
    ["setup"; "install"; "guide"; "tutorial"; "getting"; "started";
     "development"; "environment"; "configuration"; "wsl"; "windows";
     "linux"; "mac"; "docker"; "vagrant"; "prerequisites"].

Definition link_score (query_words : gset string) (link : Link.t) : nat :=
  let text_words := words (Link.text link) in
  let context_words := words (Link.context link) in
  let text_overlap := size (query_words ∩ text_words) in
  let context_overlap := size (query_words ∩ context_words) in
  let keyword_bonus :=
    size (query_words ∩ doc_keywords ∩ (text_words ∪ context_words)) in
  text_overlap * 3 + context_overlap + keyword_bonus * 2.

Definition score_links_for_query (links : list Link.t) (query : string)
  : list ScoredLink.t :=
  let query_words := words query in
  let scored_links :=
    omap (fun link =>
            let score := link_score query_words link in
            if 0 <? score then Some (ScoredLink.mk link score) else None)
         links in
  Score.sort_desc (fun l => inject_Z (Z.of_nat (ScoredLink.relevance_score l)))
                  scored_links.

(** The URLs [crawl_relevant_pages] hands to [fetch_page_content]. *)
Definition crawl_targets (max_pages : nat)
           (page_text base_url query : string) : list string :=
  let links := extract_links page_text base_url in
  let scored_links := score_links_for_query links query in
  let top_links := firstn max_pages scored_links in
  map (fun l => Link.url (ScoredLink.link l)) top_links.

Definition crawl_relevant_pages (max_pages : nat)
           (page_text base_url query : string) : list Page.t :=
  omap fetch_page_content (crawl_targets max_pages page_text base_url query).

End WithWeb.
End LinkCrawler.

(** ** A model of [urllib.parse]

    [urlparse], [urlunparse] and [urljoin] of CPython 3.11 on URLs
    without brackets in the network location. *)
Module Urllib.

Definition is_alpha (c : ascii) : bool :=
  let n := nat_of_ascii c in
  ((65 <=? n) && (n <=? 90)) || ((97 <=? n) && (n <=? 122)).

Definition scheme_char (c : ascii) : bool :=
  let n := nat_of_ascii c in
  is_alpha c || ((48 <=? n) && (n <=? 57))
  || Ascii.eqb c "+"%char || Ascii.eqb c "-"%char || Ascii.eqb c "."%char.

Fixpoint forallb_chars (p : ascii -> bool) (s : string) : bool :=
  match s with
  | EmptyString => true
  | String c s' => p c && forallb_chars p s'
  end.

Fixpoint filter_chars (p : ascii -> bool) (s : string) : string :=
  match s with
  | EmptyString => EmptyString
  | String c s' =>
      if p c then String c (filter_chars p s') else filter_chars p s'
  end.

(** [s.find(c)] *)
Fixpoint find (c : ascii) (s : string) : option nat :=
  match s with
  | EmptyString => None
  | String d s' =>
      if Ascii.eqb c d then Some 0 else option_map S (find c s')
  end.

(** [s.split(c, 1)] when [c] occurs in [s], else [s] with nothing after it. *)
Definition cut (c : ascii) (s : string) : string * string :=
  match find c s with
  | Some i => (Py.take i s, Py.drop (S i) s)
  | None => (s, EmptyString)
  end.

Definition mem (s : string) (l : list string) : bool :=
  existsb (String.eqb s) l.

Definition uses_relative : list string :=
  [EmptyString; "ftp"; "http"; "gopher"; "nntp"; "imap"; "wais"; "file"; "https";
   "shttp"; "mms"; "prospero"; "rtsp"; "rtspu"; "sftp"; "svn"; "svn+ssh";
   "ws"; "wss"].

Definition uses_netloc : list string :=
  [EmptyString; "ftp"; "http"; "gopher"; "nntp"; "telnet"; "imap"; "wais"; "file";
   "mms"; "https"; "shttp"; "snews"; "prospero"; "rtsp"; "rtspu"; "rsync";
   "svn"; "svn+ssh"; "sftp"; "nfs"; "git"; "git+ssh"; "ws"; "wss"].

Definition uses_params : list string :=
  [EmptyString; "ftp"; "hdl"; "prospero"; "http"; "imap"; "https"; "shttp"; "rtsp";
   "rtspu"; "sip"; "sips"; "mms"; "sftp"; "tel"].

Record ParseResult := mkParse {
  scheme : string;
  p_netloc : string;
  path : string;
  params : string;
  query : string;
  fragment : string
}.

Definition is_c0_or_space (c : ascii) : bool := nat_of_ascii c <=? 32.

Definition unsafe_byte (c : ascii) : bool :=
  let n := nat_of_ascii c in (n =? 9) || (n =? 10) || (n =? 13).

Fixpoint lstrip_c0 (s : string) : string :=
  match s with
  | EmptyString => EmptyString
  | String c s' => if is_c0_or_space c then lstrip_c0 s' else s
  end.

(** [s.rfind(c)] *)
Definition rfind (c : ascii) (s : string) : option nat :=
  let fix go (s : string) (i : nat) (last : option nat) : option nat :=
    match s with
    | EmptyString => last
    | String d s' => go s' (S i) (if Ascii.eqb c d then Some i else last)
    end in
  go s 0 None.

Definition _splitparams (url : string) : string * string :=
  let i :=
    match rfind "/"%char url with
    | Some r => option_map (fun k => r + k) (find ";"%char (Py.drop r url))
    | None => find ";"%char url
    end in
  match i with
  | Some i => (Py.take i url, Py.drop (S i) url)
  | None => (url, EmptyString)
  end.

Definition urlparse (url0 default_scheme : string) : ParseResult :=
  let url := filter_chars (fun c => negb (unsafe_byte c)) (lstrip_c0 url0) in
  let '(scheme, url) :=
    match find ":"%char url, url with
    | Some (S i), String c0 _ =>
        if is_alpha c0 && forallb_chars scheme_char (Py.take (S i) url)
        then (Py.lower (Py.take (S i) url), Py.drop (S (S i)) url)
        else (default_scheme, url)
    | _, _ => (default_scheme, url)
    end in
  let '(netloc, url) :=
    if String.prefix "//" url then
      let rest := Py.drop 2 url in
      let d :=
        Regex.span (fun c => negb (Ascii.eqb c "/"%char
                                   || Ascii.eqb c "?"%char
                                   || Ascii.eqb c "#"%char)) rest in
      (Py.take d rest, Py.drop d rest)
    else (EmptyString, url) in
  let '(url, fragment) := cut "#"%char url in
  let '(url, query) := cut "?"%char url in
  let '(url, params) :=
    if mem scheme uses_params then _splitparams url
    else (url, EmptyString) in
  mkParse scheme netloc url params query fragment.

Definition urlunparse (r : ParseResult) : string :=
  let url :=
    if Py.truthy (params r) then path r +:+ ";" +:+ params r else path r in
  let url :=
    if Py.truthy (p_netloc r)
       || (Py.truthy (scheme r) && mem (scheme r) uses_netloc
           && negb (String.prefix "//" url))
    then
      let url :=
        if Py.truthy url && negb (String.prefix "/" url)
        then "/" +:+ url else url in
      "//" +:+ p_netloc r +:+ url
    else url in
  let url :=
    if Py.truthy (scheme r) then scheme r +:+ ":" +:+ url else url in
  let url :=
    if Py.truthy (query r) then url +:+ "?" +:+ query r else url in
  if Py.truthy (fragment r) then url +:+ "#" +:+ fragment r else url.

(** [segments[1:-1] = filter(None, segments[1:-1])] *)
Definition drop_inner_empty (segments : list string) : list string :=
  match segments with
  | first :: rest =>
      match List.rev rest with
      | final :: inner_rev =>
          first :: List.filter Py.truthy (List.rev inner_rev) ++ [final]
      | [] => segments
      end
  | [] => []
  end.

Definition resolve (segments : list string) : list string :=
  fold_left
    (fun resolved_path seg =>
       if String.eqb seg ".." then removelast resolved_path
       else if String.eqb seg "." then resolved_path
       else resolved_path ++ [seg])
    segments [].

Definition urljoin (base url : string) : string :=
  if Py.is_empty base then url
  else if Py.is_empty url then base
  else
    let b := urlparse base EmptyString in
    let u := urlparse url (scheme b) in
    if negb (String.eqb (scheme u) (scheme b))
       || negb (mem (scheme u) uses_relative)
    then url
    else if mem (scheme u) uses_netloc && Py.truthy (p_netloc u)
    then urlunparse u
    else
      let netloc :=
        if mem (scheme u) uses_netloc then p_netloc b else p_netloc u in
      if Py.is_empty (path u) && Py.is_empty (params u) then
        urlunparse
          (mkParse (scheme u) netloc (path b) (params b)
                   (if Py.is_empty (query u) then query b else query u)
                   (fragment u))
      else
        let base_parts := Py.split "/" (path b) in
        let base_parts :=
          if Py.truthy (List.last base_parts EmptyString)
          then removelast base_parts else base_parts in
        let segments :=
          if String.prefix "/" (path u) then Py.split "/" (path u)
          else drop_inner_empty (base_parts ++ Py.split "/" (path u)) in
        let resolved_path := resolve segments in
        let resolved_path :=
          let final := List.last segments EmptyString in
          if String.eqb final "." || String.eqb final ".."
          then resolved_path ++ [EmptyString] else resolved_path in
        let joined := Py.join "/" resolved_path in
        urlunparse
          (mkParse (scheme u) netloc
                   (if Py.is_empty joined then "/" else joined)
                   (params u) (query u) (fragment u)).

Definition netloc_of (url : string) : string :=
  p_netloc (urlparse url EmptyString).

End Urllib.

(** The token estimate of the blocks of a list of results. *)
Definition total_tokens (sections : list Result.t) : Z :=
  fold_right
    (fun s acc =>
       (RetrievalService.tokens_of (RetrievalService.section_block s) + acc)%Z)
    0%Z sections.

(** ** Specification vocabulary for the index *)

(** A form in which callers pass the role, [Str] or [Member]: the
    object passed stands for the role. *)
Definition keeps_role (form : EmbeddingType -> RoleArg) : Prop :=
  forall e, role_of (form e) = e.

Section IndexSpec.
Context `{Python} `{Hash} `{Embedder}.

(** Every stored vector sits under its own id, and that id is the one
    generated from the page, section and role recorded in its
    metadata, the role passed in the form [form] ([Str] or [Member]):
    what [upsert_sections] establishes when every caller passes the
    role in that form. *)
Definition well_keyed (form : EmbeddingType -> RoleArg)
           (idx : gmap string (gmap string PineconeClient.Vector)) : Prop :=
  forall namespace m k v,
    idx !! namespace = Some m -> m !! k = Some v ->
    PineconeClient.id v = k
    /\ k = PineconeClient.generate_section_id
             (Metadata.page_url (PineconeClient.metadata v))
             (Metadata.section_id (PineconeClient.metadata v))
             (form (Metadata.embedding_type (PineconeClient.metadata v))).

(** One vector placed under its id. *)
Definition put (m : gmap string PineconeClient.Vector)
           (v : PineconeClient.Vector) : gmap string PineconeClient.Vector :=
  <[PineconeClient.id v := v]> m.

(** The id of a vector is the one generated from its metadata, the role
    passed in the form [form]. *)
Definition keyed (form : EmbeddingType -> RoleArg)
           (v : PineconeClient.Vector) : Prop :=
  PineconeClient.id v
  = PineconeClient.generate_section_id
      (Metadata.page_url (PineconeClient.metadata v))
      (Metadata.section_id (PineconeClient.metadata v))
      (form (Metadata.embedding_type (PineconeClient.metadata v))).

Definition is_record_of (page_url section_id : string)
           (embedding_type : EmbeddingType) (v : PineconeClient.Vector)
  : bool :=
  String.eqb (Metadata.page_url (PineconeClient.metadata v)) page_url
  && String.eqb (Metadata.section_id (PineconeClient.metadata v)) section_id
  && EmbeddingType_eqb
       (Metadata.embedding_type (PineconeClient.metadata v)) embedding_type.

(** The records held for a page, section and role. *)
Definition records_for
           (idx : gmap string (gmap string PineconeClient.Vector))
           (page_url section_id : string) (embedding_type : EmbeddingType)
  : list PineconeClient.Vector :=
  List.filter (is_record_of page_url section_id embedding_type)
    (map snd (map_to_list
                (PineconeClient.namespace_of
                   idx (PineconeClient.generate_namespace page_url)))).

(** The text that [store_sections] embeds for a section. *)
Definition embedded_text (embedding_type : RoleArg)
           (section : SectionDict.t) : string :=
  match role_of embedding_type with
  | SOURCE => SectionDict.text section
  | SUMMARY => SectionDict.summary_text section
  end.

(** The search result built from a stored vector that scores [score]. *)
Definition result_of (score : Q) (v : PineconeClient.Vector) : Result.t :=
  let md := PineconeClient.metadata v in
  Result.mk (Metadata.section_id md) score
            (Metadata.section_text md) (Metadata.heading md)
            (Some (Metadata.summary_text md))
            (Some (Metadata.embedding_type md)) None None.

End IndexSpec.

(** The web services with Python's URL library. *)
Definition python_web (parser : string -> list ATag.t)
           (fetch : string -> option Page.t) : Web := {|
  find_all_a := parser;
  urljoin := Urllib.urljoin;
  netloc := Urllib.netloc_of;
  fetch_page_content := fetch
|}.

(** ** Test doubles and sample inputs *)

(** Two interpreters, one before and one after the change of Python
    3.11 in the formatting of enum members. *)
Definition python_3_10 : Python := {| minor := 10 |}.
Definition python_3_12 : Python := {| minor := 12 |}.

(** A stand-in for the embedding model: a text is its own vector, and
    every passage scores 1 against every query. *)
Definition plain_embedder : Embedder := {|
  Vec := string;
  embed_passage := fun s => s;
  embed_query := fun s => s;
  metric := fun _ _ => 1%Q
|}.

(** A generative service that answers every request. *)
Definition always_answers : Oracle :=
  mkOracle (fun _ _ => Some "generated text")
           (fun _ _ => EmptyString) (fun _ _ => EmptyString)
           (fun _ _ => EmptyString).

(** A generative service that fails on its request number [n] (counted
    from 0), with a connection error and before any token of a stream,
    and answers every other request. *)
Definition fails_on_call (n : nat) : Oracle :=
  mkOracle
    (fun log _ => if length log =? n then None else Some "generated text")
    (fun _ _ => "All connection attempts failed")
    (fun _ _ => EmptyString)
    (fun _ _ => "All connection attempts failed").

(** [s * n] *)
Fixpoint repeat_str (s : string) (n : nat) : string :=
  match n with
  | O => EmptyString
  | S k => s +:+ repeat_str s k
  end.

Definition sample_url : string := "https://docs.example.com/guide/start".

(** A sentence of 200 words, and a page with one section of three such
    sentences: 600 words, estimated at 780 tokens. *)
Definition long_sentence : string :=
  Py.join " " (List.repeat "word" 200).

Definition large_page_text : string :=
  "## Setup" +:+ Prompts.NL
  +:+ Py.join ". " [long_sentence; long_sentence; long_sentence].

Definition large_page_state : AgentState.t :=
  @extract_sections_node md5 settings
    (AgentState.create_initial_state sample_url large_page_text "Guide").

(** A page with two short sections. *)
Definition small_page_text : string :=
  "# Install" +:+ Prompts.NL
  +:+ "Run the installer and follow the prompts on screen." +:+ Prompts.NL
  +:+ "# Usage" +:+ Prompts.NL
  +:+ "Start the service and open the dashboard in a browser.".

Definition small_page_state : AgentState.t :=
  @extract_sections_node md5 settings
    (AgentState.create_initial_state sample_url small_page_text "Guide").

(** A document without any section. *)
Definition empty_page_state : AgentState.t :=
  @extract_sections_node md5 settings
    (AgentState.create_initial_state sample_url EmptyString "Guide").

(** Two retrieved sections: the first fills 1995 of the 2000 tokens of
    the budget, the second needs 107. *)
Definition result_install : Result.t :=
  Result.mk "s1" (3 # 4) (repeat_str "a" (Z.to_nat 7950)) "Install"
            (Some EmptyString) (Some SOURCE) None None.

Definition result_usage : Result.t :=
  Result.mk "s2" (1 # 2) (repeat_str "b" 400) "Usage"
            (Some EmptyString) (Some SOURCE) None None.

Definition sample_section : SectionDict.t :=
  SectionDict.mk "s1" "Install" "Run the installer." "How to install.".

Definition sample_section_edited : SectionDict.t :=
  SectionDict.mk "s1" "Install" "Run the new installer." "How to install.".

Definition sample_followup_state : AgentState.t :=
  AgentState.create_followup_state
    (AgentState.create_initial_state sample_url EmptyString "Guide")
    "how do I install".

Definition single_summary_state : AgentState.t :=
  AgentState.set_section_summaries
    [("s1", "Run the installer.")]
    (AgentState.create_initial_state sample_url EmptyString "Guide").

(** * Further code of the cited files *)

From stdpp Require Import sorting.

(** ** Vocabulary for the chunk splitter *)

(** [int(len(sentence.split()) * 1.3)], the estimate the splitter makes
    for one sentence. *)
Definition sentence_tokens (sentence : string) : Z :=
  Py.int_times_1_3 (Z.of_nat (length (Py.split_ws sentence))).

Definition group_tokens (g : list string) : Z :=
  fold_right (fun s acc => (sentence_tokens s + acc)%Z) 0%Z g.

(** A chunk renders a group of sentences of a section. *)
Definition chunk_of_group (max_chunk_tokens : Z) (section : SectionData.t)
           (chunk : ChunkData.t) (g : list string) : Prop :=
  g <> []
  /\ ChunkData.text chunk = render_group g
  /\ ChunkData.token_count chunk = group_tokens g
  /\ ChunkData.heading chunk = SectionData.heading section
  /\ ChunkData.section_id chunk = SectionData.section_id section
  /\ (2 <= length g -> (group_tokens g <= max_chunk_tokens)%Z).

(** What the loop of the splitter keeps true about sizes. *)
Definition splitter_account (max_chunk_tokens : Z) (section : SectionData.t)
           (st : Splitter.loop) (seen : list string) : Prop :=
  exists groups : list (list string),
    concat groups ++ Splitter.current_chunk st = kept_sentences seen
    /\ Forall2 (chunk_of_group max_chunk_tokens section)
               (Splitter.chunks st) groups
    /\ Splitter.current_tokens st = group_tokens (Splitter.current_chunk st)
    /\ (2 <= length (Splitter.current_chunk st) ->
        (Splitter.current_tokens st <= max_chunk_tokens)%Z).

Definition sum_Z (l : list Z) : Z := fold_right Z.add 0%Z l.

(** ** Vocabulary for the segmenter *)

(** A heading spans at least one character and has a level from 1 to 3. *)
Definition heading_ok (h : Heading.t) : Prop :=
  Heading.start h < Heading.end_ h
  /\ 1 <= Heading.level h <= 3.

Definition headings_in_order (from : nat) (hs : list Heading.t) : Prop :=
  Forall heading_ok hs
  /\ Forall (fun h => from <= Heading.start h) hs
  /\ StronglySorted (fun a b => Heading.end_ a <= Heading.start b) hs.


(** What the loop over the headings records for a section it keeps at
    position [index]: the id generated from the page, the heading and the
    position, the stripped text of at least 20 characters with its token
    estimate, and the text and level of one of the headings [hs]. *)
Definition section_from_heading `{Hash} (page_url : string)
           (hs : list Heading.t) (index : nat) (s : ExtractedSection.t)
  : Prop :=
  ExtractedSection.section_id s
  = SectionExtractor.generate_section_id
      page_url (ExtractedSection.heading s) index
  /\ ExtractedSection.raw_text s <> EmptyString
  /\ 20 <= String.length (ExtractedSection.raw_text s)
  /\ ExtractedSection.token_count s
     = SectionExtractor.estimate_tokens (ExtractedSection.raw_text s)
  /\ exists h, In h hs
       /\ ExtractedSection.heading s = Heading.text h
       /\ ExtractedSection.heading_level s = Heading.level h.

(** What holds of the section at position [index] of the sections [all]
    extracted from [text]. *)
Definition extracted_ok `{Hash} (text page_url : string)
           (all : list ExtractedSection.t) (index : nat)
           (s : ExtractedSection.t) : Prop :=
  ExtractedSection.section_id s
  = SectionExtractor.generate_section_id
      page_url (ExtractedSection.heading s) index
  /\ ExtractedSection.raw_text s <> EmptyString
  /\ ExtractedSection.token_count s
     = SectionExtractor.estimate_tokens (ExtractedSection.raw_text s)
  /\ 1 <= ExtractedSection.heading_level s <= 3
  /\ (20 <= String.length (ExtractedSection.raw_text s)
      \/ (all = [s] /\ ExtractedSection.heading s = "Content"
          /\ ExtractedSection.raw_text s = Py.strip text)).

(** ** Vocabulary for retrieval *)

(** Best score first. *)
Definition descending {A} (key : A -> Q) (l : list A) : Prop :=
  StronglySorted (fun a b => (key b <= key a)%Q) l.

(** ** Vocabulary for the index *)

(** The vectors [store_sections] builds for a list of sections. *)
Definition stored_vectors `{Python} `{Hash} `{Embedder} (page_url : string)
           (embedding_type : RoleArg) (sections : list SectionDict.t)
  : list PineconeClient.Vector :=
  map (fun section =>
         PineconeClient.section_vector
           page_url embedding_type section
           (embed_passage (embedded_text embedding_type section)))
      sections.

(** ** Vocabulary for failing calls *)

(** [str(e)] of the exception of a fault. *)
Definition fault_text (fault : Fault) : string :=
  match fault with
  | no_fault => EmptyString
  | stats_raises e | embed_raises e | upsert_raises _ e | query_raises e => e
  end.

(** Whether a remote call of a store of [n] sections raises: the
    embedding of the texts, when there is a section, or the upsert of
    batch [k], when there are more than [100 * k] sections. *)
Definition store_raises (fault : Fault) (n : nat) : bool :=
  match fault with
  | embed_raises _ => 0 <? n
  | upsert_raises k _ => 100 * k <? n
  | _ => false
  end.

(** Whether a remote call of the source embedding of a page with [n]
    sections raises: the statistics of the index, which are always
    asked for, or, for a page that is not in the index, a call of the
    store. *)
Definition source_embedding_raises `{Hash} `{Embedder} (fault : Fault)
           (idx : gmap string (gmap string PineconeClient.Vector))
           (page_url : string) (n : nat) : bool :=
  match fault with
  | stats_raises _ => true
  | _ =>
      negb (RetrievalService.check_page_indexed idx page_url)
      && store_raises fault n
  end.

(** Whether the embedding of the query or the query of the index
    raises. *)
Definition retrieval_raises (fault : Fault) : bool :=
  match fault with
  | embed_raises _ | query_raises _ => true
  | _ => false
  end.

(** ** Page classification ([classify_page_node] in [app/agent/nodes.py]) *)

(** [sub in s] *)
Fixpoint contains (sub s : string) : bool :=
  String.prefix sub s
  || match s with
     | EmptyString => false
     | String _ s' => contains sub s'
     end.

(** [SYSTEM_PROMPTS["classification"]] *)
Definition SYSTEM_classification : string :=
"You are a page classifier. Analyze the content and classify it into one category.
Output ONLY the category name, nothing else.".

Definition build_classification_prompt (text_sample : string) : string :=
  "Analyze this content and classify the page type.

Content sample:
" +:+ Py.take 1000 text_sample +:+ "

Categories:
- docs: Technical documentation, guides, tutorials
- api: API reference with endpoints or function signatures
- blog: Blog posts, articles, opinion pieces
- readme: README files, project descriptions

Respond with ONLY the category name (docs, api, blog, or readme):".

Definition classification_request (state : AgentState.t) : Request.t :=
  request (build_classification_prompt (AgentState.page_text state))
          SYSTEM_classification 20 (1 # 10).

(** The chain of [if "api" in response_lower: ... elif ...]. *)
Definition page_type_of_response (response : string) : PageType :=
  let response_lower := Py.lower (Py.strip response) in
  if contains "api" response_lower then API
  else if contains "blog" response_lower then BLOG
  else if contains "readme" response_lower then README
  else if contains "docs" response_lower || contains "doc" response_lower
  then DOCS
  else UNKNOWN.

Definition set_page_type (v : PageType) (s : AgentState.t) : AgentState.t :=
  AgentState.mk (AgentState.page_url s) (AgentState.page_title s)
    (AgentState.page_text s) v (AgentState.sections s)
    (AgentState.current_section_index s) (AgentState.section_summaries s)
    (AgentState.page_summary s) (AgentState.final_summary s)
    (AgentState.embeddings_saved s) (AgentState.summary_embeddings_saved s)
    (AgentState.user_query s) (AgentState.retrieved_sections s)
    (AgentState.followup_response s) (AgentState.current_status s)
    (AgentState.error s).

Definition classify_page_node (state : AgentState.t) : Node :=
  fun llm log =>
    match generate (classification_request state) llm log with
    | (Some response, log') =>
        let page_type := page_type_of_response response in
        (AgentState.set_current_status
           ("classified as " +:+ PageType_value page_type)
           (set_page_type page_type state), log')
    | (None, log') =>
        (AgentState.set_current_status "classification failed, using default"
           (set_page_type UNKNOWN state), log')
    end.

(** ** The graphs and the agent ([app/agent/graph.py]) *)

(** The nodes of [create_summarization_graph], and [END]. *)
Inductive GraphNode :=
  | classify_page
  | extract_sections
  | process_section
  | embed_source
  | synthesize_page
  | END.

Section GraphWithServices.
Context `{Python} `{Hash} `{Embedder}.

(** What a run carries from node to node: the state, and with it the
    vector index and the log of the requests made. *)
Record Run := mkRun {
  run_state : AgentState.t;
  run_index : gmap string (gmap string PineconeClient.Vector);
  run_log : list Request.t
}.

(** One node and the edge out of it: the linear edges, and after
    [process_section] the conditional edge on
    [should_continue_processing].  [fault] is what the remote services
    do during the one run of [embed_source]. *)
Definition graph_step (cfg : Settings.t) (llm : Oracle) (fault : Fault)
           (node : GraphNode) (r : Run) : GraphNode * Run :=
  match node with
  | classify_page =>
      let '(state, log) :=
        classify_page_node (run_state r) llm (run_log r) in
      (extract_sections, mkRun state (run_index r) log)
  | extract_sections =>
      (process_section,
       mkRun (extract_sections_node cfg (run_state r))
             (run_index r) (run_log r))
  | process_section =>
      let '(state, log) :=
        process_section_node cfg (run_state r) llm (run_log r) in
      (if String.eqb (should_continue_processing state) "continue"
       then process_section else embed_source,
       mkRun state (run_index r) log)
  | embed_source =>
      let '(state, idx) :=
        embed_section_source_node fault (run_state r) (run_index r) in
      (synthesize_page, mkRun state idx (run_log r))
  | synthesize_page =>
      let '(state, log) :=
        synthesize_page_node (run_state r) llm (run_log r) in
      (END, mkRun state (run_index r) log)
  | END => (END, r)
  end.

(** The run of the compiled graph from [node]: the result carries the
    number of nodes executed; [None] is fuel exhausted. *)
Fixpoint run_graph (cfg : Settings.t) (llm : Oracle) (fault : Fault)
         (fuel : nat) (node : GraphNode) (r : Run) (steps : nat)
  : option (Run * nat) :=
  match node with
  | END => Some (r, steps)
  | _ =>
      match fuel with
      | O => None
      | S fuel' =>
          let '(node', r') := graph_step cfg llm fault node r in
          run_graph cfg llm fault fuel' node' r' (S steps)
      end
  end.

(** [SummarizationAgent.summarize_page]: the graph run from its entry
    point on the initial state; the final state is cached under the
    page URL. *)
Definition summarize_page (cfg : Settings.t) (llm : Oracle)
           (fault : Fault) (fuel : nat)
           (cache : gmap string AgentState.t)
           (idx : gmap string (gmap string PineconeClient.Vector))
           (log : list Request.t) (page_url page_text page_title : string)
  : option (AgentState.t * gmap string AgentState.t * Run) :=
  let initial_state :=
    AgentState.create_initial_state page_url page_text page_title in
  match run_graph cfg llm fault fuel classify_page
                  (mkRun initial_state idx log) 0 with
  | Some (r, _) =>
      Some (run_state r, <[page_url := run_state r]> cache, r)
  | None => None
  end.

(** [AgentState(page_url=page_url)] *)
Definition blank_state (page_url : string) : AgentState.t :=
  AgentState.mk page_url EmptyString EmptyString UNKNOWN [] 0 []
    EmptyString EmptyString false false None [] EmptyString
    "initializing" None.

(** [SummarizationAgent.handle_followup]: the follow-up graph, of the one
    node [handle_followup], on the cached state of the page or on a
    blank one.  [fault] is what the remote services do during the run
    of the node. *)
Definition handle_followup (cfg : Settings.t) (llm : Oracle)
           (fault : Fault) (cache : gmap string AgentState.t)
           (idx : gmap string (gmap string PineconeClient.Vector))
           (log : list Request.t) (page_url query : string)
  : AgentState.t * list Request.t :=
  let base_state := default (blank_state page_url) (cache !! page_url) in
  let state := AgentState.create_followup_state base_state query in
  handle_followup_node cfg idx fault state llm log.

(** [SummarizationAgent.is_page_indexed] *)
Definition is_page_indexed (cache : gmap string AgentState.t)
           (page_url : string) : bool :=
  match cache !! page_url with
  | Some state => AgentState.embeddings_saved state
  | None => false
  end.

(** [SummarizationAgent.index_page_for_chat]: classification, extraction
    and source embedding, without summaries.  [fault] is what the remote
    services do during the source embedding. *)
Definition index_page_for_chat (cfg : Settings.t) (llm : Oracle)
           (fault : Fault) (cache : gmap string AgentState.t)
           (idx : gmap string (gmap string PineconeClient.Vector))
           (log : list Request.t) (page_url page_text page_title : string)
  : gmap string AgentState.t * Run :=
  let state :=
    AgentState.create_initial_state page_url page_text page_title in
  let '(state, log) := classify_page_node state llm log in
  let state := extract_sections_node cfg state in
  let '(state, idx) := embed_section_source_node fault state idx in
  (<[page_url := state]> cache, mkRun state idx log).

(** [SummarizationAgent.get_cached_state] *)
Definition get_cached_state (cache : gmap string AgentState.t)
           (page_url : string) : option AgentState.t :=
  cache !! page_url.

(** [SummarizationAgent.clear_cache]: [if page_url:] is false for [None]
    and for the empty string. *)
Definition clear_cache (page_url : option string)
           (cache : gmap string AgentState.t) : gmap string AgentState.t :=
  match page_url with
  | Some (String c u) => delete (String c u) cache
  | _ => ∅
  end.

End GraphWithServices.

(** ** Vocabulary for the graph *)

(** What the nodes of the summarisation graph keep of a state: the page,
    the ids and the texts of the sections, the error field; and the
    requests already made. *)
Definition state_kept (state state' : AgentState.t)
           (log log' : list Request.t) : Prop :=
  AgentState.page_url state' = AgentState.page_url state
  /\ AgentState.page_title state' = AgentState.page_title state
  /\ AgentState.page_text state' = AgentState.page_text state
  /\ map SectionData.section_id (AgentState.sections state')
     = map SectionData.section_id (AgentState.sections state)
  /\ map SectionData.raw_text (AgentState.sections state')
     = map SectionData.raw_text (AgentState.sections state)
  /\ map SectionData.heading (AgentState.sections state')
     = map SectionData.heading (AgentState.sections state)
  /\ AgentState.error state' = AgentState.error state
  /\ exists more, log' = log ++ more.

(** ** Retrieval of the chat route ([handle_chat_query_streaming] in
    [app/agent/graph.py], up to the choice of the prompt) *)

(** A retrieved section with the page it came from, for the sections
    taken from a linked page. *)
Module ChatResult.
Record t := mk {
  result : Result.t;
  source_url : option string;
  source_title : option string
}.
End ChatResult.

Section ChatWithServices.
Context `{Python} `{Hash} `{Embedder} `{Web}.

(** [for page in crawled_pages: if page.get("text") and
    len(page["text"]) > 50: await self.index_page_for_chat(...)], on the
    cache, the index and the request log.  [indexing i] is what the
    remote services do while the page at position [i] is indexed. *)
Fixpoint index_crawled_pages (cfg : Settings.t) (llm : Oracle)
         (indexing : nat -> Fault) (crawled_pages : list Page.t)
         (cache : gmap string AgentState.t)
         (idx : gmap string (gmap string PineconeClient.Vector))
         (log : list Request.t)
  : gmap string AgentState.t
    * gmap string (gmap string PineconeClient.Vector)
    * list Request.t :=
  match crawled_pages with
  | [] => (cache, idx, log)
  | page :: rest =>
      let '(cache, idx, log) :=
        if Py.truthy (Page.text page)
           && (50 <? String.length (Page.text page))
        then
          let '(cache', r) :=
            index_page_for_chat cfg llm (indexing 0) cache idx log
              (Page.url page) (Page.text page) (Page.title page) in
          (cache', run_index r, run_log r)
        else (cache, idx, log) in
      index_crawled_pages cfg llm (fun i => indexing (S i)) rest
                          cache idx log
  end.

(** [for page in crawled_pages: page_results = retrieve_sections(...,
    top_k=3, ...); ...; all_retrieved.extend(page_results)], when every
    retrieval returns. *)
Definition retrieve_from_pages (cfg : Settings.t)
           (idx : gmap string (gmap string PineconeClient.Vector))
           (crawled_pages : list Page.t) (search_query : string)
  : list ChatResult.t :=
  flat_map
    (fun page =>
       map (fun result =>
              ChatResult.mk result (Some (Page.url page))
                            (Some (Page.title page)))
           (RetrievalService.retrieve_sections
              cfg idx (Page.url page) search_query SOURCE (Some 3) None))
    crawled_pages.

(** The same loop inside the [try] of the chat route: [searching i] is
    what the remote services do during the retrieval on the page at
    position [i]; the first retrieval that raises ends the loop. *)
Fixpoint attempt_retrieve_from_pages (cfg : Settings.t)
         (idx : gmap string (gmap string PineconeClient.Vector))
         (searching : nat -> Fault)
         (crawled_pages : list Page.t) (search_query : string)
  : string + list ChatResult.t :=
  match crawled_pages with
  | [] => inr []
  | page :: rest =>
      match RetrievalService.attempt_retrieve_sections
              (searching 0) cfg idx (Page.url page) search_query
              SOURCE (Some 3) None with
      | inl e => inl e
      | inr page_results =>
          match attempt_retrieve_from_pages
                  cfg idx (fun i => searching (S i)) rest search_query with
          | inl e => inl e
          | inr all_retrieved =>
              inr (map (fun result =>
                          ChatResult.mk result (Some (Page.url page))
                                        (Some (Page.title page)))
                       page_results
                   ++ all_retrieved)
          end
      end
  end.

(** The sections the chat answer is built from, with the cache, the
    index and the request log afterwards, in a run whose first
    retrieval, which no [try] covers, returns.  The link crawler is the
    singleton of [get_link_crawler], which fetches at most 3 pages.  An
    exception of a retrieval on a crawled page is caught: the sections
    are then those of the first retrieval, that is, none. *)
Definition chat_retrieve (cfg : Settings.t) (llm : Oracle)
           (indexing searching : nat -> Fault)
           (cache : gmap string AgentState.t)
           (idx : gmap string (gmap string PineconeClient.Vector))
           (log : list Request.t)
           (page_url query : string) (topic page_text : option string)
  : list ChatResult.t
    * (gmap string AgentState.t
       * gmap string (gmap string PineconeClient.Vector)
       * list Request.t) :=
  let search_query :=
    match topic with
    | Some (String c t) => String c t
    | _ => query
    end in
  let retrieved :=
    RetrievalService.retrieve_sections
      cfg idx page_url search_query SOURCE (Some 5) None in
  match retrieved, page_text with
  | [], Some (String c text) =>
      let crawled_pages :=
        LinkCrawler.crawl_relevant_pages
          3 (String c text) page_url search_query in
      if Splitter.is_nil crawled_pages then ([], (cache, idx, log))
      else
        let '(cache', idx', log') :=
          index_crawled_pages cfg llm indexing crawled_pages
                              cache idx log in
        match attempt_retrieve_from_pages
                cfg idx' searching crawled_pages search_query with
        | inr all_retrieved =>
            (firstn 5
               (Score.sort_desc
                  (fun c => Result.score (ChatResult.result c))
                  all_retrieved),
             (cache', idx', log'))
        | inl e => ([], (cache', idx', log'))
        end
  | _, _ =>
      (map (fun result => ChatResult.mk result None None) retrieved,
       (cache, idx, log))
  end.

End ChatWithServices.

(** ** The streaming summary ([process_section_streaming] and
    [synthesize_page_streaming] in [app/agent/nodes.py],
    [summarize_page_streaming] in [app/agent/graph.py]) *)

(** [s.upper()] on the ASCII range, which holds the values of
    [PageType]. *)
Definition upper_char (c : ascii) : ascii :=
  let n := nat_of_ascii c in
  if (97 <=? n) && (n <=? 122) then ascii_of_nat (n - 32) else c.

Definition upper (s : string) : string := Py.map_chars upper_char s.

Definition build_streaming_section_prompt
           (section_text section_heading : string) (page_type : PageType)
           (is_from_facts : bool) : string :=
  let content_label :=
    if is_from_facts then "Extracted Facts" else "Content" in
  "[" +:+ upper (PageType_value page_type) +:+ "] Section: "
  +:+ section_heading +:+ "

" +:+ content_label +:+ ":
" +:+ section_text +:+ "

Summarize for developers (preserve technical details):".

Definition streaming_section_request
           (section_text section_heading : string) (page_type : PageType)
           (is_from_facts : bool) : Request.t :=
  request
    (build_streaming_section_prompt
       section_text section_heading page_type is_from_facts)
    Prompts.SYSTEM_section_summary 512 (5 # 10).

(** The text streamed for a section; [None] is an exception of a fact
    extraction, which nothing here catches. *)
Definition process_section_streaming (cfg : Settings.t)
           (state : AgentState.t) (section_index : nat) : LLM string :=
  match AgentState.sections state !! section_index with
  | None => mret EmptyString
  | Some section =>
      if SectionData.is_large section then
        let chunks := _split_section_into_chunks cfg section in
        all_facts ← extract_facts section chunks [];
        let merged_facts := Py.join Prompts.NL all_facts in
        generate_stream
          (streaming_section_request
             merged_facts (SectionData.heading section)
             (AgentState.page_type state) true)
      else
        generate_stream
          (streaming_section_request
             (SectionData.raw_text section) (SectionData.heading section)
             (AgentState.page_type state) false)
  end.

Definition synthesize_page_streaming (state : AgentState.t) : LLM string :=
  let summaries := AgentState.section_summaries state in
  if Splitter.is_nil summaries then mret "No content was summarized."
  else if length summaries =? 1 then
    mret (List.hd EmptyString (Dict.values summaries))
  else generate_stream (synthesis_request state).

(** [for i, section in enumerate(state.sections): ...
    section_summaries[section.section_id] = section_summary] *)
Fixpoint summarize_sections_streaming (cfg : Settings.t)
         (state : AgentState.t) (sections : list SectionData.t) (i : nat)
         (section_summaries : list (string * string))
  : LLM (list (string * string)) :=
  match sections with
  | [] => mret section_summaries
  | section :: rest =>
      section_summary ← process_section_streaming cfg state i;
      summarize_sections_streaming
        cfg state rest (S i)
        (Dict.set (SectionData.section_id section) section_summary
                  section_summaries)
  end.

Section StreamingWithServices.
Context `{Python} `{Hash} `{Embedder}.

(** The final state and the cache, with the index and the request log
    afterwards; [None] is an exception that ends the stream: the index
    then keeps the embeddings stored before it, and nothing is cached.
    [fault] is what the remote services do during the source
    embedding. *)
Definition summarize_page_streaming (cfg : Settings.t) (llm : Oracle)
           (fault : Fault) (cache : gmap string AgentState.t)
           (idx : gmap string (gmap string PineconeClient.Vector))
           (log : list Request.t) (page_url page_text page_title : string)
  : option (AgentState.t * gmap string AgentState.t)
    * gmap string (gmap string PineconeClient.Vector)
    * list Request.t :=
  let state :=
    AgentState.create_initial_state page_url page_text page_title in
  let '(state, log) := classify_page_node state llm log in
  let state := extract_sections_node cfg state in
  let '(state, idx) := embed_section_source_node fault state idx in
  match summarize_sections_streaming
          cfg state (AgentState.sections state) 0 [] llm log with
  | (None, log) => (None, idx, log)
  | (Some section_summaries, log) =>
      let state := AgentState.set_section_summaries section_summaries state in
      if 1 <? length section_summaries then
        match synthesize_page_streaming state llm log with
        | (Some page_summary, log) =>
            let state :=
              AgentState.set_final_summary page_summary
                (AgentState.set_page_summary page_summary state) in
            (Some (state, <[page_url := state]> cache), idx, log)
        | (None, log) => (None, idx, log)
        end
      else
        let single_summary :=
          List.hd EmptyString (Dict.values section_summaries) in
        let state :=
          AgentState.set_final_summary single_summary
            (AgentState.set_page_summary single_summary state) in
        (Some (state, <[page_url := state]> cache), idx, log)
  end.

End StreamingWithServices.

(** ** Further sample inputs *)

(** A section of two short sentences. *)
Definition short_section : SectionData.t :=
  SectionData.mk "s1" "Install" 2
    "Run the installer. Then restart the service." 9 false [] None None
    false false false.

(** The default settings with a cap of one section per page. *)
Definition capped_settings : Settings.t := {|
  Settings.section_small_threshold := 400;
  Settings.chunk_max_tokens := 512;
  Settings.max_sections_per_page := 1;
  Settings.top_k_retrieval := 5;
  Settings.similarity_threshold := double_0_35
|}.

(** An index holding the sample section under the source role, as the
    source embedding node stores it on Python 3.12. *)
Definition sample_index
  : gmap string (gmap string (@PineconeClient.Vector plain_embedder)) :=
  (@RetrievalService.store_sections python_3_12 md5 plain_embedder
     ∅ sample_url [sample_section] (Member SOURCE)).1.

(** Two pages that agree on their first 1000 characters. *)
Definition long_page_a : AgentState.t :=
  AgentState.create_initial_state
    sample_url (repeat_str "a" 1000 +:+ " api reference") "Guide".

Definition long_page_b : AgentState.t :=
  AgentState.create_initial_state
    sample_url (repeat_str "a" 1000 +:+ " weekly blog") "Guide".

Definition other_url : string := "https://docs.example.com/guide/other".

(** The section of the large sample page and its chunks. *)
Definition large_section : SectionData.t :=
  default short_section (AgentState.sections large_page_state !! 0).

Definition large_first_chunk : ChunkData.t :=
  List.hd (ChunkData.mk 0 EmptyString EmptyString EmptyString 0 None)
          (_split_section_into_chunks settings large_section).

Definition large_other_chunks : list ChunkData.t :=
  List.tl (_split_section_into_chunks settings large_section).

(** * Properties *)

(** ** Strings *)

Lemma string_app_cons (x : ascii) (a b : string) :
  String x a +:+ b = String x (a +:+ b).
Proof. reflexivity. Qed.

Lemma string_app_assoc (a b c : string) : (a +:+ b) +:+ c = a +:+ (b +:+ c).
Proof.
  induction a as [|x a IH]; [reflexivity|].
  rewrite !string_app_cons. f_equal. exact IH.
Qed.

Lemma join_cons2 sep (x y : string) (l : list string) :
  Py.join sep (x :: y :: l) = x +:+ sep +:+ Py.join sep (y :: l).
Proof. reflexivity. Qed.

Lemma join_app sep (l1 l2 : list string) :
  l1 <> [] -> l2 <> [] ->
  Py.join sep (l1 ++ l2) = Py.join sep l1 +:+ sep +:+ Py.join sep l2.
Proof.
  intros H1 H2. induction l1 as [|x l1 IH]; [congruence|].
  destruct l1 as [|y l1].
  - destruct l2 as [|z l2]; [congruence|]. reflexivity.
  - change ((x :: y :: l1) ++ l2) with (x :: y :: (l1 ++ l2)).
    rewrite !join_cons2.
    change (y :: l1 ++ l2) with ((y :: l1) ++ l2).
    rewrite IH by discriminate.
    now rewrite !string_app_assoc.
Qed.

(** ** Chunk splitter *)

Section SplitterProofs.
Variables (max_chunk_tokens : Z) (section : SectionData.t).

Lemma kept_sentences_snoc seen s :
  kept_sentences (seen ++ [s])
  = kept_sentences seen
    ++ (if Py.is_empty (Py.strip s) then [] else [Py.strip s]).
Proof.
  unfold kept_sentences. rewrite map_app, List.filter_app. simpl.
  unfold Py.truthy. now destruct (Py.is_empty (Py.strip s)).
Qed.

Lemma splitter_step_inv st seen s :
  splitter_inv st seen ->
  splitter_inv (Splitter.step max_chunk_tokens section st s) (seen ++ [s]).
Proof.
  intros (groups & Htext & Hne & Hcat & Hidx).
  unfold Splitter.step, splitter_inv. rewrite kept_sentences_snoc.
  destruct (Py.is_empty (Py.strip s)) eqn:Hs.
  - exists groups. rewrite app_nil_r. auto.
  - match goal with |- context [if ?b then _ else _] => destruct b eqn:Hb end.
    + apply andb_true_iff in Hb as [_ Hnil].
      exists (groups ++ [Splitter.current_chunk st]). cbn [Splitter.chunks Splitter.current_chunk].
      repeat split.
      * rewrite !map_app, Htext. reflexivity.
      * apply Forall_app; split; [assumption|].
        constructor; [|constructor].
        destruct (Splitter.current_chunk st); discriminate.
      * rewrite concat_app. simpl. rewrite app_nil_r, <- Hcat.
        now rewrite <- app_assoc.
      * rewrite map_app, length_app, Hidx. simpl.
        rewrite seq_app. simpl. reflexivity.
    + exists groups. cbn [Splitter.chunks Splitter.current_chunk].
      repeat split; try assumption.
      now rewrite app_assoc, Hcat.
Qed.

Lemma splitter_fold_inv l : forall st seen,
  splitter_inv st seen ->
  splitter_inv (fold_left (Splitter.step max_chunk_tokens section) l st)
               (seen ++ l).
Proof.
  induction l as [|s l IH]; intros st seen H; simpl.
  - now rewrite app_nil_r.
  - replace (seen ++ s :: l) with ((seen ++ [s]) ++ l)
      by now rewrite <- app_assoc.
    apply IH, splitter_step_inv, H.
Qed.

Lemma splitter_init_inv : splitter_inv (Splitter.mk [] [] 0%Z) [].
Proof. exists []. repeat split; constructor. Qed.

End SplitterProofs.

Lemma join_render_groups (groups : list (list string)) :
  Forall (fun g => g <> []) groups ->
  groups <> [] ->
  Py.join " " (map render_group groups) = render_group (concat groups).
Proof.
  induction groups as [|g groups IH]; intros Hne Hnil; [congruence|].
  inversion Hne as [|? ? Hg Hrest]; subst.
  destruct groups as [|g' groups].
  - simpl. now rewrite app_nil_r.
  - specialize (IH Hrest ltac:(discriminate)).
    change (map render_group (g :: g' :: groups))
      with (render_group g :: render_group g' :: map render_group groups).
    rewrite join_cons2.
    change (render_group g' :: map render_group groups)
      with (map render_group (g' :: groups)).
    rewrite IH. unfold render_group.
    change (concat (g :: g' :: groups)) with (g ++ concat (g' :: groups)).
    rewrite join_app; [| assumption |].
    + now rewrite !string_app_assoc.
    + inversion Hrest; subst. simpl. destruct g'; [congruence | discriminate].
Qed.

(** C5. The chunks of a section, in index order, are the renderings of
    consecutive non-empty groups that partition the section's sentence
    sequence: no sentence is omitted and none appears twice.  Joined with a
    blank, the chunk texts are the rendering of the whole sequence. *)
Theorem chunk_reconstruction (cfg : Settings.t) (section : SectionData.t) :
  let chunks := _split_section_into_chunks cfg section in
  let stream := sentence_stream (SectionData.raw_text section) in
  (exists groups : list (list string),
      concat groups = stream
      /\ Forall (fun g => g <> []) groups
      /\ map ChunkData.text chunks = map render_group groups)
  /\ map ChunkData.index chunks = seq 0 (length chunks)
  /\ Py.join " " (map ChunkData.text chunks)
     = (if Splitter.is_nil stream then EmptyString else render_group stream).
Proof.
  intros chunks stream.
  assert (Hinv := splitter_fold_inv (Settings.chunk_max_tokens cfg) section
                    (Splitter.sentences_of (SectionData.raw_text section))
                    _ _ (splitter_init_inv)).
  simpl in Hinv. destruct Hinv as (groups & Htext & Hne & Hcat & Hidx).
  fold (sentence_stream (SectionData.raw_text section)) in Hcat.
  fold stream in Hcat.
  assert (Hgoal : exists groups' : list (list string),
             concat groups' = stream
             /\ Forall (fun g => g <> []) groups'
             /\ map ChunkData.text chunks = map render_group groups'
             /\ map ChunkData.index chunks = seq 0 (length chunks)).
  { subst chunks. unfold _split_section_into_chunks.
    set (st := fold_left _ _ _) in *.
    destruct (Splitter.current_chunk st) as [|s0 cur] eqn:Hcur; simpl.
    - exists groups. rewrite app_nil_r in Hcat. auto.
    - exists (groups ++ [s0 :: cur]). repeat split.
      + rewrite concat_app. simpl. now rewrite app_nil_r.
      + apply Forall_app; split; [assumption|]. now repeat constructor.
      + rewrite !map_app, Htext. cbn [map]. unfold Splitter.close_chunk.
        cbn [ChunkData.text]. now rewrite Hcur.
      + rewrite map_app, length_app, Hidx, seq_app. reflexivity. }
  destruct Hgoal as (groups' & Hc & Hf & Ht & Hi).
  split; [exists groups'; auto|]. split; [assumption|].
  rewrite Ht. destruct groups' as [|g groups'].
  - simpl in Hc. rewrite <- Hc. reflexivity.
  - rewrite join_render_groups by (assumption || discriminate).
    rewrite Hc. destruct stream as [|x xs] eqn:Hs; [|reflexivity].
    inversion Hf; subst. destruct g; [congruence | discriminate].
Qed.

(** ** Dictionaries *)

Lemma dict_get_set_eq k v d : Dict.get k (Dict.set k v d) = Some v.
Proof.
  induction d as [|[k' v'] d IH]; simpl.
  - now rewrite String.eqb_refl.
  - destruct (String.eqb k' k) eqn:E; simpl.
    + now rewrite String.eqb_refl.
    + now rewrite E.
Qed.

Lemma dict_get_set_ne k k' v d :
  k <> k' -> Dict.get k' (Dict.set k v d) = Dict.get k' d.
Proof.
  intros Hne. induction d as [|[k0 v0] d IH]; simpl.
  - destruct (String.eqb k k') eqn:E; [|reflexivity].
    apply String.eqb_eq in E. contradiction.
  - destruct (String.eqb k0 k) eqn:E; simpl.
    + apply String.eqb_eq in E. subst k0.
      destruct (String.eqb k k') eqn:E'; [|reflexivity].
      apply String.eqb_eq in E'. contradiction.
    + now rewrite IH.
Qed.

Lemma dict_set_keeps k k' v d :
  is_Some (Dict.get k' d) -> is_Some (Dict.get k' (Dict.set k v d)).
Proof.
  intros Hs. destruct (String.eqb_spec k k') as [->|Hne].
  - rewrite dict_get_set_eq. eauto.
  - now rewrite dict_get_set_ne.
Qed.

(** ** Page synthesis *)

(** C9. When the summary map has exactly one entry, page synthesis returns
    that entry's summary as the page digest, unchanged, and the log of
    generative requests is the one it was given: no call is issued. *)
Theorem single_section_digest (state : AgentState.t) (llm : Oracle)
        (log : list Request.t) :
  length (AgentState.section_summaries state) = 1 ->
  exists section_id summary,
    AgentState.section_summaries state = [(section_id, summary)]
    /\ AgentState.page_summary (synthesize_page_node state llm log).1
       = summary
    /\ AgentState.final_summary (synthesize_page_node state llm log).1
       = summary
    /\ (synthesize_page_node state llm log).2 = log.
Proof.
  intros Hlen. unfold synthesize_page_node.
  destruct (AgentState.section_summaries state) as [|[sid summary] rest]
    eqn:Hs; [discriminate|].
  destruct rest; [|discriminate].
  exists sid, summary. repeat split.
Qed.

(** ** The section loop *)

(** What one run of [process_section_node] does to the state, whatever
    the generative service answers. *)
Lemma process_section_node_step cfg state llm log section :
  AgentState.sections state !! AgentState.current_section_index state
  = Some section ->
  let state' := (process_section_node cfg state llm log).1 in
  AgentState.current_section_index state'
  = AgentState.current_section_index state + 1
  /\ map SectionData.section_id (AgentState.sections state')
     = map SectionData.section_id (AgentState.sections state)
  /\ map SectionData.is_large (AgentState.sections state')
     = map SectionData.is_large (AgentState.sections state)
  /\ exists summary,
       AgentState.section_summaries state'
       = Dict.set (SectionData.section_id section) summary
                  (AgentState.section_summaries state).
Proof.
  intros Hsec. unfold process_section_node. rewrite Hsec.
  match goal with |- context [?b llm log] =>
    destruct (b llm log) as [[summary|] log'] end; cbn.
  - repeat split; [| |eauto].
    + rewrite list_fmap_insert. cbn. apply list_insert_id.
      now rewrite list_lookup_fmap, Hsec.
    + rewrite list_fmap_insert. cbn. apply list_insert_id.
      now rewrite list_lookup_fmap, Hsec.
  - repeat split; eauto.
Qed.

Lemma process_section_node_done cfg state llm log :
  AgentState.sections state !! AgentState.current_section_index state = None ->
  process_section_node cfg state llm log
  = (AgentState.set_current_status "all sections processed" state, log).
Proof. intros Hnone. unfold process_section_node. now rewrite Hnone. Qed.

Lemma should_continue_spec state :
  should_continue_processing state
  = if AgentState.current_section_index state
       <? length (AgentState.sections state)
    then "continue" else "embed".
Proof. reflexivity. Qed.

(** The loop started with [m + 1] sections still to process. *)
Lemma section_loop_run cfg llm : forall m state runs log,
  AgentState.current_section_index state + S m
  = length (AgentState.sections state) ->
  exists state' log',
    (forall fuel, S m <= fuel ->
       section_loop cfg fuel state runs llm log
       = Some (state', runs + S m, log'))
    /\ AgentState.current_section_index state'
       = length (AgentState.sections state)
    /\ map SectionData.section_id (AgentState.sections state')
       = map SectionData.section_id (AgentState.sections state)
    /\ (forall k, is_Some (Dict.get k (AgentState.section_summaries state)) ->
                  is_Some (Dict.get k (AgentState.section_summaries state')))
    /\ (forall j s, AgentState.current_section_index state <= j ->
                    AgentState.sections state !! j = Some s ->
                    is_Some (Dict.get (SectionData.section_id s)
                                      (AgentState.section_summaries state'))).
Proof.
  induction m as [|m IH]; intros state runs log Hidx.
  - destruct (lookup_lt_is_Some_2 (AgentState.sections state)
                (AgentState.current_section_index state)) as [section Hsec];
      [lia|].
    destruct (process_section_node_step cfg state llm log section Hsec)
      as (Hi & Hids & _ & summary & Hsum).
    destruct (process_section_node cfg state llm log) as [state1 log1] eqn:Hp.
    cbn in Hi, Hids, Hsum.
    assert (Hlen : length (AgentState.sections state1)
                   = length (AgentState.sections state)).
    { rewrite <- (length_map SectionData.section_id), Hids.
      apply length_map. }
    exists state1, log1. repeat split.
    + intros [|fuel] Hf; [lia|]. cbn. rewrite Hp.
      rewrite should_continue_spec, Hi, Hlen.
      destruct (Nat.ltb_spec (AgentState.current_section_index state + 1)
                  (length (AgentState.sections state))); [lia|].
      cbn. do 3 f_equal. lia.
    + lia.
    + assumption.
    + intros k Hk. rewrite Hsum. now apply dict_set_keeps.
    + intros j s Hj Hs.
      assert (j = AgentState.current_section_index state) as ->.
      { apply lookup_lt_Some in Hs. lia. }
      rewrite Hsec in Hs. injection Hs as <-.
      rewrite Hsum, dict_get_set_eq. eauto.
  - destruct (lookup_lt_is_Some_2 (AgentState.sections state)
                (AgentState.current_section_index state)) as [section Hsec];
      [lia|].
    destruct (process_section_node_step cfg state llm log section Hsec)
      as (Hi & Hids & _ & summary & Hsum).
    destruct (process_section_node cfg state llm log) as [state1 log1] eqn:Hp.
    cbn in Hi, Hids, Hsum.
    assert (Hlen : length (AgentState.sections state1)
                   = length (AgentState.sections state)).
    { rewrite <- (length_map SectionData.section_id), Hids.
      apply length_map. }
    destruct (IH state1 (S runs) log1) as (state' & log' & Hrun & Hend & Hids'
                                           & Hkeep & Hall); [lia|].
    exists state', log'. repeat split.
    + intros [|fuel] Hf; [lia|]. cbn. rewrite Hp.
      rewrite should_continue_spec, Hi, Hlen.
      destruct (Nat.ltb_spec (AgentState.current_section_index state + 1)
                  (length (AgentState.sections state))); [|lia].
      cbn. rewrite Hrun by lia. do 3 f_equal. lia.
    + lia.
    + congruence.
    + intros k Hk. apply Hkeep. rewrite Hsum. now apply dict_set_keeps.
    + intros j s Hj Hs.
      destruct (decide (j = AgentState.current_section_index state)) as [->|Hne].
      * rewrite Hsec in Hs. injection Hs as <-.
        apply Hkeep. rewrite Hsum, dict_get_set_eq. eauto.
      * assert (Hs1 : exists s1, AgentState.sections state1 !! j = Some s1
                        /\ SectionData.section_id s1 = SectionData.section_id s).
        { assert (Hm : map SectionData.section_id (AgentState.sections state1)
                       !! j = Some (SectionData.section_id s)).
          { rewrite Hids. now rewrite list_lookup_fmap, Hs. }
          rewrite list_lookup_fmap in Hm.
          destruct (AgentState.sections state1 !! j) as [s1|]; [|discriminate].
          exists s1. split; [reflexivity|]. now injection Hm. }
        destruct Hs1 as (s1 & Hs1 & Hid). rewrite <- Hid.
        apply (Hall j s1); [lia | assumption].
Qed.

(** C10 (amended). A run of the section step with the cursor inside the
    section list moves the cursor by exactly one, whether the section
    succeeds or fails; a run with the cursor at the end leaves it where it
    is.  From cursor 0 and [n] sections the loop runs the step
    [max n 1] times (given that much fuel or more), then the condition
    routes to embedding with the cursor at [n], and the summary map has an
    entry for the [section_id] of every section. *)
Theorem section_loop_terminates (cfg : Settings.t) (state : AgentState.t)
        (llm : Oracle) (log : list Request.t) :
  AgentState.current_section_index state = 0 ->
  let n := length (AgentState.sections state) in
  (forall st l o,
      AgentState.current_section_index st < length (AgentState.sections st) ->
      AgentState.current_section_index (process_section_node cfg st o l).1
      = AgentState.current_section_index st + 1)
  /\ (forall st l o,
      length (AgentState.sections st) <= AgentState.current_section_index st ->
      AgentState.current_section_index (process_section_node cfg st o l).1
      = AgentState.current_section_index st)
  /\ exists state' log',
      (forall fuel, Nat.max n 1 <= fuel ->
         section_loop cfg fuel state 0 llm log
         = Some (state', Nat.max n 1, log'))
      /\ should_continue_processing state' = "embed"
      /\ AgentState.current_section_index state' = n
      /\ forall s, In s (AgentState.sections state) ->
           is_Some (Dict.get (SectionData.section_id s)
                             (AgentState.section_summaries state')).
Proof.
  intros Hzero n. split; [|split].
  - intros st l o Hlt.
    destruct (lookup_lt_is_Some_2 (AgentState.sections st)
                (AgentState.current_section_index st) Hlt) as [section Hsec].
    now destruct (process_section_node_step cfg st o l section Hsec).
  - intros st l o Hge.
    rewrite process_section_node_done; [reflexivity|].
    now apply lookup_ge_None_2.
  - destruct n as [|m] eqn:Hn.
    + exists (AgentState.set_current_status "all sections processed" state), log.
      assert (Hnil : AgentState.sections state = [])
        by now apply length_zero_iff_nil.
      repeat split.
      * intros [|fuel] Hf; [cbn in Hf; lia|]. cbn.
        rewrite process_section_node_done
          by (rewrite Hnil; apply lookup_nil).
        rewrite should_continue_spec. cbn. rewrite Hzero, Hnil. reflexivity.
      * rewrite should_continue_spec. cbn. now rewrite Hzero, Hnil.
      * cbn. assumption.
      * intros s Hin. rewrite Hnil in Hin. destruct Hin.
    + destruct (section_loop_run cfg llm m state 0 log)
        as (state' & log' & Hrun & Hend & Hids & _ & Hall); [lia|].
      exists state', log'.
      assert (Hlen : length (AgentState.sections state')
                     = length (AgentState.sections state)).
      { rewrite <- (length_map SectionData.section_id), Hids.
        apply length_map. }
      repeat split.
      * intros fuel Hf. rewrite Hrun by lia. do 3 f_equal. lia.
      * rewrite should_continue_spec, Hend, Hlen.
        now rewrite Nat.ltb_irrefl.
      * lia.
      * intros s Hin. apply list_elem_of_In, list_elem_of_lookup in Hin.
        destruct Hin as [j Hj]. apply (Hall j s); [lia | assumption].
Qed.

(** ** The adaptive section processor *)

Lemma extract_facts_cons section chunk rest all_facts llm log :
  extract_facts section (chunk :: rest) all_facts llm log
  = match llm log (fact_request section chunk) with
    | Some facts =>
        extract_facts section rest (all_facts ++ [facts]) llm
                      (log ++ [fact_request section chunk])
    | None => (None, log ++ [fact_request section chunk])
    end.
Proof.
  cbn. unfold mbind, LLM_bind, generate.
  now destruct (llm log (fact_request section chunk)).
Qed.

(** The fact-extraction loop: it asks for the chunks in order and stops at
    the first failure. *)
Lemma extract_facts_spec section llm : forall chunks all_facts log,
  match extract_facts section chunks all_facts llm log with
  | (Some facts, log') =>
      length facts = length all_facts + length chunks
      /\ log' = log ++ map (fact_request section) chunks
      /\ forall k chunk, chunks !! k = Some chunk ->
           llm (log ++ map (fact_request section) (firstn k chunks))
               (fact_request section chunk) <> None
  | (None, log') =>
      exists k, k < length chunks
                /\ log' = log ++ map (fact_request section)
                                     (firstn (S k) chunks)
                /\ forall i chunk, i < k -> chunks !! i = Some chunk ->
                     llm (log ++ map (fact_request section) (firstn i chunks))
                         (fact_request section chunk) <> None
  end.
Proof.
  induction chunks as [|chunk rest IH]; intros all_facts log.
  - cbn. repeat split; [lia | now rewrite app_nil_r |].
    intros k chunk Hk. now rewrite lookup_nil in Hk.
  - rewrite extract_facts_cons.
    destruct (llm log (fact_request section chunk)) as [facts|] eqn:Hllm.
    + specialize (IH (all_facts ++ [facts]) (log ++ [fact_request section chunk])).
      destruct (extract_facts section rest (all_facts ++ [facts]) llm
                  (log ++ [fact_request section chunk])) as [[fs|] log'].
      * destruct IH as (Hlen & Hlog & Hok). repeat split.
        -- rewrite Hlen, length_app. cbn. lia.
        -- rewrite Hlog, <- app_assoc. reflexivity.
        -- intros [|k] c Hc; cbn in Hc.
           ++ injection Hc as <-. cbn. rewrite app_nil_r. congruence.
           ++ cbn. specialize (Hok k c Hc).
              now rewrite <- app_assoc in Hok.
      * destruct IH as (k & Hk & Hlog & Hok). exists (S k).
        split; [cbn; lia|]. split.
        -- rewrite Hlog, <- app_assoc. reflexivity.
        -- intros [|i] c Hi Hc; cbn in Hc.
           ++ injection Hc as <-. cbn. rewrite app_nil_r. congruence.
           ++ cbn. assert (Hi' : i < k) by lia.
              specialize (Hok i c Hi' Hc).
              now rewrite <- app_assoc in Hok.
    + exists 0. split; [cbn; lia|]. split; [reflexivity|]. intros; lia.
Qed.

Lemma direct_request_not_fact section pt section' chunk :
  direct_summary_request section pt <> fact_request section' chunk.
Proof. intros Heq. apply (f_equal Request.max_tokens) in Heq. discriminate. Qed.

Lemma direct_request_not_from_facts section pt section' pt' merged :
  direct_summary_request section pt
  <> summary_from_facts_request section' pt' merged.
Proof.
  intros Heq. apply (f_equal Request.prompt) in Heq.
  apply (f_equal (String.get 37)) in Heq. lazy in Heq. discriminate.
Qed.

Lemma from_facts_request_not_fact section pt merged section' chunk :
  summary_from_facts_request section pt merged <> fact_request section' chunk.
Proof. intros Heq. apply (f_equal Request.max_tokens) in Heq. discriminate. Qed.

Lemma small_section_trace section pt llm log :
  direct_trace section pt log (_process_small_section section pt llm log).2.
Proof. reflexivity. Qed.

Lemma large_section_run cfg section pt llm log :
  let chunks := _split_section_into_chunks cfg section in
  match _process_large_section cfg section pt llm log with
  | (Some summary, log') =>
      exists facts, length facts = length chunks
        /\ log' = log ++ map (fact_request section) chunks
                  ++ [summary_from_facts_request
                        section pt (Py.join Prompts.NL facts)]
        /\ forall k chunk, chunks !! k = Some chunk ->
             llm (log ++ map (fact_request section) (firstn k chunks))
                 (fact_request section chunk) <> None
  | (None, log') =>
      (exists facts, length facts = length chunks
         /\ log' = log ++ map (fact_request section) chunks
                   ++ [summary_from_facts_request
                         section pt (Py.join Prompts.NL facts)])
      \/ (exists k, k < length chunks
            /\ log' = log ++ map (fact_request section)
                                 (firstn (S k) chunks)
            /\ forall merged,
                 ~ In (summary_from_facts_request section pt merged)
                      (map (fact_request section) (firstn (S k) chunks)))
  end.
Proof.
  intros chunks. unfold _process_large_section. fold chunks.
  unfold mbind, LLM_bind.
  pose proof (extract_facts_spec section llm chunks [] log) as Hspec.
  destruct (extract_facts section chunks [] llm log) as [[facts|] log1].
  - destruct Hspec as (Hlen & Hlog & Hok). unfold generate.
    destruct (llm log1 _) as [summary|].
    + exists facts. cbn in Hlen. repeat split; try assumption.
      now rewrite Hlog, <- app_assoc.
    + left. exists facts. cbn in Hlen. split; [assumption|].
      now rewrite Hlog, <- app_assoc.
  - right. destruct Hspec as (k & Hk & Hlog & _). exists k.
    repeat split; try assumption.
    intros merged Hin. apply in_map_iff in Hin as (c & Hc & _).
    symmetry in Hc. now apply from_facts_request_not_fact in Hc.
Qed.

Lemma large_section_trace cfg section pt llm log :
  hierarchical_trace cfg section pt log
                     (_process_large_section cfg section pt llm log).2.
Proof.
  pose proof (large_section_run cfg section pt llm log) as Hrun.
  unfold hierarchical_trace.
  destruct (_process_large_section cfg section pt llm log) as [[s|] log'];
    cbn in *.
  - destruct Hrun as (facts & Hlen & Hlog & _). left. eauto.
  - destruct Hrun as [(facts & Hlen & Hlog)|(k & Hk & Hlog & _)];
      [left | right]; eauto.
Qed.

(** The two paths cannot be mistaken for one another. *)
Lemma traces_exclusive cfg section pt log log' :
  direct_trace section pt log log' ->
  hierarchical_trace cfg section pt log log' -> False.
Proof.
  unfold direct_trace, hierarchical_trace. intros -> Hh.
  assert (Hlast : forall (l : list Request.t) x y,
             [x] = l ++ [y] -> x = y).
  { intros l x y Hl. destruct l as [|a l]; cbn in Hl; [congruence|].
    destruct l; discriminate. }
  destruct Hh as [(facts & _ & Heq)|(k & Hk & Heq)];
    apply app_inv_head in Heq.
  - apply Hlast in Heq. now apply direct_request_not_from_facts in Heq.
  - destruct (_split_section_into_chunks cfg section) as [|c cs];
      [cbn in Hk; lia|].
    assert (Hhd : direct_summary_request section pt = fact_request section c)
      by (cbn in Heq; congruence).
    now apply direct_request_not_fact in Hhd.
Qed.

Lemma process_section_node_log cfg state llm log section :
  AgentState.sections state !! AgentState.current_section_index state
  = Some section ->
  (process_section_node cfg state llm log).2
  = (summarize_section cfg section (AgentState.page_type state) llm log).2.
Proof.
  intros Hsec. unfold process_section_node. rewrite Hsec.
  now destruct (summarize_section cfg section _ llm log) as [[s|] log'].
Qed.

Lemma process_section_node_keeps_is_large cfg state llm log :
  map SectionData.is_large
      (AgentState.sections (process_section_node cfg state llm log).1)
  = map SectionData.is_large (AgentState.sections state).
Proof.
  destruct (AgentState.sections state
            !! AgentState.current_section_index state) as [section|] eqn:Hsec.
  - now destruct (process_section_node_step cfg state llm log section Hsec)
      as (_ & _ & Hl & _).
  - now rewrite process_section_node_done.
Qed.

Lemma embed_source_keeps_is_large `{Python} `{Hash} `{Embedder}
      fault state idx :
  map SectionData.is_large
      (AgentState.sections (embed_section_source_node fault state idx).1)
  = map SectionData.is_large (AgentState.sections state).
Proof.
  unfold embed_section_source_node.
  destruct (RetrievalService.attempt_check_page_indexed fault idx _)
    as [e|[|]]; [reflexivity..|].
  destruct (RetrievalService.attempt_store_sections _ _ _ _ _)
    as [idx' [e|n]]; [reflexivity|]. cbn.
  rewrite map_map. reflexivity.
Qed.

Lemma embed_summary_keeps_is_large `{Python} `{Hash} `{Embedder}
      fault state idx :
  map SectionData.is_large
      (AgentState.sections (embed_section_summary_node fault state idx).1)
  = map SectionData.is_large (AgentState.sections state).
Proof.
  unfold embed_section_summary_node.
  destruct (Splitter.is_nil _); [reflexivity|].
  destruct (RetrievalService.attempt_store_sections _ _ _ _ _)
    as [idx' [e|n]]; [reflexivity|]. cbn.
  rewrite map_map. reflexivity.
Qed.

Lemma synthesize_keeps_sections state llm log :
  AgentState.sections (synthesize_page_node state llm log).1
  = AgentState.sections state.
Proof.
  unfold synthesize_page_node.
  destruct (Splitter.is_nil _); [reflexivity|].
  destruct (length _ =? 1); [reflexivity|].
  destruct (generate _ llm log) as [[s|] log']; reflexivity.
Qed.


(** ** Failure of a generative call *)

Lemma process_section_node_outcome cfg state llm log section :
  AgentState.sections state !! AgentState.current_section_index state
  = Some section ->
  AgentState.section_summaries (process_section_node cfg state llm log).1
  = Dict.set (SectionData.section_id section)
      (default (error_placeholder section)
         (summarize_section cfg section (AgentState.page_type state)
                            llm log).1)
      (AgentState.section_summaries state).
Proof.
  intros Hsec. unfold process_section_node. rewrite Hsec.
  now destruct (summarize_section cfg section _ llm log) as [[s|] log'].
Qed.

(** C4 (amended). A failing generative call of a section, in either path,
    makes the placeholder naming the heading the section's summary, and
    the cursor moves to the next section.  In the hierarchical path a
    failing fact extraction for one chunk does so too: no summary is
    requested from the facts of the other chunks. *)
Theorem section_failure_contained (cfg : Settings.t) (state : AgentState.t)
        (section : SectionData.t) (llm : Oracle) (log : list Request.t) :
  AgentState.sections state !! AgentState.current_section_index state
  = Some section ->
  let state' := (process_section_node cfg state llm log).1 in
  let log' := (process_section_node cfg state llm log).2 in
  let outcome :=
    (summarize_section cfg section (AgentState.page_type state) llm log).1 in
  let placeholder :=
    "[Error summarizing: " +:+ SectionData.heading section +:+ "]" in
  let chunks := _split_section_into_chunks cfg section in
  AgentState.current_section_index state'
  = AgentState.current_section_index state + 1
  /\ (outcome = None ->
      AgentState.section_summaries state'
      = Dict.set (SectionData.section_id section) placeholder
                 (AgentState.section_summaries state))
  /\ (forall summary, outcome = Some summary ->
      AgentState.section_summaries state'
      = Dict.set (SectionData.section_id section) summary
                 (AgentState.section_summaries state))
  /\ (SectionData.is_large section = true ->
      forall k chunk,
        chunks !! k = Some chunk ->
        llm (log ++ map (fact_request section) (firstn k chunks))
            (fact_request section chunk) = None ->
        AgentState.section_summaries state'
        = Dict.set (SectionData.section_id section) placeholder
                   (AgentState.section_summaries state)
        /\ exists j, j <= k
             /\ log' = log ++ map (fact_request section)
                                  (firstn (S j) chunks)).
Proof.
  intros Hsec state' log' outcome placeholder chunks.
  subst state' log'. split; [|split; [|split]].
  - now destruct (process_section_node_step cfg state llm log section Hsec).
  - intros Hnone. rewrite (process_section_node_outcome _ _ _ _ _ Hsec).
    fold outcome. now rewrite Hnone.
  - intros summary Hsome.
    rewrite (process_section_node_outcome _ _ _ _ _ Hsec).
    fold outcome. now rewrite Hsome.
  - intros Hlarge k chunk Hk Hfail.
    rewrite (process_section_node_outcome _ _ _ _ _ Hsec).
    rewrite (process_section_node_log _ _ _ _ _ Hsec).
    unfold summarize_section. rewrite Hlarge.
    unfold _process_large_section. fold chunks. unfold mbind, LLM_bind.
    pose proof (extract_facts_spec section llm chunks [] log) as Hspec.
    destruct (extract_facts section chunks [] llm log) as [[facts|] log1].
    + destruct Hspec as (_ & _ & Hok). now destruct (Hok k chunk Hk).
    + cbn. split; [reflexivity|].
      destruct Hspec as (j & Hj & Hlog & Hok). exists j.
      split; [|assumption].
      destruct (Nat.le_gt_cases j k) as [Hle|Hgt]; [assumption|].
      now destruct (Hok k chunk Hgt Hk).
Qed.

(** ** Grounding context *)

Lemma tokens_of_nonneg s : (0 <= RetrievalService.tokens_of s)%Z.
Proof. unfold RetrievalService.tokens_of. apply Z.div_pos; lia. Qed.

Lemma total_tokens_cons x l :
  total_tokens (x :: l)
  = (RetrievalService.tokens_of (RetrievalService.section_block x)
     + total_tokens l)%Z.
Proof. reflexivity. Qed.

Lemma total_tokens_nonneg l : (0 <= total_tokens l)%Z.
Proof.
  induction l as [|x l IH]; [cbn; lia|]. rewrite total_tokens_cons.
  pose proof (tokens_of_nonneg (RetrievalService.section_block x)). lia.
Qed.

Lemma context_loop_cons max_tokens s rest parts cur :
  RetrievalService.context_loop max_tokens (s :: rest) parts cur
  = let section_text := RetrievalService.section_block s in
    let section_tokens := RetrievalService.tokens_of section_text in
    if (max_tokens <? cur + section_tokens)%Z then
      if (100 <? (max_tokens - cur) * 4)%Z then
        parts ++ [Py.take (Z.to_nat ((max_tokens - cur) * 4)) section_text
                  +:+ "..."]
      else parts
    else RetrievalService.context_loop
           max_tokens rest (parts ++ [section_text]) (cur + section_tokens)%Z.
Proof. reflexivity. Qed.

Lemma context_loop_fits max_tokens : forall sections parts cur,
  (cur + total_tokens sections <= max_tokens)%Z ->
  RetrievalService.context_loop max_tokens sections parts cur
  = parts ++ map RetrievalService.section_block sections.
Proof.
  induction sections as [|s rest IH]; intros parts cur Hfit.
  - cbn. now rewrite app_nil_r.
  - rewrite total_tokens_cons in Hfit. pose proof (total_tokens_nonneg rest).
    rewrite context_loop_cons. cbv zeta.
    destruct (Z.ltb_spec max_tokens
                (cur + RetrievalService.tokens_of
                         (RetrievalService.section_block s))); [lia|].
    rewrite IH by lia. now rewrite <- app_assoc.
Qed.

Lemma context_loop_overflow max_tokens s post : forall pre parts cur,
  (cur + total_tokens pre <= max_tokens)%Z ->
  (max_tokens < cur + total_tokens pre
                + RetrievalService.tokens_of
                    (RetrievalService.section_block s))%Z ->
  RetrievalService.context_loop max_tokens (pre ++ s :: post) parts cur
  = parts ++ map RetrievalService.section_block pre
    ++ (if (100 <? (max_tokens - (cur + total_tokens pre)) * 4)%Z
        then [Py.take (Z.to_nat ((max_tokens - (cur + total_tokens pre)) * 4))
                      (RetrievalService.section_block s) +:+ "..."]
        else []).
Proof.
  induction pre as [|x pre IH]; intros parts cur Hfit Hover.
  - change (total_tokens []) with 0%Z in *. rewrite Z.add_0_r in *.
    change ([] ++ s :: post) with (s :: post).
    rewrite context_loop_cons. cbv zeta.
    destruct (Z.ltb_spec max_tokens
                (cur + RetrievalService.tokens_of
                         (RetrievalService.section_block s))); [|lia].
    cbn [map app].
    destruct (100 <? _)%Z; [reflexivity | now rewrite app_nil_r].
  - rewrite total_tokens_cons in *. pose proof (total_tokens_nonneg pre).
    change ((x :: pre) ++ s :: post) with (x :: (pre ++ s :: post)).
    rewrite context_loop_cons. cbv zeta.
    destruct (Z.ltb_spec max_tokens
                (cur + RetrievalService.tokens_of
                         (RetrievalService.section_block x))); [lia|].
    rewrite IH by lia. rewrite <- app_assoc. cbn [map app].
    replace (cur + RetrievalService.tokens_of
                     (RetrievalService.section_block x) + total_tokens pre)%Z
      with (cur + (RetrievalService.tokens_of
                     (RetrievalService.section_block x) + total_tokens pre))%Z
      by lia.
    reflexivity.
Qed.

(** C7 (amended). For a non-empty list of retrieved sections the context
    is the blocks (heading, score, text) of the sections in order, joined
    by line feeds, as long as they fit the token budget.  At the first
    section that would exceed the budget the loop stops: that section is
    included cut to the remaining budget, followed by an ellipsis, when
    more than 100 characters remain, and is left out otherwise; the
    sections after it are left out. *)
Theorem context_assembly (sections : list Result.t) (max_tokens : Z) :
  sections <> [] ->
  ((total_tokens sections <= max_tokens)%Z ->
   RetrievalService.build_context_from_sections sections max_tokens
   = Py.join Prompts.NL (map RetrievalService.section_block sections))
  /\ (forall pre s post,
        sections = pre ++ s :: post ->
        (total_tokens pre <= max_tokens)%Z ->
        (max_tokens < total_tokens pre
                      + RetrievalService.tokens_of
                          (RetrievalService.section_block s))%Z ->
        let remaining_chars := ((max_tokens - total_tokens pre) * 4)%Z in
        RetrievalService.build_context_from_sections sections max_tokens
        = Py.join Prompts.NL
            (map RetrievalService.section_block pre
             ++ (if (100 <? remaining_chars)%Z
                 then [Py.take (Z.to_nat remaining_chars)
                               (RetrievalService.section_block s) +:+ "..."]
                 else []))).
Proof.
  intros Hne. unfold RetrievalService.build_context_from_sections.
  destruct sections as [|s0 rest] eqn:Hs; [congruence|]. cbn [Splitter.is_nil].
  rewrite <- Hs. split.
  - intros Hfit. now rewrite context_loop_fits by lia.
  - intros pre s post Hsplit Hfit Hover.
    rewrite Hsplit.
    rewrite context_loop_overflow by lia. reflexivity.
Qed.

(** ** Section segmenter *)

(** C8 (amended). An empty text gives no section.  A text in which no
    heading is found gives no section when it holds only whitespace, and
    otherwise exactly one section, headed "Content", whose raw text is the
    document without its leading and trailing whitespace (the cap on the
    number of sections being at least one). *)
Theorem segmenter_degenerate `{Hash} (cfg : Settings.t)
        (text page_url : string) :
  1 <= Settings.max_sections_per_page cfg ->
  SectionExtractor.extract_headings text = [] ->
  SectionExtractor.extract_sections cfg EmptyString page_url = []
  /\ SectionExtractor.extract_sections cfg text page_url
     = if Py.is_empty (Py.strip text) then []
       else [ExtractedSection.mk
               (SectionExtractor.generate_section_id page_url "Content" 0)
               "Content" 1 (Py.strip text) 0 (String.length text)
               (SectionExtractor.estimate_tokens text)].
Proof.
  intros Hcap Hnone. split.
  - unfold SectionExtractor.extract_sections. cbn.
    now destruct (Settings.max_sections_per_page cfg).
  - unfold SectionExtractor.extract_sections. rewrite Hnone. cbn.
    unfold Py.truthy. destruct (Py.is_empty (Py.strip text)); cbn.
    + now destruct (Settings.max_sections_per_page cfg).
    + destruct (Settings.max_sections_per_page cfg); [lia | reflexivity].
Qed.

(** ** The vector index *)

Lemma EmbeddingType_eqb_eq a b : EmbeddingType_eqb a b = true <-> a = b.
Proof. destruct a, b; cbn; split; congruence. Qed.

Lemma filter_Permutation {A} (p : A -> bool) (l l' : list A) :
  Permutation l l' -> Permutation (List.filter p l) (List.filter p l').
Proof.
  induction 1 as [|x l l' _ IH|x y l|l l' l'' _ IH1 _ IH2]; cbn.
  - constructor.
  - destruct (p x); [now constructor | assumption].
  - destruct (p x), (p y); try reflexivity. apply perm_swap.
  - etransitivity; eassumption.
Qed.

Lemma insert_desc_Permutation {A} (key : A -> Q) x (l : list A) :
  Permutation (Score.insert_desc key x l) (x :: l).
Proof.
  induction l as [|y l IH]; cbn; [reflexivity|].
  destruct (Score.ltb (key y) (key x)); [reflexivity|].
  rewrite IH. apply perm_swap.
Qed.

Lemma sort_desc_Permutation {A} (key : A -> Q) (l : list A) :
  Permutation (Score.sort_desc key l) l.
Proof.
  unfold Score.sort_desc.
  assert (Hgen : forall l acc,
             Permutation
               (fold_left (fun acc x => Score.insert_desc key x acc) l acc)
               (l ++ acc)).
  { clear l. induction l as [|x l IH]; intros acc; cbn; [reflexivity|].
    rewrite IH, insert_desc_Permutation. now rewrite Permutation_middle. }
  rewrite Hgen. now rewrite app_nil_r.
Qed.

Lemma in_sort_desc {A} (key : A -> Q) (l : list A) x :
  In x (Score.sort_desc key l) <-> In x l.
Proof.
  split; apply Permutation_in;
    [| symmetry]; apply sort_desc_Permutation.
Qed.

Section IndexProofs.
Context `{Python} `{Hash} `{Embedder}.

Abbreviation Index := (gmap string (gmap string PineconeClient.Vector)).

Lemma namespace_of_insert (idx : Index) namespace m :
  PineconeClient.namespace_of (<[namespace := m]> idx) namespace = m.
Proof.
  unfold PineconeClient.namespace_of. now rewrite lookup_insert_eq.
Qed.

Lemma index_upsert_cons v batch namespace (idx : Index) :
  PineconeClient.index_upsert (v :: batch) namespace idx
  = <[namespace :=
        fold_left put (v :: batch)
                  (PineconeClient.namespace_of idx namespace)]> idx.
Proof. reflexivity. Qed.

Lemma batches_cons {A} fuel size (x : A) l :
  PineconeClient.batches (S fuel) size (x :: l)
  = firstn size (x :: l)
    :: PineconeClient.batches fuel size (skipn size (x :: l)).
Proof. reflexivity. Qed.

(** Upserting by batches is upserting the vectors one after the other. *)
Lemma batch_upsert_fold namespace : forall fuel vectors (idx : Index) total,
  length vectors <= fuel ->
  fold_left
    (fun '(idx, total_upserted) batch =>
       (PineconeClient.index_upsert batch namespace idx,
        total_upserted + length batch))
    (PineconeClient.batches fuel 100 vectors) (idx, total)
  = (match vectors with
     | [] => idx
     | _ => <[namespace :=
                fold_left put vectors
                          (PineconeClient.namespace_of idx namespace)]> idx
     end, total + length vectors).
Proof.
  induction fuel as [|fuel IH]; intros vectors idx total Hlen.
  - destruct vectors; [|cbn in Hlen; lia]. cbn. f_equal. lia.
  - destruct vectors as [|v vs]; [cbn; f_equal; lia|].
    rewrite batches_cons. cbn [fold_left].
    assert (Hb : exists vs', firstn 100 (v :: vs) = v :: vs')
      by (cbn; eauto).
    destruct Hb as [vs' Hb].
    pose proof (firstn_skipn 100 (v :: vs)) as Hbr.
    rewrite Hb in *.
    remember (skipn 100 (v :: vs)) as r eqn:Heqr. clear Heqr.
    assert (Hlens : S (length vs') + length r = S (length vs)).
    { apply (f_equal (@length _)) in Hbr.
      now rewrite length_app in Hbr. }
    change (length (v :: vs)) with (S (length vs)) in *.
    change (length (v :: vs')) with (S (length vs')) in *.
    rewrite IH by lia. f_equal; [|lia].
    rewrite index_upsert_cons.
    destruct r as [|x r'].
    + rewrite app_nil_r in Hbr. injection Hbr as ->. reflexivity.
    + rewrite namespace_of_insert, insert_insert_eq.
      injection Hbr as <-. now rewrite fold_left_app.
Qed.

Lemma batch_upsert_spec vectors namespace (idx : Index) :
  PineconeClient._batch_upsert vectors namespace idx
  = (match vectors with
     | [] => idx
     | _ => <[namespace :=
                fold_left put vectors
                          (PineconeClient.namespace_of idx namespace)]> idx
     end, length vectors).
Proof.
  unfold PineconeClient._batch_upsert.
  now rewrite batch_upsert_fold.
Qed.

Lemma Str_keeps_role : keeps_role Str.
Proof. intros e. reflexivity. Qed.

Lemma Member_keeps_role : keeps_role Member.
Proof. intros e. reflexivity. Qed.

Lemma section_vector_keyed form page_url e section embedding :
  keeps_role form ->
  keyed form (PineconeClient.section_vector page_url (form e)
                                            section embedding).
Proof.
  intros Hform. unfold keyed, PineconeClient.section_vector. cbn.
  now rewrite Hform.
Qed.

Lemma fold_put_lookup vectors : forall m k v,
  fold_left put vectors m !! k = Some v ->
  m !! k = Some v \/ (In v vectors /\ PineconeClient.id v = k).
Proof.
  induction vectors as [|x vectors IH]; intros m k v Hk; cbn in Hk.
  - now left.
  - apply IH in Hk as [Hk|[Hin Hid]].
    + unfold put in Hk. destruct (decide (PineconeClient.id x = k)) as [<-|Hne].
      * rewrite lookup_insert_eq in Hk. injection Hk as <-.
        right. split; [now left | reflexivity].
      * rewrite lookup_insert_ne in Hk by assumption. now left.
    + right. split; [now right | assumption].
Qed.

Lemma well_keyed_empty form : well_keyed form (∅ : Index).
Proof. intros namespace m k v Hns. now rewrite lookup_empty in Hns. Qed.

Lemma well_keyed_upsert form vectors namespace (idx : Index) :
  well_keyed form idx -> Forall (keyed form) vectors ->
  well_keyed form (PineconeClient._batch_upsert vectors namespace idx).1.
Proof.
  intros Hwf Hall. rewrite batch_upsert_spec. cbn [fst].
  destruct vectors as [|v0 vs]; [assumption|].
  intros ns m k v Hns Hk.
  destruct (decide (namespace = ns)) as [<-|Hne].
  - rewrite lookup_insert_eq in Hns. injection Hns as <-.
    apply (fold_put_lookup (v0 :: vs)) in Hk as [Hk|[Hin Hid]].
    + unfold PineconeClient.namespace_of in Hk.
      destruct (idx !! namespace) as [m0|] eqn:Hm0; cbn in Hk.
      * exact (Hwf namespace m0 k v Hm0 Hk).
      * now rewrite lookup_empty in Hk.
    + rewrite List.Forall_forall in Hall. specialize (Hall v Hin).
      split; [assumption|]. now rewrite <- Hid.
  - rewrite lookup_insert_ne in Hns by assumption.
    exact (Hwf ns m k v Hns Hk).
Qed.

(** Every index built by [store_sections] with the role passed in one
    form is well keyed for that form. *)
Lemma well_keyed_store form (idx : Index) page_url sections e :
  keeps_role form ->
  well_keyed form idx ->
  well_keyed form (RetrievalService.store_sections
                     idx page_url sections (form e)).1.
Proof.
  intros Hform Hwf. unfold RetrievalService.store_sections.
  destruct (Splitter.is_nil sections); [assumption|].
  unfold PineconeClient.upsert_sections.
  apply well_keyed_upsert; [assumption|].
  apply List.Forall_forall. intros v Hin.
  apply in_map_iff in Hin as ([section embedding] & <- & _).
  now apply section_vector_keyed.
Qed.

(** Storing one section. *)
Lemma store_one (idx : Index) page_url section embedding_type :
  (RetrievalService.store_sections idx page_url [section] embedding_type).1
  = <[PineconeClient.generate_namespace page_url :=
        <[PineconeClient.generate_section_id
            page_url (SectionDict.section_id section) embedding_type :=
            PineconeClient.section_vector
              page_url embedding_type section
              (embed_passage (embedded_text embedding_type section))]>
          (PineconeClient.namespace_of
             idx (PineconeClient.generate_namespace page_url))]> idx.
Proof.
  unfold RetrievalService.store_sections. cbn [Splitter.is_nil].
  unfold PineconeClient.upsert_sections. rewrite batch_upsert_spec.
  destruct embedding_type as [[|]|[|]]; reflexivity.
Qed.

(** Up to Python 3.10 a member of the enum formats as its value: the
    id does not depend on the form in which the role is passed. *)
Lemma generate_section_id_before_3_11 page_url section_id e :
  minor < 11 ->
  PineconeClient.generate_section_id page_url section_id (Member e)
  = PineconeClient.generate_section_id page_url section_id (Str e).
Proof.
  intros Hold. unfold PineconeClient.generate_section_id, format_role.
  now rewrite (proj2 (Nat.leb_gt 11 minor) Hold).
Qed.

(** From Python 3.11 on the id of a role passed as a member is the hash
    of another text than the id of the role passed as a string. *)
Lemma generate_section_id_from_3_11 page_url section_id e :
  11 <= minor ->
  PineconeClient.generate_section_id page_url section_id (Member e)
  = md5_hexdigest (page_url +:+ ":" +:+ section_id +:+ ":"
                   +:+ "EmbeddingType." +:+ EmbeddingType_name e)
  /\ PineconeClient.generate_section_id page_url section_id (Str e)
     = md5_hexdigest (page_url +:+ ":" +:+ section_id +:+ ":"
                      +:+ EmbeddingType_value e).
Proof.
  intros Hnew. unfold PineconeClient.generate_section_id, format_role.
  now rewrite (proj2 (Nat.leb_le 11 minor) Hnew).
Qed.

End IndexProofs.

Lemma filter_none {A} (p : A -> bool) (l : list A) :
  (forall x, In x l -> p x = false) -> List.filter p l = [].
Proof.
  induction l as [|x l IH]; intros Hall; cbn; [reflexivity|].
  rewrite (Hall x) by now left. apply IH. intros y Hy. apply Hall. now right.
Qed.

Section StoreProofs.
Context `{Python} `{Hash} `{Embedder}.

Lemma is_record_of_spec page_url section_id embedding_type v :
  is_record_of page_url section_id embedding_type v = true ->
  Metadata.page_url (PineconeClient.metadata v) = page_url
  /\ Metadata.section_id (PineconeClient.metadata v) = section_id
  /\ Metadata.embedding_type (PineconeClient.metadata v) = embedding_type.
Proof.
  unfold is_record_of. intros Hr.
  apply andb_true_iff in Hr as [Hr Ht].
  apply andb_true_iff in Hr as [Hu Hs].
  apply String.eqb_eq in Hu, Hs. apply EmbeddingType_eqb_eq in Ht. auto.
Qed.

Lemma is_record_of_section_vector page_url embedding_type section embedding :
  is_record_of page_url (SectionDict.section_id section)
    (role_of embedding_type)
    (PineconeClient.section_vector page_url embedding_type section embedding)
  = true.
Proof.
  unfold is_record_of. cbn. rewrite !String.eqb_refl.
  now destruct (role_of embedding_type).
Qed.

(** In an index that is well keyed for a form, a page, section and role
    stored in that form have at most the record under the id generated
    for them. *)
Lemma records_for_insert form
      (idx : gmap string (gmap string PineconeClient.Vector))
      page_url e section embedding :
  keeps_role form ->
  well_keyed form idx ->
  let namespace := PineconeClient.generate_namespace page_url in
  let v := PineconeClient.section_vector page_url (form e)
                                         section embedding in
  records_for
    (<[namespace := <[PineconeClient.id v := v]>
                      (PineconeClient.namespace_of idx namespace)]> idx)
    page_url (SectionDict.section_id section) e
  = [v].
Proof.
  intros Hform Hwf namespace v. unfold records_for. fold namespace.
  rewrite namespace_of_insert.
  set (m0 := PineconeClient.namespace_of idx namespace).
  set (vid := PineconeClient.id v).
  apply Permutation_singleton_r.
  rewrite <- (insert_delete_eq m0).
  rewrite (filter_Permutation _ _ _
             (Permutation_map snd
                (map_to_list_insert (delete vid m0) vid v
                   (lookup_delete_eq m0 vid)))).
  cbn [map snd List.filter].
  pose proof (is_record_of_section_vector page_url (form e)
                section embedding) as Hv.
  rewrite Hform in Hv. fold v in Hv. rewrite Hv.
  rewrite filter_none; [reflexivity|].
  intros x Hx. apply in_map_iff in Hx as ([k x'] & Hsnd & Hin).
  cbn in Hsnd. subst x'.
  apply list_elem_of_In, elem_of_map_to_list in Hin.
  apply lookup_delete_Some in Hin as [Hne Hk].
  destruct (is_record_of _ _ _ x) eqn:Hrec; [|reflexivity].
  exfalso. apply Hne.
  apply is_record_of_spec in Hrec as (Hu & Hs & Ht).
  subst m0. unfold PineconeClient.namespace_of in Hk.
  destruct (idx !! namespace) as [m|] eqn:Hm; cbn in Hk;
    [|now rewrite lookup_empty in Hk].
  destruct (Hwf namespace m k x Hm Hk) as [_ Hkey].
  rewrite Hkey, Hu, Hs, Ht. reflexivity.
Qed.

(** Storing a section a second time with the role passed in the same
    form replaces the record: in an index whose records were all
    written in that form, the record under the id is the one of the
    second store, the namespace has as many records as after the first
    store, and the page, section and role have exactly one record, the
    latest. *)
Lemma store_idempotent form
      (idx : gmap string (gmap string PineconeClient.Vector))
      (page_url : string) (first second : SectionDict.t)
      (e : EmbeddingType) :
  keeps_role form ->
  well_keyed form idx ->
  SectionDict.section_id first = SectionDict.section_id second ->
  let idx1 :=
    (RetrievalService.store_sections idx page_url [first] (form e)).1 in
  let idx2 :=
    (RetrievalService.store_sections idx1 page_url [second] (form e)).1 in
  let namespace := PineconeClient.generate_namespace page_url in
  let vector_id :=
    PineconeClient.generate_section_id
      page_url (SectionDict.section_id second) (form e) in
  let latest :=
    PineconeClient.section_vector
      page_url (form e) second
      (embed_passage (embedded_text (form e) second)) in
  PineconeClient.namespace_of idx2 namespace !! vector_id = Some latest
  /\ size (PineconeClient.namespace_of idx2 namespace)
     = size (PineconeClient.namespace_of idx1 namespace)
  /\ records_for idx2 page_url (SectionDict.section_id second) e
     = [latest]
  /\ well_keyed form idx2.
Proof.
  intros Hform Hwf Hsid idx1 idx2 namespace vector_id latest.
  assert (Hwf1 : well_keyed form idx1) by now apply well_keyed_store.
  assert (Hwf2 : well_keyed form idx2) by now apply well_keyed_store.
  revert Hwf2. subst idx2. intros Hwf2. rewrite store_one.
  fold namespace vector_id latest.
  split; [|split; [|split]].
  - rewrite namespace_of_insert. apply lookup_insert_eq.
  - rewrite namespace_of_insert. subst idx1. rewrite store_one.
    fold namespace. rewrite Hsid. fold vector_id.
    rewrite namespace_of_insert.
    rewrite map_size_insert_Some; [reflexivity|].
    rewrite lookup_insert_eq. eauto.
  - exact (records_for_insert form idx1 page_url e second _ Hform Hwf1).
  - rewrite store_one in Hwf2. exact Hwf2.
Qed.

End StoreProofs.

(** ** Role isolation of the search *)

Section SearchProofs.
Context `{Python} `{Hash} `{Embedder}.

Lemma in_firstn {A} (x : A) n l : In x (firstn n l) -> In x l.
Proof.
  revert l. induction n as [|n IH]; intros [|y l]; cbn; try tauto.
  intros [->|Hin]; [now left | right; now apply IH].
Qed.

(** A match of the index is a stored vector of the namespace that
    passes the filter of the query. *)
Lemma index_query_sound
      (idx : gmap string (gmap string PineconeClient.Vector))
      vector top_k namespace filter m :
  In m (PineconeClient.index_query idx vector top_k namespace filter) ->
  exists k v,
    PineconeClient.namespace_of idx namespace !! k = Some v
    /\ PineconeClient.match_id m = PineconeClient.id v
    /\ PineconeClient.match_metadata m = PineconeClient.metadata v
    /\ PineconeClient.match_score m
       = metric vector (PineconeClient.values v)
    /\ forall e, filter = Some e ->
         Metadata.embedding_type (PineconeClient.metadata v) = e.
Proof.
  unfold PineconeClient.index_query. intros Hin.
  apply in_firstn, in_sort_desc, in_map_iff in Hin as (v & <- & Hin).
  apply filter_In in Hin as [Hin Hf].
  apply in_map_iff in Hin as ([k v'] & Hsnd & Hin). cbn in Hsnd. subst v'.
  apply list_elem_of_In, elem_of_map_to_list in Hin.
  exists k, v. repeat split; [assumption|].
  intros e ->. now apply EmbeddingType_eqb_eq.
Qed.

(** When the namespace holds no more than [top_k] vectors, every stored
    vector that passes the filter is a match. *)
Lemma index_query_complete
      (idx : gmap string (gmap string PineconeClient.Vector))
      vector top_k namespace filter k v :
  PineconeClient.namespace_of idx namespace !! k = Some v ->
  size (PineconeClient.namespace_of idx namespace) <= top_k ->
  (forall e, filter = Some e ->
     Metadata.embedding_type (PineconeClient.metadata v) = e) ->
  In (PineconeClient.mkMatch (PineconeClient.id v)
        (metric vector (PineconeClient.values v))
        (PineconeClient.metadata v))
     (PineconeClient.index_query idx vector top_k namespace filter).
Proof.
  intros Hk Hsize Hf. unfold PineconeClient.index_query.
  rewrite firstn_all2.
  - apply in_sort_desc, in_map_iff. exists v. split; [reflexivity|].
    apply filter_In. split.
    + apply in_map_iff. exists (k, v). split; [reflexivity|].
      now apply list_elem_of_In, elem_of_map_to_list.
    + destruct filter as [e|]; [|reflexivity].
      apply EmbeddingType_eqb_eq. now apply Hf.
  - rewrite (Permutation_length (sort_desc_Permutation _ _)).
    rewrite length_map.
    etransitivity; [apply filter_length_le|].
    now rewrite length_map, length_map_to_list.
Qed.

(** A search under one role returns only records stored under that
    role. *)
Lemma search_sections_role
      (idx : gmap string (gmap string PineconeClient.Vector))
      page_url query_embedding embedding_type top_k score_threshold r :
  In r (PineconeClient.search_sections idx page_url query_embedding
          embedding_type top_k score_threshold) ->
  Result.embedding_type r = Some embedding_type
  /\ exists k v,
       PineconeClient.namespace_of
         idx (PineconeClient.generate_namespace page_url) !! k = Some v
       /\ Metadata.embedding_type (PineconeClient.metadata v)
          = embedding_type
       /\ Result.section_id r
          = Metadata.section_id (PineconeClient.metadata v)
       /\ Result.text r
          = Metadata.section_text (PineconeClient.metadata v).
Proof.
  unfold PineconeClient.search_sections. intros Hin.
  apply in_map_iff in Hin as (m & <- & Hin).
  apply filter_In in Hin as [Hin _].
  apply index_query_sound in Hin as (k & v & Hv & Hid & Hmd & _ & Hf).
  cbn. rewrite Hmd, (Hf embedding_type eq_refl).
  split; [reflexivity|]. exists k, v.
  now rewrite (Hf embedding_type eq_refl).
Qed.

Lemma retrieve_sections_role cfg
      (idx : gmap string (gmap string PineconeClient.Vector))
      page_url query embedding_type top_k score_threshold r :
  In r (RetrievalService.retrieve_sections
          cfg idx page_url query embedding_type top_k score_threshold) ->
  Result.embedding_type r = Some embedding_type.
Proof.
  unfold RetrievalService.retrieve_sections. intros Hin.
  apply in_sort_desc in Hin. now apply search_sections_role in Hin.
Qed.

(** The follow-up node searches under the source role. *)
Lemma followup_node_source_only cfg
      (idx : gmap string (gmap string PineconeClient.Vector))
      state user_query r :
  In r (followup_results cfg idx state user_query) ->
  Result.embedding_type r = Some SOURCE.
Proof. apply retrieve_sections_role. Qed.

Lemma size_insert_le (m : gmap string PineconeClient.Vector) k v :
  size (<[k := v]> m) <= S (size m).
Proof. rewrite map_size_insert. destruct (m !! k); cbn; lia. Qed.

End SearchProofs.

(** ** One role in two forms *)

Section RoleForms.
Context `{Python} `{Hash} `{Embedder}.

(** The namespace of a page after a section was stored in an empty
    index and another right after it, under another id. *)
Lemma two_records_list (k1 k2 : string) (v1 v2 : PineconeClient.Vector) :
  k1 <> k2 ->
  Permutation
    (map snd (map_to_list (<[k2 := v2]> (<[k1 := v1]>
                (∅ : gmap string PineconeClient.Vector)))))
    [v2; v1].
Proof.
  intros Hne.
  rewrite (Permutation_map snd
             (map_to_list_insert (<[k1 := v1]> ∅) k2 v2
                (eq_trans (lookup_insert_ne _ k1 k2 v1 Hne)
                          (lookup_empty k2)))).
  cbn [map snd]. apply perm_skip.
  rewrite (Permutation_map snd
             (map_to_list_insert ∅ k1 v1 (lookup_empty k1))).
  now rewrite map_to_list_empty.
Qed.

End RoleForms.


(** C1, the streaming follow-up.  With a section stored under the source
    role and under the summary role (each passed as a string or as a
    member of the enum), the retrieval of the streaming follow-up, which
    searches without a role filter, returns the record stored under the
    summary role whenever its score reaches the threshold, and the
    answer is generated from a context built on it; the retrieval of
    the follow-up node returns source records only. *)
Theorem streaming_followup_ignores_role `{Python} `{Hash} `{Embedder}
        (cfg : Settings.t) (section : SectionDict.t) (query : string)
        (state : AgentState.t) (llm : Oracle) (log : list Request.t)
        (source summary : RoleArg) :
  role_of source = SOURCE ->
  role_of summary = SUMMARY ->
  AgentState.user_query state = Some query ->
  query <> EmptyString ->
  2 <= Settings.top_k_retrieval cfg ->
  Qle_bool (Settings.similarity_threshold cfg)
           (metric (embed_query query)
                   (embed_passage (SectionDict.summary_text section)))
  = true ->
  let page_url := AgentState.page_url state in
  let idx1 :=
    (RetrievalService.store_sections ∅ page_url [section] source).1 in
  let idx2 :=
    (RetrievalService.store_sections idx1 page_url [section] summary).1 in
  let results := followup_streaming_results cfg idx2 state query in
  (exists r v,
      In r results
      /\ Result.chunk_id r = Some (PineconeClient.id v)
      /\ Result.text r = SectionDict.text section
      /\ PineconeClient.namespace_of
           idx2 (PineconeClient.generate_namespace page_url)
         !! PineconeClient.id v = Some v
      /\ Metadata.embedding_type (PineconeClient.metadata v) = SUMMARY)
  /\ handle_followup_streaming cfg idx2 state llm log
     = generate_stream
         (followup_request
            state query
            (RetrievalService.build_context_from_chunks results 2000))
         llm log
  /\ forall r, In r (followup_results cfg idx2 state query) ->
               Result.embedding_type r = Some SOURCE.
Proof.
  intros Hsource Hsummary Hq Hne Htop Hscore page_url idx1 idx2 results.
  assert (Htext : embedded_text summary section
                  = SectionDict.summary_text section)
    by (unfold embedded_text; now rewrite Hsummary).
  set (v := PineconeClient.section_vector
              page_url summary section
              (embed_passage (SectionDict.summary_text section))).
  set (namespace := PineconeClient.generate_namespace page_url).
  assert (Hns : PineconeClient.namespace_of idx2 namespace
                = <[PineconeClient.id v := v]>
                    (PineconeClient.namespace_of idx1 namespace)).
  { subst idx2. rewrite store_one. fold namespace.
    rewrite namespace_of_insert. now rewrite Htext. }
  assert (Hns1 : PineconeClient.namespace_of idx1 namespace
                 = <[PineconeClient.generate_section_id
                       page_url (SectionDict.section_id section) source :=
                       PineconeClient.section_vector
                         page_url source section
                         (embed_passage (embedded_text source section))]>
                     ∅).
  { subst idx1. rewrite store_one. fold namespace.
    rewrite namespace_of_insert. unfold PineconeClient.namespace_of.
    now rewrite lookup_empty. }
  assert (Hlook : PineconeClient.namespace_of idx2 namespace
                  !! PineconeClient.id v = Some v)
    by (rewrite Hns; apply lookup_insert_eq).
  assert (Hsize : size (PineconeClient.namespace_of idx2 namespace)
                  <= Settings.top_k_retrieval cfg).
  { rewrite Hns, Hns1.
    etransitivity; [apply size_insert_le|].
    etransitivity; [apply le_n_S, size_insert_le|].
    rewrite map_size_empty. lia. }
  set (r := Result.mk (SectionDict.section_id section)
              (metric (embed_query query)
                      (embed_passage (SectionDict.summary_text section)))
              (SectionDict.text section) (SectionDict.heading section)
              None None (Some (PineconeClient.id v)) (Some 0%Z)).
  assert (Hin : In r results).
  { subst results. unfold followup_streaming_results,
      RetrievalService.retrieve_relevant_chunks.
    apply in_sort_desc. unfold PineconeClient.search_similar.
    apply in_map_iff.
    exists (PineconeClient.mkMatch (PineconeClient.id v)
              (metric (embed_query query) (PineconeClient.values v))
              (PineconeClient.metadata v)).
    split; [reflexivity|]. apply filter_In. split.
    - apply (index_query_complete idx2 _ _ _ None (PineconeClient.id v) v);
        [exact Hlook | exact Hsize | discriminate].
    - exact Hscore. }
  split; [|split].
  - exists r, v. repeat split; assumption.
  - unfold handle_followup_streaming. rewrite Hq.
    destruct query as [|c query]; [congruence|].
    fold results. destruct results; [destruct Hin | reflexivity].
  - apply followup_node_source_only.
Qed.

(** ** Link-following fallback *)

(** The links taken from HTML anchors have the network location of the
    base URL. *)
Lemma html_links_same_origin `{Web} base_url : forall tags links,
  Forall (fun l => netloc (Link.url l) = netloc base_url) links ->
  Forall (fun l => netloc (Link.url l) = netloc base_url)
         (LinkCrawler.html_links base_url tags links).
Proof.
  induction tags as [|a_tag tags IH]; intros links Hall; cbn; [assumption|].
  destruct (_ || _ || _); [now apply IH|].
  destruct (_ || _); [now apply IH|].
  destruct (String.eqb_spec (netloc (urljoin base_url (ATag.href a_tag)))
                            (netloc base_url)) as [Heq|Hne]; cbn.
  - apply IH. apply Forall_app. split; [assumption|].
    constructor; [exact Heq | constructor].
  - now apply IH.
Qed.

(** C6, a Markdown link with an [https] URL of another host.  The Markdown
    branch compares network locations only for links that start with
    [http://]; this link is kept, resolves to the other host, scores
    above zero for the query and is among the URLs the crawl fetches. *)
Theorem markdown_link_leaves_origin (parser : string -> list ATag.t)
        (fetch : string -> option Page.t) :
  let page_text :=
    "See the [setup guide](https://other.example.org/setup) first." in
  let base_url := "https://docs.example.com/guide/start" in
  let foreign := "https://other.example.org/setup" in
  parser page_text = [] ->
  @LinkCrawler.extract_links (python_web parser fetch) page_text base_url
  = [Link.mk foreign "setup guide" page_text]
  /\ Urllib.netloc_of foreign = "other.example.org"
  /\ Urllib.netloc_of base_url = "docs.example.com"
  /\ @LinkCrawler.crawl_targets (python_web parser fetch) 3 page_text
       base_url "where is the setup guide"
     = [foreign].
Proof.
  intros page_text base_url foreign Hparser.
  assert (Hlinks :
            @LinkCrawler.extract_links (python_web parser fetch)
                                       page_text base_url
            = [Link.mk foreign "setup guide" page_text]).
  { unfold LinkCrawler.extract_links. cbn [find_all_a python_web].
    rewrite Hparser. vm_compute. reflexivity. }
  split; [exact Hlinks|]. split; [vm_compute; reflexivity|].
  split; [vm_compute; reflexivity|].
  unfold LinkCrawler.crawl_targets. rewrite Hlinks.
  vm_compute. reflexivity.
Qed.

(** * Instances on sample inputs *)

(** A digest with one summary: the hypothesis of C9 holds and the digest is
    the summary. *)
Lemma single_section_digest_witness :
  length (AgentState.section_summaries single_summary_state) = 1
  /\ AgentState.page_summary
       (synthesize_page_node single_summary_state always_answers []).1
     = "Run the installer."
  /\ (synthesize_page_node single_summary_state always_answers []).2 = [].
Proof.
  split; [reflexivity|].
  destruct (single_section_digest single_summary_state always_answers []
              eq_refl) as (sid & summary & Hs & Hp & _ & Hl).
  cbn in Hs. injection Hs as _ <-. split; assumption.
Defined.

(** C10 as stated fails on a document without sections: the one run of the
    step leaves the cursor where it is, and the loop makes one run, not
    none, before the condition routes to embedding. *)
Lemma empty_document_loop_counterexample :
  length (AgentState.sections empty_page_state) = 0
  /\ AgentState.current_section_index
       (process_section_node settings empty_page_state always_answers []).1
     <> AgentState.current_section_index empty_page_state + 1
  /\ exists state',
       section_loop settings 1 empty_page_state 0 always_answers []
       = Some (state', 1, [])
       /\ should_continue_processing state' = "embed"
       /\ 1 <> length (AgentState.sections empty_page_state).
Proof.
  split; [vm_compute; reflexivity|].
  split; [vm_compute; discriminate|].
  eexists. split; [vm_compute; reflexivity|].
  split; [vm_compute; reflexivity | vm_compute; discriminate].
Qed.

(** The loop on a page with two sections: two runs. *)
Lemma section_loop_terminates_witness :
  AgentState.current_section_index small_page_state = 0
  /\ exists state' log',
       section_loop settings 2 small_page_state 0 always_answers []
       = Some (state', 2, log')
       /\ AgentState.current_section_index state' = 2.
Proof.
  split; [vm_compute; reflexivity|].
  assert (Hzero : AgentState.current_section_index small_page_state = 0)
    by (vm_compute; reflexivity).
  assert (Hn : length (AgentState.sections small_page_state) = 2)
    by (vm_compute; reflexivity).
  destruct (section_loop_terminates settings small_page_state
              always_answers [] Hzero)
    as (_ & _ & state' & log' & Hrun & _ & Hidx & _).
  rewrite Hn in Hrun, Hidx.
  exists state', log'. split; [apply Hrun; apply le_n | exact Hidx].
Defined.


(** C4 as stated fails on the large sample section, which has three
    chunks, when the second fact extraction fails and every other request
    would be answered: the two fact requests are all that is asked, no
    summary is requested from the facts of the first chunk, and the
    summary recorded for the section is the placeholder. *)
Lemma fact_failure_counterexample :
  exists section c0 c1 c2,
    AgentState.sections large_page_state = [section]
    /\ SectionData.is_large section = true
    /\ _split_section_into_chunks settings section = [c0; c1; c2]
    /\ (process_section_node settings large_page_state
                             (fails_on_call 1) []).2
       = [fact_request section c0; fact_request section c1]
    /\ AgentState.section_summaries
         (process_section_node settings large_page_state
                               (fails_on_call 1) []).1
       = [(SectionData.section_id section, "[Error summarizing: Setup]")].
Proof.
  do 4 eexists.
  split; [vm_compute; reflexivity|].
  split; [vm_compute; reflexivity|].
  split; [vm_compute; reflexivity|].
  split; vm_compute; reflexivity.
Qed.

(** The same failure seen through the amended statement. *)
Lemma section_failure_contained_witness :
  exists section,
    AgentState.sections large_page_state
    !! AgentState.current_section_index large_page_state = Some section
    /\ AgentState.current_section_index
         (process_section_node settings large_page_state
                               (fails_on_call 1) []).1
       = AgentState.current_section_index large_page_state + 1.
Proof.
  eexists. split; [vm_compute; reflexivity|].
  match goal with
  | |- _ = _ =>
      assert (Hsec : exists s, AgentState.sections large_page_state
                     !! AgentState.current_section_index large_page_state
                     = Some s) by (eexists; vm_compute; reflexivity)
  end.
  destruct Hsec as [s Hsec].
  now destruct (section_failure_contained settings large_page_state s
                  (fails_on_call 1) [] Hsec) as (Hidx & _).
Defined.

(** C7 as stated fails on two retrieved sections of which the first takes
    1995 of the 2000 tokens: the second, which needs 107, would exceed the
    budget, 20 characters remain, and the context is the first block
    alone; nothing of the second section is included. *)
Lemma context_drops_section :
  (total_tokens [result_install] = 1995)%Z
  /\ (RetrievalService.tokens_of
        (RetrievalService.section_block result_usage) = 107)%Z
  /\ RetrievalService.build_context_from_sections
       [result_install; result_usage] 2000
     = RetrievalService.section_block result_install.
Proof. repeat split; vm_compute; reflexivity. Qed.

Lemma context_assembly_witness :
  [result_install; result_usage] <> []
  /\ RetrievalService.build_context_from_sections
       [result_install; result_usage] 2000
     = Py.join Prompts.NL
         [RetrievalService.section_block result_install].
Proof.
  split; [discriminate|].
  destruct (context_assembly [result_install; result_usage] 2000
              ltac:(discriminate)) as [_ Hover].
  assert (Hfit : (total_tokens [result_install] <= 2000)%Z)
    by (vm_compute; discriminate).
  assert (Hex : (2000 < total_tokens [result_install]
                        + RetrievalService.tokens_of
                            (RetrievalService.section_block result_usage))%Z)
    by (vm_compute; reflexivity).
  rewrite (Hover [result_install] result_usage [] eq_refl Hfit Hex).
  assert (Hrem : (100 <? (2000 - total_tokens [result_install]) * 4)%Z = false)
    by (vm_compute; reflexivity).
  rewrite Hrem. reflexivity.
Defined.

(** C8 as stated fails on a document of one blank: it is not empty and has
    no heading, and the segmenter returns no section.  On a document with
    blanks around its text the raw text of the one section is the text
    without them, not the whole document. *)
Lemma whitespace_document_counterexample :
  " " <> EmptyString
  /\ SectionExtractor.extract_headings " " = []
  /\ SectionExtractor.extract_sections settings " " sample_url = []
  /\ SectionExtractor.extract_headings " plain text " = []
  /\ map ExtractedSection.raw_text
         (SectionExtractor.extract_sections settings " plain text "
                                            sample_url)
     = ["plain text"].
Proof.
  split; [discriminate|]. repeat split; vm_compute; reflexivity.
Qed.

Lemma segmenter_degenerate_witness :
  1 <= Settings.max_sections_per_page settings
  /\ SectionExtractor.extract_headings "plain text without headings" = []
  /\ map ExtractedSection.heading
         (SectionExtractor.extract_sections
            settings "plain text without headings" sample_url)
     = ["Content"].
Proof.
  assert (Hcap : 1 <= Settings.max_sections_per_page settings)
    by (cbn; lia).
  assert (Hnone : SectionExtractor.extract_headings
                    "plain text without headings" = [])
    by (vm_compute; reflexivity).
  split; [exact Hcap|]. split; [exact Hnone|].
  destruct (@segmenter_degenerate md5 settings
              "plain text without headings" sample_url Hcap Hnone)
    as [_ Hone].
  rewrite Hone. reflexivity.
Defined.

(** The node's store of the sample section, repeated on Python 3.12 with
    an edited text: one record, with the text of the second store. *)
Lemma store_idempotent_witness :
  keeps_role Member
  /\ @well_keyed python_3_12 md5 plain_embedder Member ∅
  /\ SectionDict.section_id sample_section
     = SectionDict.section_id sample_section_edited
  /\ map (fun v => Metadata.section_text (PineconeClient.metadata v))
         (@records_for md5 plain_embedder
            (@RetrievalService.store_sections python_3_12 md5 plain_embedder
               (@RetrievalService.store_sections
                  python_3_12 md5 plain_embedder
                  ∅ sample_url [sample_section] (Member SOURCE)).1
               sample_url [sample_section_edited] (Member SOURCE)).1
            sample_url "s1" SOURCE)
     = ["Run the new installer."].
Proof.
  split; [exact Member_keeps_role|].
  split; [apply well_keyed_empty|]. split; [reflexivity|].
  destruct (@store_idempotent python_3_12 md5 plain_embedder Member ∅
              sample_url sample_section sample_section_edited SOURCE
              Member_keeps_role (well_keyed_empty Member) eq_refl)
    as (_ & _ & Hrec & _).
  change (SectionDict.section_id sample_section_edited) with "s1" in Hrec.
  rewrite Hrec. reflexivity.
Defined.


(** The sample follow-up on an index holding the sample section under
    both roles. *)
Lemma streaming_followup_ignores_role_witness :
  AgentState.user_query sample_followup_state = Some "how do I install"
  /\ 2 <= Settings.top_k_retrieval settings
  /\ exists r v,
       In r (@followup_streaming_results md5 plain_embedder settings
               (@RetrievalService.store_sections
                  python_3_12 md5 plain_embedder
                  (@RetrievalService.store_sections
                     python_3_12 md5 plain_embedder
                     ∅ sample_url [sample_section] (Str SOURCE)).1
                  sample_url [sample_section] (Str SUMMARY)).1
               sample_followup_state "how do I install")
       /\ Result.chunk_id r = Some (@PineconeClient.id plain_embedder v)
       /\ Metadata.embedding_type (PineconeClient.metadata v) = SUMMARY.
Proof.
  split; [reflexivity|]. split; [cbn; lia|].
  destruct (@streaming_followup_ignores_role
              python_3_12 md5 plain_embedder settings
              sample_section "how do I install" sample_followup_state
              always_answers [] (Str SOURCE) (Str SUMMARY)
              eq_refl eq_refl eq_refl ltac:(discriminate)
              ltac:(cbn; lia) eq_refl)
    as ((r & v & Hin & Hid & _ & _ & Hrole) & _).
  exists r, v. split; [exact Hin|]. split; [exact Hid | exact Hrole].
Defined.

(** The parser that finds no anchor in the Markdown text. *)
Lemma markdown_link_leaves_origin_witness :
  (fun _ : string => @nil ATag.t)
    "See the [setup guide](https://other.example.org/setup) first." = []
  /\ @LinkCrawler.crawl_targets
       (python_web (fun _ => []) (fun _ => None)) 3
       "See the [setup guide](https://other.example.org/setup) first."
       "https://docs.example.com/guide/start" "where is the setup guide"
     = ["https://other.example.org/setup"].
Proof.
  split; [reflexivity|].
  now destruct (markdown_link_leaves_origin (fun _ => []) (fun _ => None)
                  eq_refl) as (_ & _ & _ & Htargets).
Defined.

(** * Further properties *)

(** ** Chunk splitter: sizes *)

Lemma group_tokens_cons s g :
  group_tokens (s :: g) = (sentence_tokens s + group_tokens g)%Z.
Proof. reflexivity. Qed.

Lemma group_tokens_app g1 g2 :
  group_tokens (g1 ++ g2) = (group_tokens g1 + group_tokens g2)%Z.
Proof.
  induction g1 as [|s g1 IH]; [reflexivity|].
  change ((s :: g1) ++ g2) with (s :: (g1 ++ g2)).
  rewrite !group_tokens_cons, IH. lia.
Qed.

Lemma group_tokens_concat groups :
  group_tokens (concat groups) = sum_Z (map group_tokens groups).
Proof.
  induction groups as [|g groups IH]; [reflexivity|].
  cbn [concat map]. rewrite group_tokens_app, IH. reflexivity.
Qed.

Section SplitterAccount.
Variables (max_chunk_tokens : Z) (section : SectionData.t).

Lemma splitter_account_step st seen s :
  splitter_account max_chunk_tokens section st seen ->
  splitter_account max_chunk_tokens section
    (Splitter.step max_chunk_tokens section st s) (seen ++ [s]).
Proof.
  destruct st as [chs cur tok].
  intros (groups & Hcat & Hall & Htok & Hbud).
  cbn [Splitter.chunks Splitter.current_chunk Splitter.current_tokens] in *.
  unfold Splitter.step, splitter_account. rewrite kept_sentences_snoc.
  cbn [Splitter.chunks Splitter.current_chunk Splitter.current_tokens].
  destruct (Py.is_empty (Py.strip s)) eqn:Hs.
  - exists groups. rewrite app_nil_r.
    cbn [Splitter.chunks Splitter.current_chunk Splitter.current_tokens].
    auto.
  - fold (sentence_tokens (Py.strip s)).
    destruct (Z.ltb_spec max_chunk_tokens (tok + sentence_tokens (Py.strip s)))
      as [Hover|Hfit];
      destruct cur as [|c0 cur];
      cbn [Splitter.is_nil negb andb Splitter.chunks Splitter.current_chunk
           Splitter.current_tokens].
    + exists groups. split; [now rewrite app_assoc, Hcat|].
      split; [assumption|]. split.
      * cbn [app]. rewrite group_tokens_cons, Htok.
        change (group_tokens []) with 0%Z. lia.
      * cbn [app length]. lia.
    + exists (groups ++ [c0 :: cur]). split.
      { rewrite concat_app. cbn [concat]. rewrite app_nil_r, <- Hcat.
        now rewrite <- app_assoc. }
      split.
      { apply Forall2_app; [assumption|]. constructor; [|constructor].
        unfold chunk_of_group, Splitter.close_chunk.
        cbn [ChunkData.text ChunkData.token_count ChunkData.heading
             ChunkData.section_id Splitter.current_chunk
             Splitter.current_tokens].
        split; [discriminate|]. do 4 (split; [reflexivity || assumption|]).
        intros Hlen. rewrite <- Htok. apply Hbud. exact Hlen. }
      split.
      * rewrite group_tokens_cons. change (group_tokens []) with 0%Z. lia.
      * cbn [length]. lia.
    + exists groups. split; [now rewrite app_assoc, Hcat|].
      split; [assumption|]. split.
      * cbn [app]. rewrite group_tokens_cons, Htok.
        change (group_tokens []) with 0%Z. lia.
      * cbn [app length]. lia.
    + exists groups. split; [now rewrite app_assoc, Hcat|].
      split; [assumption|]. split.
      * rewrite group_tokens_app, <- Htok, group_tokens_cons.
        change (group_tokens []) with 0%Z. lia.
      * intros _. exact Hfit.
Qed.

Lemma splitter_account_fold l : forall st seen,
  splitter_account max_chunk_tokens section st seen ->
  splitter_account max_chunk_tokens section
    (fold_left (Splitter.step max_chunk_tokens section) l st) (seen ++ l).
Proof.
  induction l as [|s l IH]; intros st seen Hinv; cbn [fold_left].
  - now rewrite app_nil_r.
  - replace (seen ++ s :: l) with ((seen ++ [s]) ++ l)
      by now rewrite <- app_assoc.
    apply IH, splitter_account_step, Hinv.
Qed.

Lemma splitter_account_init :
  splitter_account max_chunk_tokens section (Splitter.mk [] [] 0%Z) [].
Proof. exists []. repeat split; try constructor. cbn. lia. Qed.

End SplitterAccount.

(** The chunks of a section as groups of its sentences. *)
Lemma split_section_groups cfg section :
  exists groups : list (list string),
    concat groups = sentence_stream (SectionData.raw_text section)
    /\ Forall2 (chunk_of_group (Settings.chunk_max_tokens cfg) section)
               (_split_section_into_chunks cfg section) groups.
Proof.
  pose proof (splitter_account_fold (Settings.chunk_max_tokens cfg) section
                (Splitter.sentences_of (SectionData.raw_text section))
                _ _ (splitter_account_init _ _)) as Hinv.
  cbn [app] in Hinv. destruct Hinv as (groups & Hcat & Hall & Htok & Hbud).
  unfold _split_section_into_chunks.
  set (st := fold_left _ _ _) in *.
  fold (sentence_stream (SectionData.raw_text section)) in Hcat.
  destruct (Splitter.current_chunk st) as [|s0 cur] eqn:Hcur;
    cbn [Splitter.is_nil].
  - exists groups. rewrite app_nil_r in Hcat. auto.
  - exists (groups ++ [s0 :: cur]). split.
    + rewrite concat_app. cbn [concat]. now rewrite app_nil_r.
    + apply Forall2_app; [assumption|]. constructor; [|constructor].
      unfold chunk_of_group, Splitter.close_chunk.
      cbn [ChunkData.text ChunkData.token_count ChunkData.heading
           ChunkData.section_id].
      rewrite Hcur. split; [discriminate|].
      do 4 (split; [reflexivity || assumption|]).
      rewrite <- Htok. exact Hbud.
Qed.

Lemma sentence_tokens_nonneg s : (0 <= sentence_tokens s)%Z.
Proof.
  unfold sentence_tokens, Py.int_times_1_3. apply Z.div_pos; lia.
Qed.

Lemma group_tokens_nonneg g : (0 <= group_tokens g)%Z.
Proof.
  induction g as [|s g IH]; [reflexivity|].
  rewrite group_tokens_cons. pose proof (sentence_tokens_nonneg s). lia.
Qed.

Lemma Forall2_nonempty_groups {A} (P : A -> list string -> Prop) l groups :
  (forall a g, P a g -> g <> []) ->
  Forall2 P l groups -> length l <= length (concat groups).
Proof.
  intros HP Hall. induction Hall as [|a g l groups Hag _ IH]; [cbn; lia|].
  cbn [concat length]. rewrite length_app.
  apply HP in Hag. destruct g; [congruence|]. cbn [length]. lia.
Qed.

(** X1.  No chunk of a section exceeds the chunk budget, except a chunk
    made of one sentence that is by itself over the budget: every chunk
    returned by the splitter either has a token count of at most
    [chunk_max_tokens], or its text is one sentence of the section
    (followed by the full stop) and its token count is the estimate of
    that sentence. *)
Theorem chunk_budget cfg section :
  Forall (fun chunk =>
            (ChunkData.token_count chunk <= Settings.chunk_max_tokens cfg)%Z
            \/ exists s,
                 In s (sentence_stream (SectionData.raw_text section))
                 /\ ChunkData.text chunk = render_group [s]
                 /\ ChunkData.token_count chunk = sentence_tokens s)
         (_split_section_into_chunks cfg section).
Proof.
  destruct (split_section_groups cfg section) as (groups & Hcat & Hall).
  assert (Hin : forall g, In g groups -> forall s, In s g ->
            In s (sentence_stream (SectionData.raw_text section))).
  { intros g Hg s Hs. rewrite <- Hcat. apply in_concat. eauto. }
  clear Hcat. induction Hall as [|chunk g chunks groups Hcg _ IH];
    constructor.
  - destruct Hcg as (Hne & Htext & Htok & _ & _ & Hbud).
    destruct g as [|s [|s' g]]; [congruence| |].
    + right. exists s. split; [apply (Hin [s]); now left|].
      split; [exact Htext|]. rewrite Htok, group_tokens_cons.
      change (group_tokens []) with 0%Z. lia.
    + left. rewrite Htok. apply Hbud. cbn [length]. lia.
  - apply IH. intros g' Hg'. apply Hin. now right.
Qed.

(** X2.  The splitter neither loses nor invents tokens, and every chunk
    belongs to its section: the token counts of the chunks add up to the
    sum of the estimates ([int(words * 1.3)]) of the section's sentences,
    and every chunk carries the heading and the section id of the
    section. *)
Theorem chunk_token_accounting cfg section :
  sum_Z (map ChunkData.token_count (_split_section_into_chunks cfg section))
  = group_tokens (sentence_stream (SectionData.raw_text section))
  /\ Forall (fun chunk =>
               ChunkData.heading chunk = SectionData.heading section
               /\ ChunkData.section_id chunk = SectionData.section_id section)
            (_split_section_into_chunks cfg section).
Proof.
  destruct (split_section_groups cfg section) as (groups & Hcat & Hall).
  rewrite <- Hcat, group_tokens_concat. clear Hcat.
  induction Hall as [|chunk g chunks groups Hcg _ [IH1 IH2]];
    [split; [reflexivity|constructor]|].
  destruct Hcg as (_ & _ & Htok & Hh & Hid & _). split.
  - cbn [map sum_Z fold_right]. fold (sum_Z (map ChunkData.token_count chunks)).
    fold (sum_Z (map group_tokens groups)). now rewrite Htok, IH1.
  - constructor; auto.
Qed.

(** X3.  The splitter returns no chunk exactly when the section has no
    sentence, and never more chunks than the section has sentences. *)
Theorem chunk_count cfg section :
  length (_split_section_into_chunks cfg section)
  <= length (sentence_stream (SectionData.raw_text section))
  /\ (_split_section_into_chunks cfg section = []
      <-> sentence_stream (SectionData.raw_text section) = []).
Proof.
  destruct (split_section_groups cfg section) as (groups & Hcat & Hall).
  rewrite <- Hcat. split.
  - apply (Forall2_nonempty_groups _ _ _
             (fun a g (Hc : chunk_of_group _ section a g) => proj1 Hc) Hall).
  - split; intros Hnil.
    + rewrite Hnil in Hall. inversion Hall. reflexivity.
    + destruct Hall as [|chunk g chunks groups Hcg _]; [reflexivity|].
      destruct Hcg as (Hne & _). destruct g; [congruence|discriminate].
Qed.

Lemma kept_sentences_cons s l :
  kept_sentences (s :: l)
  = if Py.truthy (Py.strip s) then Py.strip s :: kept_sentences l
    else kept_sentences l.
Proof. reflexivity. Qed.

Lemma splitter_step_skip max_chunk_tokens section st s :
  Py.is_empty (Py.strip s) = true ->
  Splitter.step max_chunk_tokens section st s = st.
Proof. intros Hs. unfold Splitter.step. now rewrite Hs. Qed.

Lemma splitter_step_fit max_chunk_tokens section st s :
  Py.is_empty (Py.strip s) = false ->
  (Splitter.current_tokens st + sentence_tokens (Py.strip s)
   <= max_chunk_tokens)%Z ->
  Splitter.step max_chunk_tokens section st s
  = Splitter.mk (Splitter.chunks st)
      (Splitter.current_chunk st ++ [Py.strip s])
      (Splitter.current_tokens st + sentence_tokens (Py.strip s)).
Proof.
  intros Hs Hfit. unfold Splitter.step. rewrite Hs.
  fold (sentence_tokens (Py.strip s)).
  destruct (Z.ltb_spec max_chunk_tokens
              (Splitter.current_tokens st + sentence_tokens (Py.strip s)));
    [lia|reflexivity].
Qed.

Lemma splitter_fits_fold max_chunk_tokens section l : forall st,
  Splitter.chunks st = [] ->
  Splitter.current_tokens st = group_tokens (Splitter.current_chunk st) ->
  (group_tokens (Splitter.current_chunk st)
   + group_tokens (kept_sentences l) <= max_chunk_tokens)%Z ->
  Splitter.chunks (fold_left (Splitter.step max_chunk_tokens section) l st)
  = []
  /\ Splitter.current_chunk
       (fold_left (Splitter.step max_chunk_tokens section) l st)
     = Splitter.current_chunk st ++ kept_sentences l
  /\ Splitter.current_tokens
       (fold_left (Splitter.step max_chunk_tokens section) l st)
     = group_tokens
         (Splitter.current_chunk
            (fold_left (Splitter.step max_chunk_tokens section) l st)).
Proof.
  induction l as [|s l IH]; intros st Hch Htok Hfit; cbn [fold_left].
  - rewrite app_nil_r. auto.
  - rewrite kept_sentences_cons in Hfit |- *. unfold Py.truthy in *.
    destruct (Py.is_empty (Py.strip s)) eqn:Hs; cbn [negb] in *.
    + rewrite splitter_step_skip by assumption. apply IH; assumption.
    + rewrite group_tokens_cons in Hfit.
      pose proof (group_tokens_nonneg (kept_sentences l)) as Hpos.
      rewrite splitter_step_fit by (assumption || lia).
      match goal with |- context [fold_left _ l ?st1] =>
        specialize (IH st1) end.
      cbn [Splitter.chunks Splitter.current_chunk Splitter.current_tokens]
        in IH.
      rewrite group_tokens_app, group_tokens_cons in IH.
      change (group_tokens []) with 0%Z in IH.
      destruct IH as (H1 & H2 & H3); [assumption|lia|lia|].
      split; [exact H1|]. split; [|exact H3].
      rewrite H2, <- app_assoc. reflexivity.
Qed.

(** X4.  A section whose sentences fit the chunk budget together is not
    split: the splitter returns exactly one chunk, with index 0, holding
    all the sentences of the section, and whose token count is the sum of
    their estimates. *)
Theorem section_within_budget_single_chunk cfg section :
  sentence_stream (SectionData.raw_text section) <> [] ->
  (group_tokens (sentence_stream (SectionData.raw_text section))
   <= Settings.chunk_max_tokens cfg)%Z ->
  _split_section_into_chunks cfg section
  = [ChunkData.mk 0
       (render_group (sentence_stream (SectionData.raw_text section)))
       (SectionData.heading section) (SectionData.section_id section)
       (group_tokens (sentence_stream (SectionData.raw_text section)))
       None].
Proof.
  intros Hne Hfit.
  pose proof (splitter_fits_fold (Settings.chunk_max_tokens cfg) section
                (Splitter.sentences_of (SectionData.raw_text section))
                (Splitter.mk [] [] 0%Z) eq_refl eq_refl) as Hinv.
  cbn [Splitter.current_chunk app] in Hinv.
  change (group_tokens []) with 0%Z in Hinv.
  change (kept_sentences (Splitter.sentences_of (SectionData.raw_text section)))
    with (sentence_stream (SectionData.raw_text section)) in Hinv.
  destruct Hinv as (Hch & Hcur & Htok); [lia|].
  unfold _split_section_into_chunks. cbv zeta.
  destruct (Splitter.current_chunk _) as [|s0 cur] eqn:Hc;
    [congruence|]. cbn [Splitter.is_nil].
  rewrite Hch. cbn [app]. unfold Splitter.close_chunk.
  rewrite Hch, Htok, Hc, Hcur. reflexivity.
Qed.

(** The two sentences of the short sample section make one chunk. *)
Lemma section_within_budget_single_chunk_witness :
  sentence_stream (SectionData.raw_text short_section)
  = ["Run the installer"; "Then restart the service."]
  /\ map ChunkData.text (_split_section_into_chunks settings short_section)
     = ["Run the installer. Then restart the service.."].
Proof.
  split; [vm_compute; reflexivity|].
  rewrite (section_within_budget_single_chunk settings short_section);
    [vm_compute; reflexivity | vm_compute; discriminate
    | vm_compute; discriminate].
Defined.

(** ** Segmenter: headings *)

Lemma md_heading_at_ok s lvl g2 len :
  Regex.md_heading_at s = Some (lvl, g2, len) ->
  1 <= lvl <= 3 /\ 1 <= len.
Proof.
  unfold Regex.md_heading_at.
  destruct (_ && _) eqn:Hh; [|discriminate].
  destruct (Regex.group2_start _ _); [|discriminate].
  intros [= <- _ <-]. apply andb_true_iff in Hh as [H1 H2].
  apply Nat.leb_le in H1, H2. lia.
Qed.

Lemma html_heading_at_ok s lvl g2 len :
  Regex.html_heading_at s = Some (lvl, g2, len) ->
  1 <= lvl <= 3 /\ 1 <= len.
Proof.
  unfold Regex.html_heading_at.
  destruct s as [|c1 [|c2 [|d rest]]]; try discriminate.
  destruct (_ && _); [|discriminate].
  destruct (Regex.level_of_digit d) as [l|] eqn:Hl; [|discriminate].
  destruct (Py.drop _ rest); [discriminate|].
  destruct (Regex.lazy_body _ _ _); [|discriminate].
  intros [= <- _ <-]. unfold Regex.level_of_digit in Hl.
  repeat match type of Hl with
         | (if ?b then _ else _) = _ => destruct b
         end; inversion Hl; lia.
Qed.

Lemma headings_in_order_weaken from from' hs :
  from' <= from -> headings_in_order from hs -> headings_in_order from' hs.
Proof.
  intros Hle (Hok & Hfrom & Hs). split; [assumption|]. split; [|assumption].
  eapply Forall_impl; [exact Hfrom|]. cbn. intros. lia.
Qed.

Lemma headings_in_order_cons from lvl txt len hs :
  1 <= lvl <= 3 -> 1 <= len ->
  headings_in_order (from + len) hs ->
  headings_in_order from (Heading.mk txt lvl from (from + len) :: hs).
Proof.
  intros Hlvl Hlen (Hok & Hfrom & Hs). split; [|split].
  - constructor; [|assumption]. split; cbn; lia.
  - constructor; [cbn; lia|].
    eapply Forall_impl; [exact Hfrom|]. cbn. intros. lia.
  - constructor; assumption.
Qed.

Lemma md_finditer_in_order s : forall p skip bol,
  headings_in_order (p + skip) (Regex.md_finditer s p skip bol).
Proof.
  induction s as [|c s IH]; intros p skip bol; cbn [Regex.md_finditer].
  - repeat split; constructor.
  - destruct skip as [|k].
    + destruct (if bol then Regex.md_heading_at (String c s) else None)
        as [[[lvl g2] len]|] eqn:Hm.
      * destruct bol; [|discriminate].
        apply md_heading_at_ok in Hm as [Hlvl Hlen].
        rewrite Nat.add_0_r. apply headings_in_order_cons; [lia..|].
        eapply headings_in_order_weaken; [|apply IH]. lia.
      * eapply headings_in_order_weaken; [|apply IH]. lia.
    + eapply headings_in_order_weaken; [|apply IH]. lia.
Qed.

Lemma html_finditer_in_order s : forall p skip,
  headings_in_order (p + skip) (Regex.html_finditer s p skip).
Proof.
  induction s as [|c s IH]; intros p skip; cbn [Regex.html_finditer].
  - repeat split; constructor.
  - destruct skip as [|k].
    + destruct (Regex.html_heading_at (String c s))
        as [[[lvl g2] len]|] eqn:Hm.
      * apply html_heading_at_ok in Hm as [Hlvl Hlen].
        rewrite Nat.add_0_r. apply headings_in_order_cons; [lia..|].
        eapply headings_in_order_weaken; [|apply IH]. lia.
      * eapply headings_in_order_weaken; [|apply IH]. lia.
    + eapply headings_in_order_weaken; [|apply IH]. lia.
Qed.

Lemma insert_by_start_last h l :
  Forall (fun x => Heading.start x <= Heading.start h) l ->
  SectionExtractor.insert_by_start h l = l ++ [h].
Proof.
  induction 1 as [|x l Hx _ IH]; [reflexivity|].
  cbn [SectionExtractor.insert_by_start app].
  destruct (Nat.ltb_spec (Heading.start h) (Heading.start x)); [lia|].
  now rewrite IH.
Qed.

Lemma sort_by_start_in_order l : forall acc,
  Forall heading_ok (acc ++ l) ->
  StronglySorted (fun a b => Heading.end_ a <= Heading.start b) (acc ++ l) ->
  fold_left (fun acc h => SectionExtractor.insert_by_start h acc) l acc
  = acc ++ l.
Proof.
  induction l as [|h l IH]; intros acc Hok Hs; cbn [fold_left].
  - now rewrite app_nil_r.
  - assert (Heq : acc ++ h :: l = (acc ++ [h]) ++ l)
      by now rewrite <- app_assoc.
    rewrite insert_by_start_last.
    + rewrite Heq in Hok, Hs |- *. apply IH; assumption.
    + apply List.Forall_forall. intros x Hx.
      apply in_split in Hx as (l1 & l2 & ->).
      rewrite <- app_assoc in Hs, Hok. cbn [app] in Hs, Hok.
      apply StronglySorted_app_1_r in Hs.
      apply StronglySorted_inv in Hs as [_ Hx].
      rewrite List.Forall_forall in Hx.
      specialize (Hx h ltac:(apply in_or_app; right; now left)).
      rewrite Forall_app in Hok. destruct Hok as [_ Hok].
      apply Forall_inv in Hok. destruct Hok as [Hok _]. lia.
Qed.

Lemma extract_headings_spec text :
  headings_in_order 0 (SectionExtractor.extract_headings text)
  /\ SectionExtractor.extract_headings text
     = if Splitter.is_nil (Regex.md_finditer text 0 0 true)
       then Regex.html_finditer text 0 0
       else Regex.md_finditer text 0 0 true.
Proof.
  unfold SectionExtractor.extract_headings.
  set (hs := if Splitter.is_nil _ then _ else _).
  assert (Hin : headings_in_order 0 hs).
  { subst hs. destruct (Splitter.is_nil _).
    - apply (html_finditer_in_order text 0 0).
    - apply (md_finditer_in_order text 0 0 true). }
  destruct (Hin) as (Hok & _ & Hs).
  unfold SectionExtractor.sort_by_start.
  rewrite (sort_by_start_in_order hs []) by assumption.
  cbn [app]. auto.
Qed.

(** X5.  The headings of a document come out in text order and do not
    overlap: every heading found by [extract_headings] spans at least one
    character and has a level between 1 and 3, each heading ends no later
    than the next one starts, and the final sort by start position leaves
    the list of matches as the pattern scan produced it (the Markdown
    matches, or the HTML matches when there is no Markdown heading). *)
Theorem extract_headings_in_order text :
  Forall (fun h => Heading.start h < Heading.end_ h
                   /\ 1 <= Heading.level h <= 3)
         (SectionExtractor.extract_headings text)
  /\ StronglySorted (fun a b => Heading.end_ a <= Heading.start b)
                    (SectionExtractor.extract_headings text)
  /\ SectionExtractor.extract_headings text
     = if Splitter.is_nil (Regex.md_finditer text 0 0 true)
       then Regex.html_finditer text 0 0
       else Regex.md_finditer text 0 0 true.
Proof.
  destruct (extract_headings_spec text) as ((Hok & _ & Hs) & Heq).
  split; [exact Hok|]. split; [exact Hs | exact Heq].
Qed.

(** ** Segmenter: sections *)

Section SegmenterProofs.
Context `{Hash}.

Lemma estimate_tokens_pos text :
  text <> EmptyString -> (1 <= SectionExtractor.estimate_tokens text)%Z.
Proof.
  intros Hne. unfold SectionExtractor.estimate_tokens.
  destruct text; [congruence|]. cbn [Py.is_empty]. lia.
Qed.

Lemma is_empty_false s : Py.is_empty s = false -> s <> EmptyString.
Proof. destruct s; [discriminate|congruence]. Qed.

Lemma strip_nonempty text :
  Py.truthy (Py.strip text) = true -> text <> EmptyString.
Proof. intros Ht ->. discriminate Ht. Qed.

Lemma heading_sections_spec text page_url hs : forall sections idx,
  exists new,
    SectionExtractor.heading_sections text page_url hs sections idx
    = sections ++ new
    /\ forall k s, new !! k = Some s ->
         section_from_heading page_url hs (idx + k) s.
Proof.
  induction hs as [|heading rest IH]; intros sections idx;
    cbn [SectionExtractor.heading_sections].
  - exists []. rewrite app_nil_r. split; [reflexivity|]. intros k s Hk.
    destruct k; discriminate Hk.
  - cbv zeta.
    set (section_text := Py.strip (Py.slice _ _ text)).
    destruct (Py.is_empty section_text) eqn:He; cbn [orb].
    { destruct (IH sections idx) as (new & Heq & Hnew).
      exists new. split; [exact Heq|]. intros k s Hk.
      destruct (Hnew k s Hk) as (Hid & Hne & Hlen & Htok & h & Hh & Hrest).
      repeat (split; [assumption|]). exists h. split; [now right|exact Hrest]. }
    destruct (Nat.ltb_spec (String.length section_text) 20) as [Hshort|Hlong].
    { destruct (IH sections idx) as (new & Heq & Hnew).
      exists new. split; [exact Heq|]. intros k s Hk.
      destruct (Hnew k s Hk) as (Hid & Hne & Hlen & Htok & h & Hh & Hrest).
      repeat (split; [assumption|]). exists h. split; [now right|exact Hrest]. }
    match goal with
    | |- context [sections ++ [?sec]] =>
        destruct (IH (sections ++ [sec]) (S idx)) as (new & Heq & Hnew);
        exists (sec :: new)
    end.
    split; [rewrite Heq, <- app_assoc; reflexivity|].
    intros [|k] s Hk.
    + injection Hk as <-. rewrite Nat.add_0_r.
      split; [reflexivity|]. split; [now apply is_empty_false|].
      split; [exact Hlong|]. split; [reflexivity|].
      exists heading. split; [now left|]. split; reflexivity.
    + destruct (Hnew k s Hk) as (Hid & Hne & Hlen & Htok & h & Hh & Hrest).
      replace (idx + S k) with (S idx + k) by lia.
      repeat (split; [assumption|]). exists h. split; [now right|exact Hrest].
Qed.

Lemma split_ws_lstrip s : Py.split_ws (Py.lstrip s) = Py.split_ws s.
Proof.
  induction s as [|c s IH]; [reflexivity|].
  cbn [Py.lstrip]. destruct (Py.isspace c) eqn:Hc; [|reflexivity].
  rewrite IH. cbn [Py.split_ws]. now rewrite Hc.
Qed.

Lemma split_ws_cons c s :
  Py.split_ws (String c s)
  = if Py.isspace c then Py.split_ws s
    else match s with
         | EmptyString => [String c EmptyString]
         | String d _ =>
             if Py.isspace d then String c EmptyString :: Py.split_ws s
             else match Py.split_ws s with
                  | w :: ws => String c w :: ws
                  | [] => [String c EmptyString]
                  end
         end.
Proof. reflexivity. Qed.

Lemma rstrip_cons c s :
  Py.rstrip (String c s)
  = if Py.is_empty (Py.rstrip s) && Py.isspace c then EmptyString
    else String c (Py.rstrip s).
Proof. reflexivity. Qed.

Lemma split_ws_rstrip s : Py.split_ws (Py.rstrip s) = Py.split_ws s.
Proof.
  induction s as [|c s IH]; [reflexivity|].
  rewrite rstrip_cons, (split_ws_cons c s).
  destruct (Py.isspace c) eqn:Hc.
  - destruct (Py.rstrip s) as [|d r] eqn:Hr; cbn [Py.is_empty andb].
    + rewrite <- IH. reflexivity.
    + rewrite split_ws_cons, Hc. exact IH.
  - rewrite andb_false_r, split_ws_cons, Hc.
    destruct s as [|d s']; [reflexivity|].
    rewrite <- IH. rewrite rstrip_cons in *.
    destruct (Py.is_empty (Py.rstrip s') && Py.isspace d) eqn:Hd.
    + apply andb_true_iff in Hd as [_ ->]. reflexivity.
    + reflexivity.
Qed.

Lemma split_ws_strip s : Py.split_ws (Py.strip s) = Py.split_ws s.
Proof. unfold Py.strip. now rewrite split_ws_rstrip, split_ws_lstrip. Qed.

Lemma estimate_tokens_strip text :
  Py.truthy (Py.strip text) = true ->
  SectionExtractor.estimate_tokens text
  = SectionExtractor.estimate_tokens (Py.strip text).
Proof.
  intros Ht. pose proof (strip_nonempty _ Ht) as Hne.
  unfold SectionExtractor.estimate_tokens.
  rewrite split_ws_strip. apply negb_true_iff in Ht. rewrite Ht.
  destruct text; [congruence|reflexivity].
Qed.

Lemma firstn_cap {A} n (l : list A) :
  (if n <? length l then firstn n l else l) = firstn n l.
Proof.
  destruct (Nat.ltb_spec n (length l)); [reflexivity|].
  symmetry. now apply firstn_all2.
Qed.

Lemma extract_sections_shape text page_url :
  exists all,
    (forall cfg,
        SectionExtractor.extract_sections cfg text page_url
        = firstn (Settings.max_sections_per_page cfg) all)
    /\ forall k s, all !! k = Some s -> extracted_ok text page_url all k s.
Proof.
  pose proof (extract_headings_spec text) as [(Hok & _ & _) _].
  unfold SectionExtractor.extract_sections.
  set (headings := SectionExtractor.extract_headings text) in *.
  set (intro := match headings with [] => _ | _ :: _ => _ end).
  assert (Hintro : intro = ([], 0)
          \/ exists s, intro = ([s], 1)
               /\ ExtractedSection.section_id s
                  = SectionExtractor.generate_section_id
                      page_url "Introduction" 0
               /\ ExtractedSection.heading s = "Introduction"
               /\ ExtractedSection.heading_level s = 1
               /\ 50 < String.length (ExtractedSection.raw_text s)
               /\ ExtractedSection.token_count s
                  = SectionExtractor.estimate_tokens
                      (ExtractedSection.raw_text s)).
  { subst intro. destruct headings as [|h0 hs]; [now left|].
    destruct (0 <? Heading.start h0); [|now left].
    destruct (Py.truthy _ && _) eqn:Hb; [|now left].
    right. eexists. split; [reflexivity|].
    apply andb_true_iff in Hb as [_ Hlen]. apply Nat.ltb_lt in Hlen.
    cbn. auto. }
  assert (Hlevel : forall s h, In h headings ->
            ExtractedSection.heading_level s = Heading.level h ->
            1 <= ExtractedSection.heading_level s <= 3).
  { intros s h Hh ->. rewrite List.Forall_forall in Hok.
    apply (Hok h Hh). }
  clearbody intro headings.
  destruct Hintro as [->|(s0 & -> & Hid0 & Hh0 & Hl0 & Hlen0 & Htok0)].
  - destruct (heading_sections_spec text page_url headings [] 0)
      as (new & -> & Hnew). cbn [app].
    destruct new as [|s1 new]; cbn [Splitter.is_nil andb].
    + destruct (Py.truthy (Py.strip text)) eqn:Ht.
      * eexists. split; [intros cfg; apply firstn_cap|].
        intros [|k] s Hk; [|discriminate Hk]. injection Hk as <-.
        split; [reflexivity|].
        split; [cbn; apply is_empty_false, negb_true_iff, Ht|].
        split; [now apply estimate_tokens_strip|].
        split; [cbn; lia|]. right. auto.
      * exists []. split; [intros cfg; apply firstn_cap|].
        intros k s Hk. destruct k; discriminate Hk.
    + exists (s1 :: new). split; [intros cfg; apply firstn_cap|].
      intros k s Hk.
      destruct (Hnew k s Hk) as (Hid & Hne & Hlen & Htok & h & Hh & _ & Hl).
      split; [exact Hid|]. split; [exact Hne|]. split; [exact Htok|].
      split; [now apply (Hlevel s h)|now left].
  - destruct (heading_sections_spec text page_url headings [s0] 1)
      as (new & -> & Hnew). cbn [app Splitter.is_nil andb].
    exists (s0 :: new). split; [intros cfg; apply firstn_cap|].
    intros [|k] s Hk.
    + injection Hk as <-. split; [now rewrite Hh0|].
      split; [intros Hnil; rewrite Hnil in Hlen0; cbn in Hlen0; lia|].
      split; [exact Htok0|]. split; [lia|]. left. lia.
    + destruct (Hnew k s Hk) as (Hid & Hne & Hlen & Htok & h & Hh & _ & Hl).
      split; [exact Hid|]. split; [exact Hne|]. split; [exact Htok|].
      split; [now apply (Hlevel s h)|now left].
Qed.

(** X6.  The section cap keeps a prefix: the segmenter returns at most
    [max_sections_per_page] sections, and under a smaller cap it returns
    the first sections of what it returns under a larger one. *)
Theorem extract_sections_cap cfg cfg' text page_url :
  Settings.max_sections_per_page cfg <= Settings.max_sections_per_page cfg' ->
  length (SectionExtractor.extract_sections cfg text page_url)
  <= Settings.max_sections_per_page cfg
  /\ SectionExtractor.extract_sections cfg text page_url
     = firstn (Settings.max_sections_per_page cfg)
         (SectionExtractor.extract_sections cfg' text page_url).
Proof.
  intros Hle. destruct (extract_sections_shape text page_url) as (all & Heq & _).
  rewrite !Heq. split; [apply firstn_le_length|].
  rewrite firstn_firstn. f_equal. lia.
Qed.

(** X7.  Every section the segmenter returns is usable downstream: its
    text is not empty, its token count is the word-based estimate of its
    own text (hence at least 1), its heading level is between 1 and 3,
    and its text has at least 20 characters unless it is the whole
    document returned as the single section [Content]. *)
Theorem extract_sections_wellformed cfg text page_url :
  Forall (fun s =>
            ExtractedSection.raw_text s <> EmptyString
            /\ ExtractedSection.token_count s
               = SectionExtractor.estimate_tokens (ExtractedSection.raw_text s)
            /\ (1 <= ExtractedSection.token_count s)%Z
            /\ 1 <= ExtractedSection.heading_level s <= 3
            /\ (20 <= String.length (ExtractedSection.raw_text s)
                \/ (ExtractedSection.heading s = "Content"
                    /\ ExtractedSection.raw_text s = Py.strip text)))
         (SectionExtractor.extract_sections cfg text page_url).
Proof.
  destruct (extract_sections_shape text page_url) as (all & Heq & Hall).
  rewrite Heq. apply List.Forall_forall. intros s Hs.
  apply in_firstn in Hs. apply list_elem_of_In, list_elem_of_lookup in Hs.
  destruct Hs as (k & Hk).
  destruct (Hall k s Hk) as (_ & Hne & Htok & Hlvl & Hlen).
  split; [exact Hne|]. split; [exact Htok|].
  split; [rewrite Htok; now apply estimate_tokens_pos|].
  split; [exact Hlvl|]. destruct Hlen as [Hlen|(_ & Hc & Hr)]; auto.
Qed.

(** X8.  Section ids follow the positions in the returned list: the
    section at position [k] has the id generated from the page URL, its
    own heading and [k], so the sections that were skipped as too short
    do not leave gaps in the numbering. *)
Theorem extract_sections_ids cfg text page_url k s :
  SectionExtractor.extract_sections cfg text page_url !! k = Some s ->
  ExtractedSection.section_id s
  = SectionExtractor.generate_section_id
      page_url (ExtractedSection.heading s) k.
Proof.
  destruct (extract_sections_shape text page_url) as (all & Heq & Hall).
  rewrite Heq. intros Hk. apply lookup_take_Some in Hk as [Hk _].
  apply (Hall k s Hk).
Qed.

End SegmenterProofs.

(** The page with two short sections under a cap of one section. *)
Lemma extract_sections_cap_witness :
  Settings.max_sections_per_page capped_settings
  <= Settings.max_sections_per_page settings
  /\ map ExtractedSection.heading
       (@SectionExtractor.extract_sections md5 settings small_page_text
                                           sample_url)
     = ["Install"; "Usage"]
  /\ @SectionExtractor.extract_sections md5 capped_settings small_page_text
                                        sample_url
     = firstn 1 (@SectionExtractor.extract_sections md5 settings
                   small_page_text sample_url).
Proof.
  split; [cbn; lia|]. split; [vm_compute; reflexivity|].
  apply (@extract_sections_cap md5 capped_settings settings small_page_text
           sample_url).
  cbn. lia.
Defined.

(** The second section of the page with two short sections. *)
Lemma extract_sections_ids_witness :
  exists s,
    @SectionExtractor.extract_sections md5 settings small_page_text sample_url
    !! 1 = Some s
    /\ ExtractedSection.heading s = "Usage"
    /\ ExtractedSection.section_id s
       = @SectionExtractor.generate_section_id
           md5 sample_url (ExtractedSection.heading s) 1.
Proof.
  eexists. split; [vm_compute; reflexivity|]. split; [reflexivity|].
  match goal with
  | |- ExtractedSection.section_id ?s = _ =>
      apply (@extract_sections_ids md5 settings small_page_text sample_url
               1 s)
  end.
  vm_compute. reflexivity.
Defined.

(** ** Nodes: the section step and the loop *)

Lemma dict_get_set_other k k' v d :
  k' <> k -> Dict.get k' (Dict.set k v d) = Dict.get k' d.
Proof.
  intros Hne. induction d as [|[k0 v0] d IH]; cbn [Dict.set Dict.get].
  - destruct (String.eqb_spec k k'); [congruence|reflexivity].
  - destruct (String.eqb_spec k0 k) as [->|Hk0]; cbn [Dict.get].
    + destruct (String.eqb_spec k k'); [congruence|reflexivity].
    + destruct (String.eqb_spec k0 k'); [reflexivity|exact IH].
Qed.

Lemma dict_set_fresh k v d :
  ~ In k (map fst d) -> Dict.set k v d = d ++ [(k, v)].
Proof.
  induction d as [|[k0 v0] d IH]; intros Hnot; cbn [Dict.set app];
    [reflexivity|].
  destruct (String.eqb_spec k0 k) as [->|Hne].
  - exfalso. apply Hnot. now left.
  - rewrite IH; [reflexivity|]. intros Hin. apply Hnot. now right.
Qed.

(** X9.  Processing one section touches nothing but that section: the
    other sections of the list, the summaries of the other section ids
    and the page's url, title, text and type are left as they were; the
    section list keeps its length and the processed section keeps its
    id, heading, text and token count, whether the generative service
    answered or failed. *)
Theorem process_section_node_frame cfg state llm log section :
  AgentState.sections state !! AgentState.current_section_index state
  = Some section ->
  let state' := (process_section_node cfg state llm log).1 in
  length (AgentState.sections state') = length (AgentState.sections state)
  /\ (forall j, j <> AgentState.current_section_index state ->
        AgentState.sections state' !! j = AgentState.sections state !! j)
  /\ (exists section',
        AgentState.sections state' !! AgentState.current_section_index state
        = Some section'
        /\ SectionData.section_id section' = SectionData.section_id section
        /\ SectionData.heading section' = SectionData.heading section
        /\ SectionData.raw_text section' = SectionData.raw_text section
        /\ SectionData.token_count section'
           = SectionData.token_count section)
  /\ (forall k, k <> SectionData.section_id section ->
        Dict.get k (AgentState.section_summaries state')
        = Dict.get k (AgentState.section_summaries state))
  /\ AgentState.page_url state' = AgentState.page_url state
  /\ AgentState.page_title state' = AgentState.page_title state
  /\ AgentState.page_text state' = AgentState.page_text state
  /\ AgentState.page_type state' = AgentState.page_type state.
Proof.
  intros Hsec. unfold process_section_node. rewrite Hsec.
  pose proof (lookup_lt_Some _ _ _ Hsec) as Hlt.
  destruct (summarize_section cfg section _ llm log) as [[summary|] log'];
    cbn.
  - split; [apply length_insert|].
    split; [intros j Hj; now apply list_lookup_insert_ne|].
    split.
    { exists (summarized summary section).
      split; [now apply list_lookup_insert_eq|]. auto. }
    split; [intros k Hk; now apply dict_get_set_other|]. auto.
  - split; [reflexivity|]. split; [reflexivity|].
    split; [exists section; auto|].
    split; [intros k Hk; now apply dict_get_set_other|]. auto.
Qed.

Lemma section_loop_keys cfg llm : forall m state runs log,
  AgentState.current_section_index state + S m
  = length (AgentState.sections state) ->
  NoDup (map SectionData.section_id (AgentState.sections state)) ->
  map fst (AgentState.section_summaries state)
  = firstn (AgentState.current_section_index state)
      (map SectionData.section_id (AgentState.sections state)) ->
  exists state' log',
    (forall fuel, S m <= fuel ->
       section_loop cfg fuel state runs llm log
       = Some (state', runs + S m, log'))
    /\ map fst (AgentState.section_summaries state')
       = map SectionData.section_id (AgentState.sections state).
Proof.
  induction m as [|m IH]; intros state runs log Hidx Hnd Hkeys.
  all: destruct (lookup_lt_is_Some_2 (AgentState.sections state)
                (AgentState.current_section_index state)) as [section Hsec];
      [lia|].
  all: destruct (process_section_node_step cfg state llm log section Hsec)
      as (Hi & Hids & _ & summary & Hsum).
  all: destruct (process_section_node cfg state llm log) as [state1 log1] eqn:Hp.
  all: cbn [fst] in Hi, Hids, Hsum.
  all: assert (Hlen : length (AgentState.sections state1)
                   = length (AgentState.sections state))
      by (rewrite <- (length_map SectionData.section_id), Hids;
          apply length_map).
  all: assert (Hid : map SectionData.section_id (AgentState.sections state)
                 !! AgentState.current_section_index state
                 = Some (SectionData.section_id section))
      by (now rewrite list_lookup_fmap, Hsec).
  all: assert (Hkeys1 : map fst (AgentState.section_summaries state1)
                    = firstn (AgentState.current_section_index state1)
                        (map SectionData.section_id
                             (AgentState.sections state1))).
  1, 3: rewrite Hsum, Hi, Hids, Nat.add_1_r, (take_S_r _ _ _ Hid), <- Hkeys;
    rewrite dict_set_fresh; [now rewrite map_app|];
    rewrite Hkeys; intros Hin;
    rewrite <- (take_drop_middle _ _ _ Hid) in Hnd;
    apply NoDup_app in Hnd as (_ & Hnd & _);
    apply (Hnd (SectionData.section_id section));
      [now apply list_elem_of_In | now left].
  - exists state1, log1. split.
    + intros [|fuel] Hf; [lia|]. cbn. rewrite Hp.
      rewrite should_continue_spec, Hi, Hlen.
      destruct (Nat.ltb_spec (AgentState.current_section_index state + 1)
                  (length (AgentState.sections state))); [lia|].
      cbn. do 3 f_equal. lia.
    + rewrite Hkeys1, Hids. apply firstn_all2.
      rewrite length_map. lia.
  - destruct (IH state1 (S runs) log1) as (state' & log' & Hrun & Hend);
      [lia | now rewrite Hids | exact Hkeys1 |].
    exists state', log'. split.
    + intros [|fuel] Hf; [lia|]. cbn. rewrite Hp.
      rewrite should_continue_spec, Hi, Hlen.
      destruct (Nat.ltb_spec (AgentState.current_section_index state + 1)
                  (length (AgentState.sections state))); [|lia].
      cbn. rewrite Hrun by lia. do 3 f_equal. lia.
    + now rewrite Hend, Hids.
Qed.

(** X10.  The summary map is filled in section order: when the loop
    starts at the first section with an empty summary map and the
    sections have pairwise different ids, it ends after [max n 1] runs
    with a summary map whose keys are the section ids in the order of the
    section list (the order in which the synthesis prompt numbers
    them). *)
Theorem section_loop_summary_order cfg state llm log :
  AgentState.current_section_index state = 0 ->
  AgentState.section_summaries state = [] ->
  NoDup (map SectionData.section_id (AgentState.sections state)) ->
  exists state' log',
    section_loop cfg (Nat.max (length (AgentState.sections state)) 1)
                 state 0 llm log
    = Some (state', Nat.max (length (AgentState.sections state)) 1, log')
    /\ map fst (AgentState.section_summaries state')
       = map SectionData.section_id (AgentState.sections state).
Proof.
  intros Hzero Hempty Hnd.
  destruct (AgentState.sections state) as [|s0 rest] eqn:Hsecs.
  - eexists _, log. cbn [length Nat.max section_loop].
    rewrite process_section_node_done by now rewrite Hsecs, Hzero.
    rewrite should_continue_spec. cbn. rewrite Hzero, Hsecs. cbn.
    split; [reflexivity|].
    cbn [AgentState.set_current_status AgentState.section_summaries].
    now rewrite Hempty.
  - destruct (section_loop_keys cfg llm (length rest) state 0 log)
      as (state' & log' & Hrun & Hkeys).
    + rewrite Hzero, Hsecs. reflexivity.
    + now rewrite Hsecs.
    + now rewrite Hzero, Hempty.
    + exists state', log'. rewrite Hsecs in Hkeys. split; [|exact Hkeys].
      replace (Nat.max (length (s0 :: rest)) 1) with (S (length rest))
        by (cbn [length]; lia).
      apply Hrun. lia.
Qed.

(** The first section of the page with two short sections. *)
Lemma process_section_node_frame_witness :
  exists section,
    AgentState.sections small_page_state
    !! AgentState.current_section_index small_page_state = Some section
    /\ AgentState.sections
         (process_section_node settings small_page_state always_answers []).1
       !! 1
       = AgentState.sections small_page_state !! 1.
Proof.
  destruct (AgentState.sections small_page_state
            !! AgentState.current_section_index small_page_state)
    as [section|] eqn:Hsec; [|vm_compute in Hsec; discriminate Hsec].
  exists section. split; [reflexivity|].
  destruct (process_section_node_frame settings small_page_state
              always_answers [] section Hsec) as (_ & Hother & _).
  apply Hother. vm_compute. discriminate.
Defined.

(** The loop on the page with two short sections. *)
Lemma section_loop_summary_order_witness :
  exists state' log',
    section_loop settings 2 small_page_state 0 always_answers []
    = Some (state', 2, log')
    /\ map fst (AgentState.section_summaries state')
       = map SectionData.section_id (AgentState.sections small_page_state).
Proof.
  assert (Hzero : AgentState.current_section_index small_page_state = 0)
    by (vm_compute; reflexivity).
  assert (Hempty : AgentState.section_summaries small_page_state = [])
    by (vm_compute; reflexivity).
  assert (Hnd : NoDup (map SectionData.section_id
                           (AgentState.sections small_page_state)))
    by (apply (bool_decide_unpack _); vm_compute; exact I).
  assert (Hn : Nat.max (length (AgentState.sections small_page_state)) 1 = 2)
    by (vm_compute; reflexivity).
  destruct (section_loop_summary_order settings small_page_state
              always_answers [] Hzero Hempty Hnd)
    as (state' & log' & Hrun & Hkeys).
  rewrite Hn in Hrun. exists state', log'. split; [exact Hrun|exact Hkeys].
Defined.

(** ** Nodes: page synthesis *)

(** X11.  Page synthesis asks the generative service at most once and
    never fails: with fewer than two section summaries the request log is
    unchanged, otherwise exactly the synthesis request is added; the
    error field, the sections and the summary map are left as they were;
    with no summary at all the page summary is the fixed text and the
    legacy final summary is not touched; and when the synthesis request
    fails the page summary is the section summaries joined by a rule
    line, under the status [complete (synthesis failed)]. *)
Theorem synthesize_page_node_requests state llm log :
  let state' := (synthesize_page_node state llm log).1 in
  let log' := (synthesize_page_node state llm log).2 in
  let summaries := AgentState.section_summaries state in
  log' = (if length summaries <=? 1 then log
          else log ++ [synthesis_request state])
  /\ AgentState.error state' = AgentState.error state
  /\ AgentState.sections state' = AgentState.sections state
  /\ AgentState.section_summaries state' = summaries
  /\ (summaries = [] ->
      AgentState.page_summary state' = "No content was summarized."
      /\ AgentState.final_summary state' = AgentState.final_summary state)
  /\ (2 <= length summaries ->
      llm log (synthesis_request state) = None ->
      AgentState.page_summary state'
      = Py.join (Prompts.NL +:+ Prompts.NL +:+ "---" +:+ Prompts.NL
                 +:+ Prompts.NL)
                (map snd summaries)
      /\ AgentState.final_summary state' = AgentState.page_summary state'
      /\ AgentState.current_status state' = "complete (synthesis failed)").
Proof.
  unfold synthesize_page_node.
  destruct (AgentState.section_summaries state) as [|[k1 v1] [|kv2 rest]]
    eqn:Hs; cbn [Splitter.is_nil length Nat.eqb Nat.leb fst snd].
  - repeat split; auto; cbn [length]; intros; lia.
  - repeat split; auto; try discriminate; cbn [length]; intros; lia.
  - unfold generate.
    destruct (llm log (synthesis_request state)) as [answer|] eqn:Ha;
      cbn [fst snd].
    + repeat split; auto; try discriminate.
    + repeat split; auto; discriminate.
Qed.

(** ** Retrieval *)

Lemma insert_desc_sorted {A} (key : A -> Q) x (l : list A) :
  descending key l -> descending key (Score.insert_desc key x l).
Proof.
  unfold descending. induction 1 as [|y l Hs IH Hy];
    cbn [Score.insert_desc]; [repeat constructor|].
  unfold Score.ltb. destruct (Qle_bool (key x) (key y)) eqn:Hle; cbn [negb].
  - apply Qle_bool_iff in Hle. constructor; [exact IH|].
    eapply Permutation_Forall;
      [symmetry; apply insert_desc_Permutation|].
    constructor; assumption.
  - assert (Hlt : (key y < key x)%Q).
    { apply Qnot_le_lt. intros Hc. apply Qle_bool_iff in Hc. congruence. }
    constructor; [now constructor|].
    constructor; [now apply Qlt_le_weak|].
    eapply Forall_impl; [exact Hy|]. cbn. intros b Hb.
    eapply Qle_trans; [exact Hb|now apply Qlt_le_weak].
Qed.

Lemma sort_desc_sorted {A} (key : A -> Q) (l : list A) :
  descending key (Score.sort_desc key l).
Proof.
  unfold Score.sort_desc.
  assert (Hgen : forall l acc, descending key acc ->
            descending key
              (fold_left (fun acc x => Score.insert_desc key x acc) l acc)).
  { clear l. induction l as [|x l IH]; intros acc Hacc; cbn [fold_left];
      [exact Hacc|]. apply IH, insert_desc_sorted, Hacc. }
  apply Hgen. constructor.
Qed.

Section RetrievalProofs.
Context `{Python} `{Hash} `{Embedder}.

Lemma search_sections_threshold
      (idx : gmap string (gmap string PineconeClient.Vector))
      page_url query_embedding embedding_type top_k score_threshold r :
  In r (PineconeClient.search_sections idx page_url query_embedding
          embedding_type top_k score_threshold) ->
  (score_threshold <= Result.score r)%Q.
Proof.
  unfold PineconeClient.search_sections. intros Hin.
  apply in_map_iff in Hin as (m & <- & Hin).
  apply filter_In in Hin as [_ Hle]. cbn. now apply Qle_bool_iff.
Qed.

Lemma search_sections_length
      (idx : gmap string (gmap string PineconeClient.Vector))
      page_url query_embedding embedding_type top_k score_threshold :
  length (PineconeClient.search_sections idx page_url query_embedding
            embedding_type top_k score_threshold) <= top_k.
Proof.
  unfold PineconeClient.search_sections, PineconeClient.index_query.
  rewrite length_map.
  etransitivity; [apply List.filter_length_le|]. apply firstn_le_length.
Qed.

Lemma retrieve_sections_length cfg
      (idx : gmap string (gmap string PineconeClient.Vector))
      page_url query embedding_type top_k score_threshold :
  length (RetrievalService.retrieve_sections
            cfg idx page_url query embedding_type top_k score_threshold)
  <= RetrievalService.top_k_or cfg top_k.
Proof.
  unfold RetrievalService.retrieve_sections.
  rewrite (Permutation_length (sort_desc_Permutation _ _)).
  apply search_sections_length.
Qed.

(** X12.  What the section retrieval returns: at most [top_k] results
    (the configured default when none or 0 is given), best score first,
    each one built from a record stored in the namespace of the page
    under the requested role, and each with a score of at least the
    threshold (the configured default when none or 0 is given). *)
Theorem retrieve_sections_sound cfg
        (idx : gmap string (gmap string PineconeClient.Vector))
        page_url query embedding_type top_k score_threshold :
  let results :=
    RetrievalService.retrieve_sections
      cfg idx page_url query embedding_type top_k score_threshold in
  length results <= RetrievalService.top_k_or cfg top_k
  /\ descending Result.score results
  /\ Forall (fun r =>
               Result.embedding_type r = Some embedding_type
               /\ (RetrievalService.threshold_or cfg score_threshold
                   <= Result.score r)%Q
               /\ exists k v,
                    PineconeClient.namespace_of
                      idx (PineconeClient.generate_namespace page_url) !! k
                    = Some v
                    /\ Metadata.embedding_type (PineconeClient.metadata v)
                       = embedding_type
                    /\ Result.section_id r
                       = Metadata.section_id (PineconeClient.metadata v)
                    /\ Result.text r
                       = Metadata.section_text (PineconeClient.metadata v))
            results.
Proof.
  split; [apply retrieve_sections_length|].
  split; [apply sort_desc_sorted|].
  apply List.Forall_forall. intros r Hin.
  unfold RetrievalService.retrieve_sections in Hin.
  apply in_sort_desc in Hin.
  pose proof (search_sections_threshold _ _ _ _ _ _ _ Hin) as Hthr.
  apply search_sections_role in Hin as (Hrole & Hrec).
  split; [exact Hrole|]. split; [exact Hthr|exact Hrec].
Qed.

(** A retrieval inside a [try] raises exactly when the embedding of the
    query or the query of the index raises. *)
Lemma attempt_retrieve_sections_cases fault cfg
      (idx : gmap string (gmap string PineconeClient.Vector))
      page_url query embedding_type top_k score_threshold :
  (exists e,
      (fault = embed_raises e \/ fault = query_raises e)
      /\ RetrievalService.attempt_retrieve_sections
           fault cfg idx page_url query embedding_type top_k score_threshold
         = inl e)
  \/ ((forall e, fault <> embed_raises e /\ fault <> query_raises e)
      /\ RetrievalService.attempt_retrieve_sections
           fault cfg idx page_url query embedding_type top_k score_threshold
         = inr (RetrievalService.retrieve_sections
                  cfg idx page_url query embedding_type top_k
                  score_threshold)).
Proof.
  destruct fault as [|e|e|k e|e]; cbn;
    try (right; split; [intros e'; split; discriminate|reflexivity]);
    left; exists e; auto.
Qed.


End RetrievalProofs.


(** ** Nodes: page classification *)

Lemma prefix_docs_doc s :
  String.prefix "docs" s = true -> String.prefix "doc" s = true.
Proof.
  destruct s as [|c1 [|c2 [|c3 [|c4 s]]]]; cbn;
    repeat match goal with
           | |- context [if ?b then _ else _] => destruct b
           end;
    intros; try discriminate; reflexivity.
Qed.

Lemma contains_docs_doc s :
  contains "docs" s = true -> contains "doc" s = true.
Proof.
  induction s as [|c s IH]; cbn [contains]; intros Hc.
  - apply orb_true_iff in Hc as [Hc|Hc]; discriminate Hc.
  - apply orb_true_iff in Hc as [Hc|Hc]; apply orb_true_iff.
    + left. now apply prefix_docs_doc.
    + right. now apply IH.
Qed.

(** X14.  Page classification always makes exactly one request and never
    fails.  When the generative service fails the page type is [unknown]
    under the status [classification failed, using default]; otherwise
    the type is the first of api, blog, readme and doc that occurs in
    the stripped, lower-cased answer ([unknown] when none does; the test
    for [docs] adds nothing to the test for [doc]), and the status names
    it.  The page's url, title and text, the sections, the summary map
    and the error field are left as they were. *)
Theorem classify_page_node_outcome state llm log :
  let state' := (classify_page_node state llm log).1 in
  let log' := (classify_page_node state llm log).2 in
  log' = log ++ [classification_request state]
  /\ AgentState.page_type state'
     = match llm log (classification_request state) with
       | Some response =>
           let answer := Py.lower (Py.strip response) in
           if contains "api" answer then API
           else if contains "blog" answer then BLOG
           else if contains "readme" answer then README
           else if contains "doc" answer then DOCS
           else UNKNOWN
       | None => UNKNOWN
       end
  /\ AgentState.current_status state'
     = match llm log (classification_request state) with
       | Some _ => "classified as "
                   +:+ PageType_value (AgentState.page_type state')
       | None => "classification failed, using default"
       end
  /\ AgentState.page_url state' = AgentState.page_url state
  /\ AgentState.page_title state' = AgentState.page_title state
  /\ AgentState.page_text state' = AgentState.page_text state
  /\ AgentState.sections state' = AgentState.sections state
  /\ AgentState.section_summaries state' = AgentState.section_summaries state
  /\ AgentState.error state' = AgentState.error state.
Proof.
  unfold classify_page_node, generate.
  destruct (llm log (classification_request state)) as [response|];
    cbn [fst snd]; repeat split; try reflexivity.
  cbn [AgentState.page_type AgentState.set_current_status set_page_type].
  unfold page_type_of_response. cbv zeta.
  destruct (contains "api" _); [reflexivity|].
  destruct (contains "blog" _); [reflexivity|].
  destruct (contains "readme" _); [reflexivity|].
  destruct (contains "docs" _) eqn:Hdocs; cbn [orb]; [|reflexivity].
  now rewrite (contains_docs_doc _ Hdocs).
Qed.

(** X15.  Only the first 1000 characters of the page text reach the
    classifier: two pages that agree on them are classified with the
    same request and, by the same generative service, as the same
    type. *)
Theorem classification_reads_first_1000 state1 state2 llm log :
  Py.take 1000 (AgentState.page_text state1)
  = Py.take 1000 (AgentState.page_text state2) ->
  classification_request state1 = classification_request state2
  /\ AgentState.page_type (classify_page_node state1 llm log).1
     = AgentState.page_type (classify_page_node state2 llm log).1
  /\ (classify_page_node state1 llm log).2
     = (classify_page_node state2 llm log).2.
Proof.
  intros Heq.
  assert (Hreq : classification_request state1
                 = classification_request state2).
  { unfold classification_request, build_classification_prompt.
    now rewrite Heq. }
  split; [exact Hreq|].
  unfold classify_page_node, generate. rewrite Hreq.
  destruct (llm log (classification_request state2)); cbn; auto.
Qed.

(** Two pages that differ after their first 1000 characters. *)
Lemma classification_reads_first_1000_witness :
  AgentState.page_text long_page_a <> AgentState.page_text long_page_b
  /\ classification_request long_page_a = classification_request long_page_b.
Proof.
  split; [vm_compute; discriminate|].
  apply (classification_reads_first_1000 long_page_a long_page_b
           always_answers []).
  vm_compute. reflexivity.
Defined.

(** ** Index: storing, deleting, re-indexing *)

Section IndexEffects.
Context `{Python} `{Hash} `{Embedder}.

Lemma map_combine_map {A B C} (f : A * B -> C) (g : A -> B) (l : list A) :
  map f (combine l (map g l)) = map (fun x => f (x, g x)) l.
Proof. induction l as [|x l IH]; cbn; [reflexivity|]. now rewrite IH. Qed.

Lemma store_sections_spec
      (idx : gmap string (gmap string PineconeClient.Vector))
      page_url sections embedding_type :
  RetrievalService.store_sections idx page_url sections embedding_type
  = (match sections with
     | [] => idx
     | _ =>
         <[PineconeClient.generate_namespace page_url :=
             fold_left put
               (stored_vectors page_url embedding_type sections)
               (PineconeClient.namespace_of
                  idx (PineconeClient.generate_namespace page_url))]> idx
     end, length sections).
Proof.
  unfold RetrievalService.store_sections.
  destruct sections as [|s0 rest]; [reflexivity|].
  cbn [Splitter.is_nil]. unfold PineconeClient.upsert_sections.
  rewrite batch_upsert_spec, length_map, length_combine, !length_map.
  assert (Hv : map (fun '(section, embedding) =>
                      PineconeClient.section_vector
                        page_url embedding_type section embedding)
                   (combine (s0 :: rest)
                      (map embed_passage
                         (RetrievalService.texts_to_embed
                            embedding_type (s0 :: rest))))
               = stored_vectors page_url embedding_type (s0 :: rest)).
  { unfold stored_vectors, RetrievalService.texts_to_embed, embedded_text.
    destruct (role_of embedding_type);
      rewrite map_map, map_combine_map; reflexivity. }
  rewrite Hv. f_equal. unfold RetrievalService.texts_to_embed.
  destruct (role_of embedding_type); rewrite length_map; apply Nat.min_id.
Qed.

Lemma fold_put_is_Some vectors : forall m k,
  is_Some (m !! k) -> is_Some (fold_left put vectors m !! k).
Proof.
  induction vectors as [|x vectors IH]; intros m k Hk; cbn [fold_left];
    [exact Hk|].
  apply IH. unfold put. apply lookup_insert_is_Some'. now right.
Qed.

Lemma fold_put_in vectors : forall m v,
  In v vectors ->
  exists v', In v' vectors /\ PineconeClient.id v' = PineconeClient.id v
             /\ fold_left put vectors m !! PineconeClient.id v = Some v'.
Proof.
  induction vectors as [|x vectors IH]; intros m v Hin; [destruct Hin|].
  cbn [fold_left]. destruct Hin as [->|Hin].
  - destruct (fold_put_is_Some vectors (put m v) (PineconeClient.id v))
      as [v' Hv'].
    { unfold put. rewrite lookup_insert_eq. eauto. }
    destruct (fold_put_lookup _ _ _ _ Hv') as [Hm|[Hin' Hid]].
    + unfold put in Hm. rewrite lookup_insert_eq in Hm. injection Hm as <-.
      exists v. split; [now left|]. split; [reflexivity|exact Hv'].
    + exists v'. split; [now right|]. split; [exact Hid|exact Hv'].
  - destruct (IH (put m x) v Hin) as (v' & Hin' & Hid & Hv').
    exists v'. split; [now right|]. split; [exact Hid|exact Hv'].
Qed.

Lemma size_pos_lookup (m : gmap string PineconeClient.Vector) k v :
  m !! k = Some v -> (0 <? size m) = true.
Proof.
  intros Hk. apply Nat.ltb_lt.
  destruct (decide (size m = 0)) as [Hz|]; [|lia].
  apply map_size_empty_iff in Hz. subst m. now rewrite lookup_empty in Hk.
Qed.

(** X16.  What storing the sections of a page does: the count returned is
    the number of sections, the page then counts as indexed, and every
    section has a record in the namespace of the page under the id
    generated from the page, its section id and the role; the record is
    the vector built for a section of the call with that generated id
    (the section itself, unless a later section of the call has the same
    generated id). *)
Theorem store_sections_effect
        (idx : gmap string (gmap string PineconeClient.Vector))
        page_url sections embedding_type section :
  In section sections ->
  let idx' :=
    (RetrievalService.store_sections idx page_url sections embedding_type).1 in
  (RetrievalService.store_sections idx page_url sections embedding_type).2
  = length sections
  /\ RetrievalService.check_page_indexed idx' page_url = true
  /\ exists section',
       In section' sections
       /\ PineconeClient.generate_section_id
            page_url (SectionDict.section_id section') embedding_type
          = PineconeClient.generate_section_id
              page_url (SectionDict.section_id section) embedding_type
       /\ PineconeClient.namespace_of
            idx' (PineconeClient.generate_namespace page_url)
          !! PineconeClient.generate_section_id
               page_url (SectionDict.section_id section) embedding_type
          = Some (PineconeClient.section_vector
                    page_url embedding_type section'
                    (embed_passage (embedded_text embedding_type section'))).
Proof.
  intros Hin. rewrite store_sections_spec. cbn [fst snd].
  split; [reflexivity|].
  set (ns := PineconeClient.generate_namespace page_url).
  set (v := PineconeClient.section_vector page_url embedding_type section
              (embed_passage (embedded_text embedding_type section))).
  assert (Hv : In v (stored_vectors page_url embedding_type sections)).
  { unfold stored_vectors. apply in_map_iff. exists section. auto. }
  destruct (fold_put_in _ (PineconeClient.namespace_of idx ns) v Hv)
    as (v' & Hin' & Hid & Hlook).
  unfold stored_vectors in Hin'.
  apply in_map_iff in Hin' as (section' & <- & Hin').
  assert (Hns : PineconeClient.namespace_of
                  (<[ns := fold_left put
                             (stored_vectors page_url embedding_type sections)
                             (PineconeClient.namespace_of idx ns)]> idx) ns
                = fold_left put
                    (stored_vectors page_url embedding_type sections)
                    (PineconeClient.namespace_of idx ns)).
  { unfold PineconeClient.namespace_of at 1. now rewrite lookup_insert_eq. }
  replace (match sections with [] => idx | _ :: _ => _ end)
    with (<[ns := fold_left put
                    (stored_vectors page_url embedding_type sections)
                    (PineconeClient.namespace_of idx ns)]> idx)
    by (destruct sections; [destruct Hin|reflexivity]).
  split.
  - unfold RetrievalService.check_page_indexed,
      PineconeClient.check_page_exists. fold ns.
    rewrite lookup_insert_eq. eapply size_pos_lookup, Hlook.
  - exists section'. split; [exact Hin'|]. split; [exact Hid|].
    rewrite Hns. exact Hlook.
Qed.

Lemma retrieve_sections_ext cfg
      (idx1 idx2 : gmap string (gmap string PineconeClient.Vector))
      page_url query embedding_type top_k score_threshold :
  PineconeClient.namespace_of
    idx1 (PineconeClient.generate_namespace page_url)
  = PineconeClient.namespace_of
      idx2 (PineconeClient.generate_namespace page_url) ->
  RetrievalService.retrieve_sections
    cfg idx1 page_url query embedding_type top_k score_threshold
  = RetrievalService.retrieve_sections
      cfg idx2 page_url query embedding_type top_k score_threshold.
Proof.
  intros Hns. unfold RetrievalService.retrieve_sections,
    PineconeClient.search_sections, PineconeClient.index_query.
  now rewrite Hns.
Qed.

Lemma namespace_of_store_other
      (idx : gmap string (gmap string PineconeClient.Vector))
      page_url sections embedding_type namespace :
  namespace <> PineconeClient.generate_namespace page_url ->
  (RetrievalService.store_sections idx page_url sections embedding_type).1
  !! namespace = idx !! namespace.
Proof.
  intros Hne. rewrite store_sections_spec. cbn [fst].
  destruct sections; [reflexivity|]. now rewrite lookup_insert_ne.
Qed.

(** X17.  Pages do not interfere in the index: storing the sections of a
    page, or deleting its vectors, leaves the namespace of every page
    with another namespace as it was, and so what the section retrieval
    returns for that page and whether it counts as indexed. *)
Theorem other_pages_untouched cfg
        (idx : gmap string (gmap string PineconeClient.Vector))
        page_url other_url sections embedding_type
        query role top_k score_threshold :
  PineconeClient.generate_namespace other_url
  <> PineconeClient.generate_namespace page_url ->
  let stored :=
    (RetrievalService.store_sections idx page_url sections embedding_type).1 in
  let deleted := PineconeClient.delete_page_vectors page_url idx in
  stored !! PineconeClient.generate_namespace other_url
  = idx !! PineconeClient.generate_namespace other_url
  /\ deleted !! PineconeClient.generate_namespace other_url
     = idx !! PineconeClient.generate_namespace other_url
  /\ RetrievalService.retrieve_sections
       cfg stored other_url query role top_k score_threshold
     = RetrievalService.retrieve_sections
         cfg idx other_url query role top_k score_threshold
  /\ RetrievalService.retrieve_sections
       cfg deleted other_url query role top_k score_threshold
     = RetrievalService.retrieve_sections
         cfg idx other_url query role top_k score_threshold
  /\ RetrievalService.check_page_indexed stored other_url
     = RetrievalService.check_page_indexed idx other_url
  /\ RetrievalService.check_page_indexed deleted other_url
     = RetrievalService.check_page_indexed idx other_url.
Proof.
  intros Hne.
  pose proof (namespace_of_store_other idx page_url sections embedding_type
                _ Hne) as Hs.
  assert (Hd : PineconeClient.delete_page_vectors page_url idx
               !! PineconeClient.generate_namespace other_url
               = idx !! PineconeClient.generate_namespace other_url).
  { unfold PineconeClient.delete_page_vectors.
    apply lookup_delete_ne. congruence. }
  split; [exact Hs|]. split; [exact Hd|].
  split; [apply retrieve_sections_ext; unfold PineconeClient.namespace_of;
          now rewrite Hs|].
  split; [apply retrieve_sections_ext; unfold PineconeClient.namespace_of;
          now rewrite Hd|].
  unfold RetrievalService.check_page_indexed,
    PineconeClient.check_page_exists.
  now rewrite Hs, Hd.
Qed.

Lemma sort_desc_nil {A} (key : A -> Q) : Score.sort_desc key [] = [].
Proof. reflexivity. Qed.

Lemma index_query_empty
      (idx : gmap string (gmap string PineconeClient.Vector))
      vector top_k namespace filter :
  PineconeClient.namespace_of idx namespace = ∅ ->
  PineconeClient.index_query idx vector top_k namespace filter = [].
Proof.
  intros Hns. unfold PineconeClient.index_query.
  rewrite Hns, map_to_list_empty. cbn [map List.filter].
  rewrite sort_desc_nil. apply firstn_nil.
Qed.

(** X18.  Deleting the vectors of a page empties it for every reader:
    the page no longer counts as indexed, and the section retrieval and
    the legacy chunk retrieval return nothing for it, whatever the query,
    role, limit and threshold. *)
Theorem delete_page_vectors_effect cfg
        (idx : gmap string (gmap string PineconeClient.Vector))
        page_url query role top_k score_threshold :
  let idx' := PineconeClient.delete_page_vectors page_url idx in
  RetrievalService.check_page_indexed idx' page_url = false
  /\ RetrievalService.retrieve_sections
       cfg idx' page_url query role top_k score_threshold = []
  /\ RetrievalService.retrieve_relevant_chunks
       cfg idx' page_url query top_k score_threshold = [].
Proof.
  assert (Hns : PineconeClient.namespace_of
                  (PineconeClient.delete_page_vectors page_url idx)
                  (PineconeClient.generate_namespace page_url) = ∅).
  { unfold PineconeClient.namespace_of, PineconeClient.delete_page_vectors.
    now rewrite lookup_delete_eq. }
  split.
  - unfold RetrievalService.check_page_indexed,
      PineconeClient.check_page_exists, PineconeClient.delete_page_vectors.
    now rewrite lookup_delete_eq.
  - split.
    + unfold RetrievalService.retrieve_sections,
        PineconeClient.search_sections.
      rewrite index_query_empty by exact Hns. reflexivity.
    + unfold RetrievalService.retrieve_relevant_chunks,
        PineconeClient.search_similar.
      rewrite index_query_empty by exact Hns. reflexivity.
Qed.

(** X19.  Re-indexing leaves no stale record: after [reindex_page] every
    record in the namespace of the page is a vector built from one of
    the sections given, under the source role, so every result of a
    later source retrieval for the page carries the section id and the
    text of one of those sections; the count returned is the number of
    sections. *)
Theorem reindex_page_fresh cfg
        (idx : gmap string (gmap string PineconeClient.Vector))
        page_url sections query top_k score_threshold :
  let idx' := (RetrievalService.reindex_page idx page_url sections).1 in
  (RetrievalService.reindex_page idx page_url sections).2 = length sections
  /\ map_Forall
       (fun _ v => In v (stored_vectors page_url (Str SOURCE) sections))
       (PineconeClient.namespace_of
          idx' (PineconeClient.generate_namespace page_url))
  /\ Forall (fun r =>
               exists section,
                 In section sections
                 /\ Result.section_id r = SectionDict.section_id section
                 /\ Result.text r = SectionDict.text section)
            (RetrievalService.retrieve_sections
               cfg idx' page_url query SOURCE top_k score_threshold).
Proof.
  unfold RetrievalService.reindex_page. rewrite store_sections_spec.
  cbn [fst snd]. split; [reflexivity|].
  set (ns := PineconeClient.generate_namespace page_url).
  assert (Hold : PineconeClient.namespace_of
                   (PineconeClient.delete_page_vectors page_url idx) ns = ∅).
  { unfold PineconeClient.namespace_of, PineconeClient.delete_page_vectors.
    fold ns. now rewrite lookup_delete_eq. }
  assert (Hall : map_Forall
            (fun _ v => In v (stored_vectors page_url (Str SOURCE) sections))
            (PineconeClient.namespace_of
               match sections with
               | [] => PineconeClient.delete_page_vectors page_url idx
               | _ :: _ =>
                   <[ns := fold_left put
                             (stored_vectors page_url (Str SOURCE) sections)
                             (PineconeClient.namespace_of
                                (PineconeClient.delete_page_vectors
                                   page_url idx) ns)]>
                     (PineconeClient.delete_page_vectors page_url idx)
               end ns)).
  { intros k v Hk. destruct sections as [|s0 rest].
    - rewrite Hold in Hk. now rewrite lookup_empty in Hk.
    - unfold PineconeClient.namespace_of at 1 in Hk.
      rewrite lookup_insert_eq in Hk. cbn [default] in Hk.
      rewrite Hold in Hk.
      apply fold_put_lookup in Hk as [Hk|[Hin _]]; [|exact Hin].
      now rewrite lookup_empty in Hk. }
  split; [exact Hall|].
  apply List.Forall_forall. intros r Hr.
  unfold RetrievalService.retrieve_sections in Hr.
  apply in_sort_desc in Hr.
  apply search_sections_role in Hr as (_ & k & v & Hk & _ & Hsid & Htext).
  apply Hall in Hk. unfold stored_vectors in Hk.
  apply in_map_iff in Hk as (section & <- & Hin).
  exists section. split; [exact Hin|]. split; [exact Hsid|exact Htext].
Qed.

End IndexEffects.

(** Storing the sample section in an empty index, as the source
    embedding node does. *)
Lemma store_sections_effect_witness :
  In sample_section [sample_section]
  /\ @RetrievalService.check_page_indexed md5 plain_embedder
       (@RetrievalService.store_sections python_3_12 md5 plain_embedder
          ∅ sample_url [sample_section] (Member SOURCE)).1 sample_url
     = true.
Proof.
  split; [now left|].
  apply (@store_sections_effect python_3_12 md5 plain_embedder ∅
           sample_url [sample_section] (Member SOURCE) sample_section).
  now left.
Defined.

(** Storing a section of another page beside the sample page. *)
Lemma other_pages_untouched_witness :
  @PineconeClient.generate_namespace md5 sample_url
  <> @PineconeClient.generate_namespace md5 other_url
  /\ @RetrievalService.check_page_indexed md5 plain_embedder
       (@RetrievalService.store_sections python_3_12 md5 plain_embedder
          sample_index other_url [sample_section] (Member SOURCE)).1
       sample_url
     = @RetrievalService.check_page_indexed md5 plain_embedder
         sample_index sample_url.
Proof.
  assert (Hne : @PineconeClient.generate_namespace md5 sample_url
                <> @PineconeClient.generate_namespace md5 other_url)
    by (vm_compute; discriminate).
  split; [exact Hne|].
  apply (@other_pages_untouched python_3_12 md5 plain_embedder settings
           sample_index other_url sample_url [sample_section]
           (Member SOURCE) "install" SOURCE None None Hne).
Defined.

(** ** Failing calls of the store *)

Lemma in_skipn {A} (x : A) n l : In x (skipn n l) -> In x l.
Proof.
  revert l. induction n as [|n IH]; intros [|y l] Hin; cbn in Hin;
    try assumption.
  right. now apply IH.
Qed.

Section AttemptProofs.
Context `{Python} `{Hash} `{Embedder}.

(** A loop over the batches that ends without an exception is the loop
    of [_batch_upsert]. *)
Lemma attempt_batches_completed fault namespace :
  forall batches i (idx : gmap string (gmap string PineconeClient.Vector))
         total idx' n,
  PineconeClient.attempt_batches fault i batches namespace idx total
  = (idx', inr n) ->
  fold_left
    (fun '(idx, total_upserted) batch =>
       (PineconeClient.index_upsert batch namespace idx,
        total_upserted + length batch))
    batches (idx, total)
  = (idx', n).
Proof.
  induction batches as [|batch rest IH]; intros i idx total idx' n Hrun;
    cbn [PineconeClient.attempt_batches fold_left] in Hrun |- *.
  - now injection Hrun as <- <-.
  - destruct (match fault with
              | upsert_raises k e => if k =? i then Some e else None
              | _ => None
              end); [discriminate|].
    now apply IH in Hrun.
Qed.

(** The upsert of batch [k] raises exactly when there is such a batch. *)
Lemma attempt_batches_outcome fault namespace :
  forall fuel vectors i
         (idx : gmap string (gmap string PineconeClient.Vector)) total,
  length vectors <= fuel ->
  (PineconeClient.attempt_batches
     fault i (PineconeClient.batches fuel 100 vectors) namespace idx total).2
  = match fault with
    | upsert_raises k e =>
        if (i <=? k) && (100 * (k - i) <? length vectors)
        then inl e else inr (total + length vectors)
    | _ => inr (total + length vectors)
    end.
Proof.
  induction fuel as [|fuel IH]; intros vectors i idx total Hlen.
  - destruct vectors; [|cbn in Hlen; lia]. cbn.
    destruct fault as [|e|e|k e|e]; try (f_equal; lia).
    rewrite andb_false_r. f_equal. lia.
  - destruct vectors as [|v vs].
    { cbn. destruct fault as [|e|e|k e|e]; try (f_equal; lia).
      rewrite andb_false_r. f_equal. lia. }
    rewrite batches_cons. cbn [PineconeClient.attempt_batches].
    pose proof (firstn_skipn 100 (v :: vs)) as Hsplit.
    apply (f_equal (@length _)) in Hsplit. rewrite length_app in Hsplit.
    assert (Hfirst : length (firstn 100 (v :: vs))
                     = Nat.min 100 (length (v :: vs)))
      by apply length_firstn.
    assert (Hrest : length (skipn 100 (v :: vs)) <= fuel)
      by (cbn [length] in *; lia).
    destruct fault as [|e|e|k e|e];
      try (rewrite (IH _ _ _ _ Hrest); f_equal; lia).
    destruct (Nat.eqb_spec k i) as [->|Hki].
    + cbn [snd]. rewrite Nat.leb_refl, Nat.sub_diag. reflexivity.
    + rewrite (IH _ _ _ _ Hrest).
      destruct (Nat.leb_spec (S i) k), (Nat.leb_spec i k);
        cbn [andb]; try lia; [|f_equal; lia].
      destruct (Nat.ltb_spec (100 * (k - S i))
                             (length (skipn 100 (v :: vs)))),
               (Nat.ltb_spec (100 * (k - i)) (length (v :: vs)));
        try reflexivity; try lia. f_equal. lia.
Qed.

(** Whatever raises, a record of the index after the loop was in the
    index before it or is one of the vectors of the call, placed in the
    namespace of the call. *)
Lemma attempt_batches_records fault namespace :
  forall fuel vectors i
         (idx : gmap string (gmap string PineconeClient.Vector))
         total ns k v,
  PineconeClient.namespace_of
    (PineconeClient.attempt_batches
       fault i (PineconeClient.batches fuel 100 vectors)
       namespace idx total).1 ns !! k = Some v ->
  PineconeClient.namespace_of idx ns !! k = Some v
  \/ (ns = namespace /\ In v vectors).
Proof.
  induction fuel as [|fuel IH]; intros vectors i idx total ns k v Hk.
  - left. exact Hk.
  - destruct vectors as [|v0 vs]; [left; exact Hk|].
    rewrite batches_cons in Hk. cbn [PineconeClient.attempt_batches] in Hk.
    destruct (match fault with
              | upsert_raises j e => if j =? i then Some e else None
              | _ => None
              end); [left; exact Hk|].
    apply IH in Hk as [Hk|[-> Hin]];
      [|right; split; [reflexivity|now apply in_skipn in Hin]].
    assert (Hb : exists vs', firstn 100 (v0 :: vs) = v0 :: vs')
      by (cbn; eauto).
    destruct Hb as [vs' Hb]. rewrite Hb in Hk.
    rewrite index_upsert_cons in Hk. rewrite <- Hb in Hk.
    destruct (decide (ns = namespace)) as [->|Hne].
    + rewrite namespace_of_insert in Hk.
      apply fold_put_lookup in Hk as [Hk|[Hin _]]; [now left|].
      right. split; [reflexivity|]. now apply in_firstn in Hin.
    + left. unfold PineconeClient.namespace_of in Hk |- *.
      now rewrite lookup_insert_ne in Hk by congruence.
Qed.

(** Whatever raises, the other namespaces are left as they were. *)
Lemma attempt_batches_other fault namespace :
  forall batches i
         (idx : gmap string (gmap string PineconeClient.Vector)) total ns,
  ns <> namespace ->
  (PineconeClient.attempt_batches fault i batches namespace idx total).1
  !! ns = idx !! ns.
Proof.
  induction batches as [|batch rest IH]; intros i idx total ns Hne;
    cbn [PineconeClient.attempt_batches]; [reflexivity|].
  destruct (match fault with
            | upsert_raises j e => if j =? i then Some e else None
            | _ => None
            end); [reflexivity|].
  rewrite IH by exact Hne. unfold PineconeClient.index_upsert.
  destruct (Splitter.is_nil batch); [reflexivity|].
  now rewrite lookup_insert_ne by congruence.
Qed.

(** The vectors that [upsert_sections] builds for [store_sections]. *)
Lemma upsert_vectors page_url embedding_type sections :
  map (fun '(section, embedding) =>
         PineconeClient.section_vector
           page_url embedding_type section embedding)
      (combine sections
         (map embed_passage
            (RetrievalService.texts_to_embed embedding_type sections)))
  = stored_vectors page_url embedding_type sections.
Proof.
  unfold stored_vectors, RetrievalService.texts_to_embed, embedded_text.
  destruct (role_of embedding_type);
    rewrite map_map, map_combine_map; reflexivity.
Qed.

(** A store inside a [try] that ends without an exception is a store
    that returns. *)
Lemma attempt_store_sections_completed fault
      (idx : gmap string (gmap string PineconeClient.Vector))
      page_url sections embedding_type idx' n :
  RetrievalService.attempt_store_sections
    fault idx page_url sections embedding_type = (idx', inr n) ->
  RetrievalService.store_sections idx page_url sections embedding_type
  = (idx', n).
Proof.
  unfold RetrievalService.attempt_store_sections,
    RetrievalService.store_sections.
  destruct (Splitter.is_nil sections); [intros [= <- <-]; reflexivity|].
  unfold PineconeClient.attempt_upsert_sections,
    PineconeClient.upsert_sections, PineconeClient._batch_upsert.
  destruct fault as [|e|e|k e|e]; try discriminate;
    apply attempt_batches_completed.
Qed.

(** It ends with an exception exactly when a remote call of the store
    raises, and then with the text of that exception. *)
Lemma attempt_store_sections_outcome fault
      (idx : gmap string (gmap string PineconeClient.Vector))
      page_url sections embedding_type :
  (RetrievalService.attempt_store_sections
     fault idx page_url sections embedding_type).2
  = if store_raises fault (length sections)
    then inl (fault_text fault) else inr (length sections).
Proof.
  unfold RetrievalService.attempt_store_sections.
  destruct sections as [|s0 rest];
    [now destruct fault as [|e|e|k e|e]; cbn; rewrite ?Nat.ltb_irrefl,
       ?Nat.mul_0_r; try destruct (100 * k <? 0) eqn:Hk;
       try reflexivity; apply Nat.ltb_lt in Hk; lia|].
  cbn [Splitter.is_nil]. unfold PineconeClient.attempt_upsert_sections.
  rewrite upsert_vectors.
  assert (Hlen : length (stored_vectors page_url embedding_type (s0 :: rest))
                 = length (s0 :: rest))
    by (unfold stored_vectors; apply length_map).
  destruct fault as [|e|e|k e|e]; try reflexivity;
    rewrite attempt_batches_outcome by lia; rewrite Hlen;
    try reflexivity.
  cbn [store_raises fault_text Nat.leb andb]. rewrite Nat.sub_0_r.
  reflexivity.
Qed.

(** Whatever raises, a record of the index after a store was in the
    index before it or is the vector of one of the sections of the
    call, in the namespace of the page. *)
Lemma attempt_store_sections_records fault
      (idx : gmap string (gmap string PineconeClient.Vector))
      page_url sections embedding_type ns k v :
  PineconeClient.namespace_of
    (RetrievalService.attempt_store_sections
       fault idx page_url sections embedding_type).1 ns !! k = Some v ->
  PineconeClient.namespace_of idx ns !! k = Some v
  \/ (ns = PineconeClient.generate_namespace page_url
      /\ In v (stored_vectors page_url embedding_type sections)).
Proof.
  unfold RetrievalService.attempt_store_sections.
  destruct (Splitter.is_nil sections); [now left|].
  unfold PineconeClient.attempt_upsert_sections. rewrite upsert_vectors.
  destruct fault as [|e|e|j e|e]; try (now left);
    apply attempt_batches_records.
Qed.

Lemma attempt_store_sections_other fault
      (idx : gmap string (gmap string PineconeClient.Vector))
      page_url sections embedding_type ns :
  ns <> PineconeClient.generate_namespace page_url ->
  (RetrievalService.attempt_store_sections
     fault idx page_url sections embedding_type).1 !! ns = idx !! ns.
Proof.
  intros Hne. unfold RetrievalService.attempt_store_sections.
  destruct (Splitter.is_nil sections); [reflexivity|].
  unfold PineconeClient.attempt_upsert_sections.
  destruct fault as [|e|e|j e|e]; try reflexivity;
    now apply attempt_batches_other.
Qed.

End AttemptProofs.

(** ** Link-following fallback: scoring and crawling *)

Lemma StronglySorted_weaken {A} (R R' : A -> A -> Prop) (l : list A) :
  (forall a b, R a b -> R' a b) -> StronglySorted R l -> StronglySorted R' l.
Proof.
  intros HR. induction 1 as [|a l Hs IH Ha]; constructor; [exact IH|].
  eapply Forall_impl; [exact Ha|]. exact (HR a).
Qed.

Lemma length_omap_le {A B} (f : A -> option B) (l : list A) :
  length (omap f l) <= length l.
Proof.
  induction l as [|x l IH]; cbn; [lia|]. destruct (f x); cbn; lia.
Qed.

Lemma link_score_no_words link :
  LinkCrawler.link_score ∅ link = 0.
Proof.
  unfold LinkCrawler.link_score. cbv zeta.
  assert (He : forall X : gset string, (∅ : gset string) ∩ X = ∅)
    by (intros X; apply (left_absorb_L _ _)).
  now rewrite !He, size_empty.
Qed.

Lemma in_score_links (links : list Link.t) (query : string) l :
  In l (LinkCrawler.score_links_for_query links query)
  <-> In (ScoredLink.link l) links
      /\ ScoredLink.relevance_score l
         = LinkCrawler.link_score (LinkCrawler.words query)
                                  (ScoredLink.link l)
      /\ 0 < ScoredLink.relevance_score l.
Proof.
  unfold LinkCrawler.score_links_for_query. cbv zeta.
  rewrite in_sort_desc, <- list_elem_of_In, list_elem_of_omap. split.
  - intros (link & Hin & Hf). apply list_elem_of_In in Hin.
    destruct (Nat.ltb_spec 0 (LinkCrawler.link_score
                                (LinkCrawler.words query) link));
      [|discriminate]. injection Hf as <-. cbn. auto.
  - intros (Hin & Hscore & Hpos). exists (ScoredLink.link l).
    split; [now apply list_elem_of_In|]. rewrite <- Hscore.
    destruct (Nat.ltb_spec 0 (ScoredLink.relevance_score l)); [|lia].
    now destruct l.
Qed.

Lemma score_links_no_words (links : list Link.t) (query : string) :
  Py.split_ws (Py.lower query) = [] ->
  LinkCrawler.score_links_for_query links query = [].
Proof.
  intros Hno. unfold LinkCrawler.score_links_for_query. cbv zeta.
  assert (Hw : LinkCrawler.words query = ∅)
    by (unfold LinkCrawler.words; rewrite Hno; reflexivity).
  rewrite Hw.
  assert (Hnil : forall l : list Link.t,
            omap (fun link =>
                    if 0 <? LinkCrawler.link_score ∅ link
                    then Some (ScoredLink.mk link
                                 (LinkCrawler.link_score ∅ link))
                    else None) l = []).
  { induction l as [|link l IH]; [reflexivity|].
    cbn [omap list_omap]. rewrite link_score_no_words.
    cbn [Nat.ltb Nat.leb]. exact IH. }
  rewrite Hnil. reflexivity.
Qed.

(** X20.  What link scoring returns: only links of its input, each with
    its score, which is positive; every input link with a positive
    score; best score first; and nothing at all for a query without a
    word. *)
Theorem score_links_for_query_sound (links : list Link.t) (query : string) :
  let scored := LinkCrawler.score_links_for_query links query in
  StronglySorted
    (fun a b => ScoredLink.relevance_score b <= ScoredLink.relevance_score a)
    scored
  /\ Forall (fun l =>
               In (ScoredLink.link l) links
               /\ ScoredLink.relevance_score l
                  = LinkCrawler.link_score (LinkCrawler.words query)
                                           (ScoredLink.link l)
               /\ 0 < ScoredLink.relevance_score l)
            scored
  /\ (forall link,
        In link links ->
        0 < LinkCrawler.link_score (LinkCrawler.words query) link ->
        In (ScoredLink.mk link
              (LinkCrawler.link_score (LinkCrawler.words query) link))
           scored)
  /\ length scored <= length links
  /\ (Py.split_ws (Py.lower query) = [] -> scored = []).
Proof.
  cbv zeta. split.
  { unfold LinkCrawler.score_links_for_query.
    eapply StronglySorted_weaken; [|apply sort_desc_sorted].
    cbn beta. intros a b Hab. rewrite <- Zle_Qle in Hab. lia. }
  split.
  { apply List.Forall_forall. intros l Hl. now apply in_score_links. }
  split.
  { intros link Hin Hpos. apply in_score_links. cbn. auto. }
  split.
  { unfold LinkCrawler.score_links_for_query.
    rewrite (Permutation_length (sort_desc_Permutation _ _)).
    apply length_omap_le. }
  apply score_links_no_words.
Qed.

Section CrawlProofs.
Context `{Web}.

(** X21.  The crawl is bounded and selective: it fetches at most
    [max_pages] URLs, each the URL of a link extracted from the page that
    scores above zero for the query, and returns at most one page per
    URL fetched, each the page the fetch gave for one of those URLs; for
    a query without a word it fetches nothing; and on a page without a
    Markdown link every URL fetched has the network location of the base
    URL. *)
Theorem crawl_relevant_pages_bounded (max_pages : nat)
        (page_text base_url query : string) :
  let targets :=
    LinkCrawler.crawl_targets max_pages page_text base_url query in
  let pages :=
    LinkCrawler.crawl_relevant_pages max_pages page_text base_url query in
  length targets <= max_pages
  /\ length pages <= length targets
  /\ Forall (fun url =>
               exists link,
                 In link (LinkCrawler.extract_links page_text base_url)
                 /\ Link.url link = url
                 /\ 0 < LinkCrawler.link_score (LinkCrawler.words query) link)
            targets
  /\ Forall (fun page =>
               exists url, In url targets
                           /\ fetch_page_content url = Some page)
            pages
  /\ (Py.split_ws (Py.lower query) = [] -> targets = [] /\ pages = [])
  /\ (LinkCrawler.md_link_finditer page_text 0 0 = [] ->
      Forall (fun url => netloc url = netloc base_url) targets).
Proof.
  cbv zeta.
  assert (Htargets :
            Forall (fun url =>
               exists link,
                 In link (LinkCrawler.extract_links page_text base_url)
                 /\ Link.url link = url
                 /\ 0 < LinkCrawler.link_score (LinkCrawler.words query) link)
              (LinkCrawler.crawl_targets max_pages page_text base_url query)).
  { unfold LinkCrawler.crawl_targets. apply List.Forall_forall.
    intros url Hurl. apply in_map_iff in Hurl as (l & <- & Hl).
    apply in_firstn in Hl.
    apply in_score_links in Hl as (Hin & Hscore & Hpos).
    exists (ScoredLink.link l). rewrite <- Hscore. auto. }
  split.
  { unfold LinkCrawler.crawl_targets. rewrite length_map.
    apply firstn_le_length. }
  split; [apply length_omap_le|].
  split; [exact Htargets|].
  split.
  { apply List.Forall_forall. intros page Hpage.
    apply list_elem_of_In, list_elem_of_omap in Hpage as (url & Hin & Hf).
    exists url. split; [now apply list_elem_of_In|exact Hf]. }
  split.
  { intros Hq. unfold LinkCrawler.crawl_relevant_pages,
      LinkCrawler.crawl_targets.
    rewrite (score_links_no_words _ _ Hq), firstn_nil. split; reflexivity. }
  intros Hmd. apply List.Forall_forall. intros url Hurl.
  rewrite List.Forall_forall in Htargets.
  destruct (Htargets url Hurl) as (link & Hin & <- & _).
  unfold LinkCrawler.extract_links in Hin. rewrite Hmd in Hin.
  cbn [LinkCrawler.md_links] in Hin.
  pose proof (html_links_same_origin base_url (find_all_a page_text) []
                (List.Forall_nil _)) as Hsame.
  rewrite List.Forall_forall in Hsame. exact (Hsame link Hin).
Qed.

End CrawlProofs.

(** ** The summarisation graph *)

Ltac state_simpl :=
  unfold state_kept;
  cbn [fst snd AgentState.page_url AgentState.page_title
       AgentState.page_text AgentState.page_type AgentState.sections
       AgentState.current_section_index AgentState.section_summaries
       AgentState.page_summary AgentState.final_summary
       AgentState.embeddings_saved AgentState.summary_embeddings_saved
       AgentState.user_query AgentState.retrieved_sections
       AgentState.followup_response AgentState.current_status
       AgentState.error AgentState.set_sections
       AgentState.set_current_section_index
       AgentState.set_section_summaries AgentState.set_page_summary
       AgentState.set_final_summary AgentState.set_embeddings_saved
       AgentState.set_summary_embeddings_saved AgentState.set_user_query
       AgentState.set_retrieved_sections AgentState.set_followup_response
       AgentState.set_current_status AgentState.set_error set_page_type].

Lemma state_kept_refl state log : state_kept state state log log.
Proof.
  repeat split. exists []. now rewrite app_nil_r.
Qed.

Lemma state_kept_trans s1 s2 s3 l1 l2 l3 :
  state_kept s1 s2 l1 l2 -> state_kept s2 s3 l2 l3 -> state_kept s1 s3 l1 l3.
Proof.
  intros (Hu & Ht & Hx & Hi & Hr & Hh & He & m1 & Hl)
         (Hu' & Ht' & Hx' & Hi' & Hr' & Hh' & He' & m2 & Hl').
  repeat split; try congruence.
  exists (m1 ++ m2). now rewrite Hl', Hl, app_assoc.
Qed.

Lemma summarize_section_log cfg section pt llm log :
  exists more, (summarize_section cfg section pt llm log).2 = log ++ more.
Proof.
  unfold summarize_section. destruct (SectionData.is_large section).
  - destruct (large_section_trace cfg section pt llm log)
      as [(facts & _ & Hlog)|(k & _ & Hlog)]; rewrite Hlog; eauto.
  - rewrite (small_section_trace section pt llm log). eauto.
Qed.

Lemma process_section_node_kept cfg state llm log :
  state_kept state (process_section_node cfg state llm log).1
             log (process_section_node cfg state llm log).2.
Proof.
  destruct (AgentState.sections state
            !! AgentState.current_section_index state) as [section|] eqn:Hsec.
  - pose proof (process_section_node_log cfg state llm log section Hsec)
      as Hlog.
    destruct (summarize_section_log cfg section (AgentState.page_type state)
                                    llm log) as (more & Hmore).
    rewrite Hmore in Hlog. revert Hlog.
    unfold process_section_node. rewrite Hsec.
    destruct (summarize_section cfg section _ llm log) as [[summary|] log'];
      cbn [fst snd]; intros ->.
    + state_simpl. do 3 (split; [reflexivity|]).
      do 3 (split; [rewrite list_fmap_insert; cbn; apply list_insert_id;
                    now rewrite list_lookup_fmap, Hsec|]).
      split; [reflexivity|eauto].
    + state_simpl. repeat split; eauto.
  - rewrite process_section_node_done by exact Hsec. cbn [fst snd].
    repeat split. exists []. now rewrite app_nil_r.
Qed.

Lemma section_loop_kept cfg llm : forall k state runs log state' runs' log',
  section_loop cfg k state runs llm log = Some (state', runs', log') ->
  state_kept state state' log log'.
Proof.
  induction k as [|k IH]; intros state runs log state' runs' log' Hloop;
    [discriminate|].
  cbn [section_loop] in Hloop.
  pose proof (process_section_node_kept cfg state llm log) as Hstep.
  destruct (process_section_node cfg state llm log) as [s1 l1].
  cbn [fst snd] in Hstep.
  destruct (String.eqb (should_continue_processing s1) "continue").
  - eapply state_kept_trans; [exact Hstep|]. eapply IH, Hloop.
  - injection Hloop as <- _ <-. exact Hstep.
Qed.

Lemma classify_page_node_kept state llm log :
  state_kept state (classify_page_node state llm log).1
             log (classify_page_node state llm log).2
  /\ AgentState.section_summaries (classify_page_node state llm log).1
     = AgentState.section_summaries state
  /\ (classify_page_node state llm log).2
     = log ++ [classification_request state].
Proof.
  unfold classify_page_node, generate.
  destruct (llm log (classification_request state));
    cbn [fst snd]; repeat split; eauto.
Qed.

Lemma synthesize_page_node_kept state llm log :
  state_kept state (synthesize_page_node state llm log).1
             log (synthesize_page_node state llm log).2
  /\ AgentState.section_summaries (synthesize_page_node state llm log).1
     = AgentState.section_summaries state
  /\ AgentState.current_section_index (synthesize_page_node state llm log).1
     = AgentState.current_section_index state
  /\ AgentState.embeddings_saved (synthesize_page_node state llm log).1
     = AgentState.embeddings_saved state.
Proof.
  unfold synthesize_page_node.
  destruct (Splitter.is_nil _);
    [cbn [fst snd]; repeat split; exists []; now rewrite app_nil_r|].
  destruct (length _ =? 1);
    [cbn [fst snd]; repeat split; exists []; now rewrite app_nil_r|].
  unfold generate. destruct (llm log (synthesis_request state));
    cbn [fst snd]; repeat split; eauto.
Qed.

Section GraphProofs.
Context `{Python} `{Hash} `{Embedder}.

Lemma length_sections_for_embedding sections :
  length (sections_for_embedding sections) = length sections.
Proof. apply length_map. Qed.

(** The check of the source embedding raises exactly when the
    statistics of the index do. *)
Lemma attempt_check_page_indexed_cases fault
      (idx : gmap string (gmap string PineconeClient.Vector)) page_url :
  (exists e, fault = stats_raises e
             /\ RetrievalService.attempt_check_page_indexed
                  fault idx page_url = inl e)
  \/ ((forall e, fault <> stats_raises e)
      /\ RetrievalService.attempt_check_page_indexed fault idx page_url
         = inr (RetrievalService.check_page_indexed idx page_url)).
Proof.
  destruct fault as [|e|e|k e|e]; cbn;
    try (right; split; [intros e'; discriminate|reflexivity]).
  left. exists e. auto.
Qed.

Lemma source_embedding_raises_other fault
      (idx : gmap string (gmap string PineconeClient.Vector)) page_url n :
  (forall e, fault <> stats_raises e) ->
  source_embedding_raises fault idx page_url n
  = negb (RetrievalService.check_page_indexed idx page_url)
    && store_raises fault n.
Proof.
  intros Hf. destruct fault as [|e|e|k e|e]; try reflexivity.
  now destruct (Hf e).
Qed.

(** What the source embedding keeps of a state, and when it marks the
    embeddings as saved. *)
Lemma embed_section_source_node_kept fault state
      (idx : gmap string (gmap string PineconeClient.Vector)) log :
  state_kept state (embed_section_source_node fault state idx).1 log log
  /\ AgentState.section_summaries
       (embed_section_source_node fault state idx).1
     = AgentState.section_summaries state
  /\ AgentState.current_section_index
       (embed_section_source_node fault state idx).1
     = AgentState.current_section_index state
  /\ AgentState.page_summary (embed_section_source_node fault state idx).1
     = AgentState.page_summary state
  /\ AgentState.embeddings_saved
       (embed_section_source_node fault state idx).1
     = negb (source_embedding_raises
               fault idx (AgentState.page_url state)
               (length (AgentState.sections state))).
Proof.
  unfold embed_section_source_node.
  destruct (attempt_check_page_indexed_cases
              fault idx (AgentState.page_url state))
    as [(e & -> & ->)|[Hf ->]].
  { state_simpl. repeat split. exists []. now rewrite app_nil_r. }
  rewrite (source_embedding_raises_other _ _ _ _ Hf).
  destruct (RetrievalService.check_page_indexed idx _).
  { state_simpl. repeat split. exists []. now rewrite app_nil_r. }
  pose proof (attempt_store_sections_outcome
                fault idx (AgentState.page_url state)
                (sections_for_embedding (AgentState.sections state))
                (Member SOURCE)) as Hout.
  rewrite length_sections_for_embedding in Hout.
  destruct (RetrievalService.attempt_store_sections _ _ _ _ _)
    as [idx' [e|n]]; cbn [snd] in Hout;
    destruct (store_raises fault _); try discriminate Hout.
  - state_simpl. repeat split. exists []. now rewrite app_nil_r.
  - state_simpl. split; [|repeat split].
    do 3 (split; [reflexivity|]).
    do 3 (split; [rewrite map_map; reflexivity|]).
    split; [reflexivity|]. exists []. now rewrite app_nil_r.
Qed.

(** A source embedding that raises leaves the sections as they were,
    not marked as embedded, under the status of the handler. *)
Lemma embed_section_source_node_skipped fault state
      (idx : gmap string (gmap string PineconeClient.Vector)) :
  source_embedding_raises fault idx (AgentState.page_url state)
                          (length (AgentState.sections state)) = true ->
  AgentState.sections (embed_section_source_node fault state idx).1
  = AgentState.sections state
  /\ AgentState.current_status
       (embed_section_source_node fault state idx).1
     = "embedding skipped (error)".
Proof.
  unfold embed_section_source_node.
  destruct (attempt_check_page_indexed_cases
              fault idx (AgentState.page_url state))
    as [(e & -> & ->)|[Hf ->]]; [now state_simpl|].
  rewrite (source_embedding_raises_other _ _ _ _ Hf).
  destruct (RetrievalService.check_page_indexed idx _); [discriminate|].
  cbn [negb andb].
  pose proof (attempt_store_sections_outcome
                fault idx (AgentState.page_url state)
                (sections_for_embedding (AgentState.sections state))
                (Member SOURCE)) as Hout.
  rewrite length_sections_for_embedding in Hout.
  intros Hraises. rewrite Hraises in Hout.
  destruct (RetrievalService.attempt_store_sections _ _ _ _ _)
    as [idx' [e|n]]; cbn [snd] in Hout; [now state_simpl|discriminate].
Qed.

Lemma run_graph_END cfg llm fault fuel (r : Run) steps :
  run_graph cfg llm fault fuel END r steps = Some (r, steps).
Proof. now destruct fuel. Qed.

Lemma run_graph_loop cfg llm fault
      (idx : gmap string (gmap string PineconeClient.Vector)) :
  forall k state runs log state' runs' log',
  section_loop cfg k state runs llm log = Some (state', runs', log') ->
  exists d,
    runs' = runs + S d
    /\ forall fuel steps,
         run_graph cfg llm fault (S (d + fuel)) process_section
                   (mkRun state idx log) steps
         = run_graph cfg llm fault fuel embed_source
                     (mkRun state' idx log') (steps + S d).
Proof.
  induction k as [|k IH]; intros state runs log state' runs' log' Hloop;
    [discriminate|].
  cbn [section_loop] in Hloop.
  destruct (process_section_node cfg state llm log) as [s1 l1] eqn:Hp.
  destruct (String.eqb (should_continue_processing s1) "continue") eqn:Hc.
  - destruct (IH _ _ _ _ _ _ Hloop) as (d & -> & Hrun).
    exists (S d). split; [lia|]. intros fuel steps.
    cbn [run_graph graph_step run_state run_log run_index].
    rewrite Hp, Hc. change (S d + fuel) with (S (d + fuel)).
    rewrite (Hrun fuel (S steps)).
    replace (S steps + S d) with (steps + S (S d)) by lia. reflexivity.
  - injection Hloop as <- <- <-. exists 0. split; [lia|].
    intros fuel steps.
    cbn [run_graph graph_step run_state run_log run_index].
    rewrite Hp, Hc. cbn [Nat.add].
    replace (S steps) with (steps + 1) by lia. reflexivity.
Qed.

(** The loop from the first section, whatever the number of sections. *)
Lemma section_loop_total cfg llm state log :
  AgentState.current_section_index state = 0 ->
  exists state' log',
    section_loop cfg (Nat.max (length (AgentState.sections state)) 1)
                 state 0 llm log
    = Some (state', Nat.max (length (AgentState.sections state)) 1, log')
    /\ AgentState.current_section_index state'
       = length (AgentState.sections state)
    /\ forall s, In s (AgentState.sections state) ->
         is_Some (Dict.get (SectionData.section_id s)
                           (AgentState.section_summaries state')).
Proof.
  intros Hzero.
  destruct (AgentState.sections state) as [|s0 rest] eqn:Hsecs.
  - eexists _, log. cbn [length Nat.max section_loop].
    rewrite process_section_node_done by now rewrite Hsecs, Hzero.
    rewrite should_continue_spec. state_simpl. rewrite Hzero, Hsecs.
    cbn [length Nat.ltb Nat.leb String.eqb].
    split; [reflexivity|]. split; [exact Hzero|]. intros s [].
  - destruct (section_loop_run cfg llm (length rest) state 0 log)
      as (state' & log' & Hrun & Hend & _ & _ & Hall).
    { rewrite Hzero, Hsecs. reflexivity. }
    exists state', log'. rewrite Hsecs in Hend, Hall.
    replace (Nat.max (length (s0 :: rest)) 1) with (S (length rest))
      by (cbn [length]; lia).
    split; [apply Hrun; lia|]. split; [exact Hend|].
    intros s Hin. apply list_elem_of_In, list_elem_of_lookup in Hin as (j & Hj).
    apply (Hall j s); [lia|exact Hj].
Qed.

Lemma check_false_empty
      (idx : gmap string (gmap string PineconeClient.Vector)) page_url :
  RetrievalService.check_page_indexed idx page_url = false ->
  PineconeClient.namespace_of
    idx (PineconeClient.generate_namespace page_url) = ∅.
Proof.
  unfold RetrievalService.check_page_indexed,
    PineconeClient.check_page_exists, PineconeClient.namespace_of.
  destruct (idx !! _) as [m|]; [|reflexivity]. cbn [default].
  intros Hsz. apply Nat.ltb_ge in Hsz. apply map_size_empty_iff.
  unfold id. lia.
Qed.

(** The index after a source embedding of which no remote call
    raised. *)
Lemma embed_section_source_node_index fault state
      (idx : gmap string (gmap string PineconeClient.Vector)) :
  source_embedding_raises fault idx (AgentState.page_url state)
                          (length (AgentState.sections state)) = false ->
  (embed_section_source_node fault state idx).2
  = if RetrievalService.check_page_indexed idx (AgentState.page_url state)
    then idx
    else (RetrievalService.store_sections
            idx (AgentState.page_url state)
            (sections_for_embedding (AgentState.sections state))
            (Member SOURCE)).1.
Proof.
  unfold embed_section_source_node.
  destruct (attempt_check_page_indexed_cases
              fault idx (AgentState.page_url state))
    as [(e & -> & ->)|[Hf ->]]; [discriminate|].
  rewrite (source_embedding_raises_other _ _ _ _ Hf).
  destruct (RetrievalService.check_page_indexed idx _); [reflexivity|].
  cbn [negb andb].
  pose proof (attempt_store_sections_outcome
                fault idx (AgentState.page_url state)
                (sections_for_embedding (AgentState.sections state))
                (Member SOURCE)) as Hout.
  rewrite length_sections_for_embedding in Hout.
  intros Hraises. rewrite Hraises in Hout.
  destruct (RetrievalService.attempt_store_sections _ _ _ _ _)
    as [idx' [e|n]] eqn:Hstore; cbn [snd] in Hout; [discriminate|].
  apply attempt_store_sections_completed in Hstore.
  now rewrite Hstore.
Qed.

(** Whatever raises, the source embedding leaves the other namespaces
    as they were, and a page that is in the index as it is. *)
Lemma embed_section_source_node_other fault state
      (idx : gmap string (gmap string PineconeClient.Vector)) ns :
  ns <> PineconeClient.generate_namespace (AgentState.page_url state) ->
  (embed_section_source_node fault state idx).2 !! ns = idx !! ns.
Proof.
  intros Hne. unfold embed_section_source_node.
  destruct (RetrievalService.attempt_check_page_indexed fault idx _)
    as [e|[|]]; try reflexivity.
  pose proof (attempt_store_sections_other
                fault idx (AgentState.page_url state)
                (sections_for_embedding (AgentState.sections state))
                (Member SOURCE) ns Hne) as Hother.
  now destruct (RetrievalService.attempt_store_sections _ _ _ _ _)
    as [idx' [e|n]].
Qed.

Lemma embed_section_source_node_indexed fault state
      (idx : gmap string (gmap string PineconeClient.Vector)) :
  RetrievalService.check_page_indexed idx (AgentState.page_url state)
  = true ->
  (embed_section_source_node fault state idx).2 = idx.
Proof.
  intros Hyes. unfold embed_section_source_node.
  destruct (attempt_check_page_indexed_cases
              fault idx (AgentState.page_url state))
    as [(e & -> & ->)|[Hf ->]]; [reflexivity|]. now rewrite Hyes.
Qed.

(** Whatever raises, a record of the index after the source embedding
    was in the index before it or is the source vector of one of the
    sections of the state, in the namespace of the page. *)
Lemma embed_section_source_node_records fault state
      (idx : gmap string (gmap string PineconeClient.Vector)) ns k v :
  PineconeClient.namespace_of
    (embed_section_source_node fault state idx).2 ns !! k = Some v ->
  PineconeClient.namespace_of idx ns !! k = Some v
  \/ (ns = PineconeClient.generate_namespace (AgentState.page_url state)
      /\ In v (stored_vectors
                 (AgentState.page_url state) (Member SOURCE)
                 (sections_for_embedding (AgentState.sections state)))).
Proof.
  unfold embed_section_source_node.
  destruct (RetrievalService.attempt_check_page_indexed fault idx _)
    as [e|[|]]; try (now left).
  pose proof (attempt_store_sections_records
                fault idx (AgentState.page_url state)
                (sections_for_embedding (AgentState.sections state))
                (Member SOURCE) ns k v) as Hrec.
  now destruct (RetrievalService.attempt_store_sections _ _ _ _ _)
    as [idx' [e|n]].
Qed.

Lemma lookup_two_maps {A B C D} (f : A -> C) (g : A -> D)
      (f' : B -> C) (g' : B -> D) (l : list A) (l' : list B) a :
  map f l = map f' l' -> map g l = map g' l' -> In a l ->
  exists b, In b l' /\ f a = f' b /\ g a = g' b.
Proof.
  intros Hf Hg Hin.
  apply list_elem_of_In, list_elem_of_lookup in Hin as (j & Hj).
  assert (Hfj : map f' l' !! j = Some (f a))
    by (rewrite <- Hf, list_lookup_fmap, Hj; reflexivity).
  assert (Hgj : map g' l' !! j = Some (g a))
    by (rewrite <- Hg, list_lookup_fmap, Hj; reflexivity).
  rewrite list_lookup_fmap in Hfj. rewrite list_lookup_fmap in Hgj.
  destruct (l' !! j) as [b|] eqn:Hb; [|discriminate].
  cbn in Hfj, Hgj. exists b.
  split; [apply list_elem_of_In, list_elem_of_lookup; eauto|].
  split; congruence.
Qed.

Lemma summarization_graph_spec cfg llm fault
        (idx : gmap string (gmap string PineconeClient.Vector))
        log page_url page_text page_title :
  let n :=
    length (SectionExtractor.extract_sections cfg page_text page_url) in
  let initial_state :=
    AgentState.create_initial_state page_url page_text page_title in
  exists r,
    (forall fuel,
        4 + Nat.max n 1 <= fuel ->
        run_graph cfg llm fault fuel classify_page
                  (mkRun initial_state idx log) 0
        = Some (r, 4 + Nat.max n 1))
    /\ map SectionData.section_id (AgentState.sections (run_state r))
       = map ExtractedSection.section_id
           (SectionExtractor.extract_sections cfg page_text page_url)
    /\ map SectionData.raw_text (AgentState.sections (run_state r))
       = map ExtractedSection.raw_text
           (SectionExtractor.extract_sections cfg page_text page_url)
    /\ AgentState.current_section_index (run_state r) = n
    /\ Forall (fun s =>
                 is_Some (Dict.get (SectionData.section_id s)
                            (AgentState.section_summaries (run_state r))))
              (AgentState.sections (run_state r))
    /\ AgentState.embeddings_saved (run_state r)
       = negb (source_embedding_raises fault idx page_url n)
    /\ AgentState.page_url (run_state r) = page_url
    /\ AgentState.page_text (run_state r) = page_text
    /\ (exists more,
          run_log r = log ++ classification_request initial_state :: more)
    /\ (forall namespace,
          namespace <> PineconeClient.generate_namespace page_url ->
          run_index r !! namespace = idx !! namespace)
    /\ (RetrievalService.check_page_indexed idx page_url = true ->
        run_index r = idx)
    /\ (RetrievalService.check_page_indexed idx page_url = false ->
        map_Forall
          (fun _ v =>
             exists raw,
               In raw (SectionExtractor.extract_sections
                         cfg page_text page_url)
               /\ Metadata.section_id (PineconeClient.metadata v)
                  = ExtractedSection.section_id raw
               /\ Metadata.section_text (PineconeClient.metadata v)
                  = ExtractedSection.raw_text raw
               /\ Metadata.embedding_type (PineconeClient.metadata v)
                  = SOURCE)
          (PineconeClient.namespace_of
             (run_index r) (PineconeClient.generate_namespace page_url))).
Proof.
  cbv zeta.
  set (initial := AgentState.create_initial_state page_url page_text page_title).
  destruct (classify_page_node_kept initial llm log)
    as ((Hcu & _ & Hct & _) & _ & Hclog).
  destruct (classify_page_node initial llm log) as [sc lc] eqn:Hc.
  cbn [fst snd] in Hcu, Hct, Hclog.
  set (sx := extract_sections_node cfg sc).
  assert (Hsx : AgentState.sections sx
                = map (section_data_of cfg)
                      (SectionExtractor.extract_sections
                         cfg page_text page_url)).
  { subst sx. unfold extract_sections_node. state_simpl.
    now rewrite Hcu, Hct. }
  assert (Hxu : AgentState.page_url sx = page_url)
    by (subst sx; unfold extract_sections_node; state_simpl; exact Hcu).
  assert (Hxt : AgentState.page_text sx = page_text)
    by (subst sx; unfold extract_sections_node; state_simpl; exact Hct).
  assert (Hn : length (AgentState.sections sx)
               = length (SectionExtractor.extract_sections
                           cfg page_text page_url))
    by (rewrite Hsx; apply length_map).
  destruct (section_loop_total cfg llm sx lc) as (sl & ll & Hloop & Hidx & Hall);
    [reflexivity|].
  pose proof (section_loop_kept cfg llm _ _ _ _ _ _ _ Hloop)
    as (Hlu & _ & Hlt & Hlid & Hlraw & _ & _ & ml & Hllog).
  destruct (run_graph_loop cfg llm fault idx _ _ _ _ _ _ _ Hloop)
    as (d & Hd & Hrun).
  assert (Hln : length (AgentState.sections sl)
                = length (SectionExtractor.extract_sections
                            cfg page_text page_url)).
  { rewrite <- Hn, <- (length_map SectionData.section_id), Hlid.
    apply length_map. }
  destruct (embed_section_source_node_kept fault sl idx ll)
    as ((Heu & _ & Het & Heid & Heraw & _) & Hesum & Heidx & _ & Hesaved).
  pose proof (embed_section_source_node_other fault sl idx) as Hother.
  pose proof (embed_section_source_node_indexed fault sl idx) as Hindexed.
  pose proof (embed_section_source_node_records fault sl idx) as Hrecords.
  destruct (embed_section_source_node fault sl idx) as [se idx'] eqn:He.
  cbn [fst snd] in Heu, Het, Heid, Heraw, Hesum, Heidx, Hesaved,
                   Hother, Hindexed, Hrecords.
  rewrite Hlu, Hxu in Hesaved, Hother, Hindexed, Hrecords.
  rewrite Hln in Hesaved.
  destruct (synthesize_page_node_kept se llm ll)
    as ((Hsu & _ & Hst & Hsid & Hsraw & _ & _ & ms & Hslog)
        & Hssum & Hsidx & Hssaved).
  destruct (synthesize_page_node se llm ll) as [sf lf] eqn:Hs.
  cbn [fst snd] in Hsu, Hst, Hsid, Hsraw, Hslog, Hssum, Hsidx, Hssaved.
  exists (mkRun sf idx' lf). cbn [run_state run_log].
  assert (Hids : map SectionData.section_id (AgentState.sections sx)
                 = map ExtractedSection.section_id
                     (SectionExtractor.extract_sections
                        cfg page_text page_url))
    by (rewrite Hsx, map_map; reflexivity).
  assert (Hraw : map SectionData.raw_text (AgentState.sections sx)
                 = map ExtractedSection.raw_text
                     (SectionExtractor.extract_sections
                        cfg page_text page_url))
    by (rewrite Hsx, map_map; reflexivity).
  split.
  { intros fuel Hfuel. rewrite Hn in Hd.
    assert (Hmax : Nat.max (length (SectionExtractor.extract_sections
                                      cfg page_text page_url)) 1 = S d)
      by lia.
    rewrite Hmax in Hfuel |- *.
    destruct fuel as [|[|fuel]]; [lia..|].
    cbn [run_graph graph_step run_state run_log run_index].
    rewrite Hc.
    cbn [run_graph graph_step run_state run_log run_index]. fold sx.
    replace fuel with (S (d + (fuel - S d))) by lia.
    rewrite Hrun.
    destruct (fuel - S d) as [|[|f]] eqn:Hf; [lia..|].
    cbn [run_graph graph_step run_state run_log run_index].
    rewrite He.
    cbn [run_graph graph_step run_state run_log run_index].
    rewrite Hs.
    cbn [run_graph graph_step run_state run_log run_index].
    rewrite run_graph_END. do 2 f_equal. }
  split; [congruence|]. split; [congruence|].
  split; [rewrite Hsidx, Heidx, Hidx; exact Hn|].
  split.
  { apply List.Forall_forall. intros s Hin. rewrite Hssum, Hesum.
    assert (Hsid' : In (SectionData.section_id s)
                       (map SectionData.section_id (AgentState.sections sx)))
      by (rewrite <- Hlid, <- Heid, <- Hsid; now apply in_map).
    apply in_map_iff in Hsid' as (s' & <- & Hin'). now apply Hall. }
  split; [congruence|]. split; [congruence|]. split; [congruence|].
  split; [subst lf ll lc; exists (ml ++ ms); now rewrite <- !app_assoc|].
  cbn [run_index].
  split; [exact Hother|]. split; [exact Hindexed|].
  intros Hno.
  pose proof (check_false_empty idx page_url Hno) as Hempty.
  intros k v Hk.
  destruct (Hrecords _ k v Hk) as [Hold|[_ Hv]];
    [rewrite Hempty in Hold; now rewrite lookup_empty in Hold|].
  unfold stored_vectors, sections_for_embedding in Hv.
  rewrite map_map in Hv.
  apply in_map_iff in Hv as (section & <- & Hin).
  destruct (lookup_two_maps SectionData.section_id SectionData.raw_text
              ExtractedSection.section_id ExtractedSection.raw_text
              (AgentState.sections sl)
              (SectionExtractor.extract_sections cfg page_text page_url)
              section)
    as (raw & Hraw_in & Hid_eq & Htext_eq);
    [congruence | congruence | exact Hin |].
  exists raw. cbn. auto.
Qed.


End GraphProofs.

(** ** The agent: summary, cache and follow-up *)

Section AgentProofs.
Context `{Python} `{Hash} `{Embedder}.

Lemma run_graph_mono cfg llm fault : forall fuel node (r : Run) steps res,
  run_graph cfg llm fault fuel node r steps = Some res ->
  forall fuel', fuel <= fuel' ->
    run_graph cfg llm fault fuel' node r steps = Some res.
Proof.
  induction fuel as [|fuel IH]; intros node r steps res Hrun fuel' Hle.
  - destruct node; try discriminate Hrun.
    now rewrite run_graph_END in Hrun |- *.
  - destruct node;
      try (destruct fuel' as [|fuel']; [lia|];
           cbn [run_graph] in Hrun |- *;
           destruct (graph_step cfg llm fault _ r) as [node' r'];
           apply (IH _ _ _ _ Hrun); lia).
    now rewrite run_graph_END in Hrun |- *.
Qed.

(** The sections the follow-up node retrieves are the results of its
    retrieval, marked as source. *)
Lemma handle_followup_node_retrieved cfg
      (idx : gmap string (gmap string PineconeClient.Vector))
      fault state llm log rs :
  AgentState.retrieved_sections state = [] ->
  In rs (AgentState.retrieved_sections
           (handle_followup_node cfg idx fault state llm log).1) ->
  exists user_query r,
    AgentState.user_query state = Some user_query
    /\ In r (followup_results cfg idx state user_query)
    /\ rs = RetrievedSection.mk (Result.section_id r) (Result.heading r)
              (Result.text r) (Result.summary_text r) (Result.score r)
              SOURCE.
Proof.
  intros Hnone. unfold handle_followup_node.
  destruct (AgentState.user_query state) as [[|c q]|] eqn:Hq.
  - state_simpl. rewrite Hnone. intros [].
  - set (user_query := String c q).
    destruct (attempt_retrieve_sections_cases
                fault cfg idx (AgentState.page_url state) user_query
                SOURCE None None) as [(e & _ & ->)|[_ ->]].
    { unfold followup_failed. state_simpl. rewrite Hnone. intros []. }
    fold (followup_results cfg idx state user_query).
    destruct (followup_results cfg idx state user_query) as [|r0 rest]
      eqn:Hres; cbn [map Splitter.is_nil].
    + state_simpl. intros [].
    + unfold generate.
      match goal with |- context [answer llm log ?req] =>
        destruct (answer llm log req) as [response|] end.
      * state_simpl. intros Hin.
        change (In rs (map (fun r =>
                  RetrievedSection.mk (Result.section_id r)
                    (Result.heading r) (Result.text r)
                    (Result.summary_text r) (Result.score r) SOURCE)
                  (r0 :: rest))) in Hin.
        apply in_map_iff in Hin as (r & <- & Hin).
        exists user_query, r. split; [reflexivity|].
        split; [rewrite Hres; exact Hin|reflexivity].
      * unfold followup_failed. state_simpl. rewrite Hnone. intros [].
  - state_simpl. rewrite Hnone. intros [].
Qed.

(** X23.  A follow-up after a summary is grounded in the page.  When the
    page was not in the index before, [summarize_page] caches the final
    state, and under it the page counts as indexed exactly when no
    remote call of the source embedding raised.  Whether or not one
    did, and whatever the remote services do during the follow-up,
    every section that a later [handle_followup] for that page
    retrieves is marked as source and carries the id and the text of
    one of the sections extracted from the page, whatever the query and
    the generative service. *)
Theorem followup_after_summary cfg llm fault fuel
        (cache : gmap string AgentState.t)
        (idx : gmap string (gmap string PineconeClient.Vector))
        log page_url page_text page_title final cache' r
        llm' fault' log' query :
  RetrievalService.check_page_indexed idx page_url = false ->
  summarize_page cfg llm fault fuel cache idx log
                 page_url page_text page_title
  = Some (final, cache', r) ->
  let extracted :=
    SectionExtractor.extract_sections cfg page_text page_url in
  let answer :=
    (handle_followup cfg llm' fault' cache' (run_index r) log'
                     page_url query).1 in
  get_cached_state cache' page_url = Some final
  /\ is_page_indexed cache' page_url
     = negb (source_embedding_raises fault idx page_url (length extracted))
  /\ Forall (fun rs =>
               RetrievedSection.embedding_type rs = SOURCE
               /\ exists raw,
                    In raw extracted
                    /\ RetrievedSection.section_id rs
                       = ExtractedSection.section_id raw
                    /\ RetrievedSection.text rs
                       = ExtractedSection.raw_text raw)
            (AgentState.retrieved_sections answer).
Proof.
  intros Hno Hsum. unfold summarize_page in Hsum.
  destruct (run_graph cfg llm fault fuel classify_page _ 0)
    as [[r0 steps]|] eqn:Hrun; [|discriminate].
  injection Hsum as <- <- <-.
  destruct (summarization_graph_spec cfg llm fault idx log page_url
              page_text page_title)
    as (r1 & Hrun1 & _ & _ & _ & _ & Hsaved & Hurl & _ & _ & _ & _ & Hrec).
  set (N := 4 + Nat.max (length (SectionExtractor.extract_sections
                                   cfg page_text page_url)) 1) in *.
  assert (Heq : r0 = r1).
  { pose proof (run_graph_mono _ _ _ _ _ _ _ _ Hrun (Nat.max fuel N)
                  (Nat.le_max_l _ _)) as Hmax.
    rewrite (Hrun1 (Nat.max fuel N) (Nat.le_max_r _ _)) in Hmax.
    now injection Hmax as ->. }
  subst r1. specialize (Hrec Hno). cbv zeta.
  split; [unfold get_cached_state; now rewrite lookup_insert_eq|].
  split; [unfold is_page_indexed; rewrite lookup_insert_eq; exact Hsaved|].
  apply List.Forall_forall. intros rs Hin.
  unfold handle_followup in Hin. rewrite lookup_insert_eq in Hin.
  cbn [default] in Hin.
  apply handle_followup_node_retrieved in Hin as (q & res & _ & Hres & ->);
    [|reflexivity].
  cbn [RetrievedSection.embedding_type RetrievedSection.section_id
       RetrievedSection.text].
  split; [reflexivity|].
  unfold followup_results, RetrievalService.retrieve_sections in Hres.
  apply in_sort_desc in Hres.
  apply search_sections_role in Hres as (_ & k & v & Hk & _ & Hsid & Htext).
  unfold AgentState.create_followup_state in Hk. revert Hk. state_simpl.
  unfold id.
  rewrite Hurl. intros Hk.
  destruct (Hrec k v Hk) as (raw & Hraw & Hid & Htxt & _).
  exists raw. split; [exact Hraw|]. split; congruence.
Qed.

End AgentProofs.

(** The summary of the page with two short sections, from an empty index
    and an empty cache on Python 3.12, when no remote call raises; then
    a follow-up. *)
Lemma followup_after_summary_witness :
  @RetrievalService.check_page_indexed md5 plain_embedder ∅ sample_url
  = false
  /\ exists final cache' r,
       @summarize_page python_3_12 md5 plain_embedder settings
         always_answers no_fault 10
         ∅ ∅ [] sample_url small_page_text "Guide"
       = Some (final, cache', r)
       /\ is_page_indexed cache' sample_url = true.
Proof.
  assert (Hno : @RetrievalService.check_page_indexed md5 plain_embedder
                  ∅ sample_url = false) by reflexivity.
  split; [exact Hno|].
  destruct (@summarize_page python_3_12 md5 plain_embedder settings
              always_answers no_fault 10
              ∅ ∅ [] sample_url small_page_text "Guide")
    as [[[final cache'] r]|] eqn:Hsum;
    [|vm_compute in Hsum; discriminate Hsum].
  exists final, cache', r. split; [reflexivity|].
  destruct (@followup_after_summary python_3_12 md5 plain_embedder settings
              always_answers no_fault 10 ∅ ∅ [] sample_url
              small_page_text "Guide" final cache' r
              always_answers no_fault [] "how do I install" Hno Hsum)
    as (_ & Hindexed & _).
  rewrite Hindexed. unfold source_embedding_raises, store_raises.
  now rewrite andb_false_r.
Defined.

Section ChatIndexProofs.
Context `{Python} `{Hash} `{Embedder}.


End ChatIndexProofs.

(** ** The chat route: retrieval with the link-following fallback *)

Lemma StronglySorted_firstn {A} (R : A -> A -> Prop) n (l : list A) :
  StronglySorted R l -> StronglySorted R (firstn n l).
Proof.
  intros Hs. revert n. induction Hs as [|a l Hs IH Ha]; intros [|n];
    cbn [firstn]; try constructor.
  - apply IH.
  - apply List.Forall_forall. intros x Hx. apply in_firstn in Hx.
    rewrite List.Forall_forall in Ha. now apply Ha.
Qed.

Lemma StronglySorted_map {A B} (R : B -> B -> Prop) (f : A -> B)
      (l : list A) :
  StronglySorted (fun a b => R (f a) (f b)) l -> StronglySorted R (map f l).
Proof.
  induction 1 as [|a l Hs IH Ha]; cbn [map]; constructor; [exact IH|].
  apply List.Forall_forall. intros y Hy.
  apply in_map_iff in Hy as (x & <- & Hx).
  rewrite List.Forall_forall in Ha. now apply Ha.
Qed.

Section ChatProofs.
Context `{Python} `{Hash} `{Embedder} `{Web}.

Lemma index_page_for_chat_log cfg llm fault
      (cache : gmap string AgentState.t)
      (idx : gmap string (gmap string PineconeClient.Vector))
      log page_url page_text page_title :
  run_log (index_page_for_chat cfg llm fault cache idx log
                               page_url page_text page_title).2
  = log ++ [classification_request
              (AgentState.create_initial_state
                 page_url page_text page_title)].
Proof.
  unfold index_page_for_chat.
  destruct (classify_page_node_kept
              (AgentState.create_initial_state page_url page_text page_title)
              llm log) as (_ & _ & Hlog).
  destruct (classify_page_node _ llm log) as [sc lc]. cbn [snd] in Hlog.
  now destruct (embed_section_source_node fault _ idx).
Qed.

Lemma index_crawled_pages_log cfg llm pages : forall indexing
    (cache : gmap string AgentState.t)
    (idx : gmap string (gmap string PineconeClient.Vector)) log,
  exists more,
    (index_crawled_pages cfg llm indexing pages cache idx log).2
    = log ++ more
    /\ length more <= length pages.
Proof.
  induction pages as [|page pages IH]; intros indexing cache idx log;
    cbn [index_crawled_pages].
  - exists []. rewrite app_nil_r. split; [reflexivity|cbn; lia].
  - destruct (Py.truthy (Page.text page)
              && (50 <? String.length (Page.text page))).
    + pose proof (index_page_for_chat_log cfg llm (indexing 0) cache idx log
                    (Page.url page) (Page.text page) (Page.title page))
        as Hlog.
      destruct (index_page_for_chat cfg llm (indexing 0) cache idx log _ _ _)
        as [cache1 r1]. cbn [snd] in Hlog.
      destruct (IH (fun i => indexing (S i)) cache1
                   (run_index r1) (run_log r1))
        as (more & Hmore & Hlen).
      rewrite Hmore, Hlog, <- app_assoc.
      eexists. split; [reflexivity|]. cbn [app length]. lia.
    + destruct (IH (fun i => indexing (S i)) cache idx log)
        as (more & Hmore & Hlen).
      exists more. split; [exact Hmore|]. cbn [length]. lia.
Qed.

Lemma in_retrieve_from_pages cfg
      (idx : gmap string (gmap string PineconeClient.Vector))
      pages search_query c :
  In c (retrieve_from_pages cfg idx pages search_query) ->
  exists page,
    In page pages
    /\ ChatResult.source_url c = Some (Page.url page)
    /\ ChatResult.source_title c = Some (Page.title page)
    /\ In (ChatResult.result c)
          (RetrievalService.retrieve_sections
             cfg idx (Page.url page) search_query SOURCE (Some 3) None).
Proof.
  unfold retrieve_from_pages. intros Hin.
  apply in_flat_map in Hin as (page & Hpage & Hin).
  apply in_map_iff in Hin as (r & <- & Hr).
  exists page. cbn. auto.
Qed.

(** The loop over the crawled pages, when no retrieval raises, collects
    what the retrievals return. *)
Lemma attempt_retrieve_from_pages_completed cfg
      (idx : gmap string (gmap string PineconeClient.Vector))
      search_query : forall pages searching all_retrieved,
  attempt_retrieve_from_pages cfg idx searching pages search_query
  = inr all_retrieved ->
  all_retrieved = retrieve_from_pages cfg idx pages search_query.
Proof.
  induction pages as [|page pages IH]; intros searching all_retrieved Hrun;
    cbn [attempt_retrieve_from_pages] in Hrun.
  - now injection Hrun as <-.
  - destruct (attempt_retrieve_sections_cases
                (searching 0) cfg idx (Page.url page) search_query
                SOURCE (Some 3) None) as [(e & _ & He)|[_ He]];
      rewrite He in Hrun; [discriminate|].
    destruct (attempt_retrieve_from_pages
                cfg idx (fun i => searching (S i)) pages search_query)
      as [e|more] eqn:Hmore; [discriminate|].
    injection Hrun as <-. now rewrite (IH _ _ Hmore).
Qed.

(** X25.  What the chat route answers from, in a run whose first
    retrieval returns, whatever the remote services do while the
    crawled pages are indexed and searched.  It returns at most 5
    sections, best score first, all retrieved under the source role.
    When the page itself has a section for the query (or no page text
    was given), these are the sections of the page, and the cache, the
    index and the request log are left as they were: nothing is crawled.
    Otherwise every section returned comes from the retrieval on a
    page that the crawl fetched, and carries the url and the title of
    that page; the crawl adds at most 3 requests, one classification
    per page indexed. *)
Theorem chat_retrieve_sound cfg llm indexing searching
        (cache : gmap string AgentState.t)
        (idx : gmap string (gmap string PineconeClient.Vector))
        log page_url query topic page_text :
  let search_query :=
    match topic with
    | Some (String c t) => String c t
    | _ => query
    end in
  let own :=
    RetrievalService.retrieve_sections
      cfg idx page_url search_query SOURCE (Some 5) None in
  let out :=
    chat_retrieve cfg llm indexing searching cache idx log
                  page_url query topic page_text in
  length out.1 <= 5
  /\ descending (fun c => Result.score (ChatResult.result c)) out.1
  /\ Forall (fun c =>
               Result.embedding_type (ChatResult.result c) = Some SOURCE)
            out.1
  /\ (exists more, out.2.2 = log ++ more /\ length more <= 3)
  /\ (own <> [] \/ page_text = None \/ page_text = Some EmptyString ->
      out = (map (fun result => ChatResult.mk result None None) own,
             (cache, idx, log)))
  /\ (own = [] ->
      forall text, page_text = Some text ->
      Forall (fun c =>
                exists page,
                  In page (LinkCrawler.crawl_relevant_pages
                             3 text page_url search_query)
                  /\ ChatResult.source_url c = Some (Page.url page)
                  /\ ChatResult.source_title c = Some (Page.title page)
                  /\ In (ChatResult.result c)
                        (RetrievalService.retrieve_sections
                           cfg out.2.1.2 (Page.url page) search_query
                           SOURCE (Some 3) None))
             out.1).
Proof.
  cbv zeta. unfold chat_retrieve.
  set (search_query := match topic with
                       | Some (String c t) => String c t
                       | _ => query
                       end).
  set (key := fun c0 : ChatResult.t => Result.score (ChatResult.result c0)).
  set (plain := fun result => ChatResult.mk result None None).
  pose proof (retrieve_sections_length cfg idx page_url search_query
                SOURCE (Some 5) None) as Hown_len.
  cbn [RetrievalService.top_k_or] in Hown_len.
  assert (Hown_sorted :
            descending Result.score
              (RetrievalService.retrieve_sections
                 cfg idx page_url search_query SOURCE (Some 5) None))
    by apply sort_desc_sorted.
  pose proof (fun r => retrieve_sections_role cfg idx page_url search_query
                         SOURCE (Some 5) None r) as Hown_role.
  remember (RetrievalService.retrieve_sections
              cfg idx page_url search_query SOURCE (Some 5) None) as own
    eqn:Hown.
  assert (Hplain :
            length (map plain own) <= 5
            /\ descending key (map plain own)
            /\ Forall (fun c =>
                         Result.embedding_type (ChatResult.result c)
                         = Some SOURCE)
                      (map plain own)
            /\ exists more : list Request.t,
                 log = log ++ more /\ length more <= 3).
  { split; [now rewrite length_map|].
    split.
    { unfold descending in *. apply StronglySorted_map.
      eapply StronglySorted_weaken; [|exact Hown_sorted]. auto. }
    split.
    { apply List.Forall_forall. intros c Hc.
      apply in_map_iff in Hc as (r & <- & Hr). now apply Hown_role. }
    exists []. rewrite app_nil_r. split; [reflexivity|cbn; lia]. }
  destruct Hplain as (Hp1 & Hp2 & Hp3 & Hp4).
  clear Hown Hown_len Hown_sorted Hown_role.
  destruct own as [|r0 rest].
  - destruct page_text as [[|c text]|].
    + cbn [fst snd]. repeat (split; [assumption|]).
      split; [reflexivity|]. intros _ text' [= <-]. constructor.
    + remember (LinkCrawler.crawl_relevant_pages
                  3 (String c text) page_url search_query) as pages
        eqn:Hpages.
      assert (Hcount : length pages <= 3).
      { subst pages. unfold LinkCrawler.crawl_relevant_pages.
        etransitivity; [apply length_omap_le|].
        unfold LinkCrawler.crawl_targets. rewrite length_map.
        apply firstn_le_length. }
      destruct (Splitter.is_nil pages) eqn:Hnil.
      * cbn [fst snd]. repeat (split; [assumption|]).
        split; [intros [Hc|[Hc|Hc]]; [congruence|discriminate..]|].
        intros _ text' _. constructor.
      * destruct (index_crawled_pages_log cfg llm pages indexing
                                          cache idx log)
          as (more & Hmore & Hlen).
        destruct (index_crawled_pages cfg llm indexing pages cache idx log)
          as [[cache' idx'] log'].
        cbn [fst snd] in Hmore.
        destruct (attempt_retrieve_from_pages
                    cfg idx' searching pages search_query)
          as [e|all_retrieved] eqn:Hall; cbn [fst snd].
        { split; [cbn; lia|]. split; [constructor|].
          split; [constructor|].
          split; [exists more; split; [exact Hmore|lia]|].
          split; [intros [Hc|[Hc|Hc]]; [congruence|discriminate..]|].
          intros _ text' _. constructor. }
        apply attempt_retrieve_from_pages_completed in Hall. subst.
        assert (Hin : forall c0,
                  In c0 (firstn 5 (Score.sort_desc key
                           (retrieve_from_pages
                              cfg idx'
                              (LinkCrawler.crawl_relevant_pages
                                 3 (String c text) page_url search_query)
                              search_query))) ->
                  exists page,
                    In page (LinkCrawler.crawl_relevant_pages
                               3 (String c text) page_url search_query)
                    /\ ChatResult.source_url c0 = Some (Page.url page)
                    /\ ChatResult.source_title c0 = Some (Page.title page)
                    /\ In (ChatResult.result c0)
                          (RetrievalService.retrieve_sections
                             cfg idx' (Page.url page) search_query
                             SOURCE (Some 3) None)).
        { intros c0 Hc0. apply in_firstn, in_sort_desc in Hc0.
          now apply in_retrieve_from_pages. }
        split; [apply firstn_le_length|].
        split; [apply StronglySorted_firstn, sort_desc_sorted|].
        split.
        { apply List.Forall_forall. intros c0 Hc0.
          destruct (Hin c0 Hc0) as (page & _ & _ & _ & Hr).
          now apply retrieve_sections_role in Hr. }
        split; [exists more; split; [reflexivity|lia]|].
        split; [intros [Hc|[Hc|Hc]]; [congruence|discriminate..]|].
        intros _ text' [= <-].
        apply List.Forall_forall. exact Hin.
    + cbn [fst snd]. repeat (split; [assumption|]).
      split; [reflexivity|]. intros _ text' Hc. discriminate Hc.
  - cbn [fst snd]. repeat (split; [assumption|]).
    split; [reflexivity|]. intros Hc. discriminate Hc.
Qed.

End ChatProofs.

(** ** The streaming summary *)

Lemma dict_set_keys k v d k' :
  In k' (map fst (Dict.set k v d)) -> k' = k \/ In k' (map fst d).
Proof.
  induction d as [|[k0 v0] d IH]; cbn [Dict.set map fst In].
  - intros [<-|[]]. now left.
  - destruct (String.eqb k0 k) eqn:Hk; cbn [map fst In].
    + apply String.eqb_eq in Hk as ->. intros [<-|Hin]; auto.
    + intros [<-|Hin]; [auto|]. destruct (IH Hin); auto.
Qed.

Lemma process_section_streaming_small cfg state i section llm log :
  AgentState.sections state !! i = Some section ->
  SectionData.is_large section = false ->
  exists text more,
    process_section_streaming cfg state i llm log = (Some text, log ++ more).
Proof.
  intros Hsec Hsmall. unfold process_section_streaming.
  rewrite Hsec, Hsmall. unfold generate_stream. eauto.
Qed.

(** The loop over the sections: the keys it adds are section ids; with
    no section it changes nothing; and it ends with a result when no
    section is large. *)
Lemma summarize_sections_streaming_spec cfg state llm :
  forall sections i acc log,
  (sections = [] ->
   summarize_sections_streaming cfg state sections i acc llm log
   = (Some acc, log))
  /\ (forall d,
        (summarize_sections_streaming cfg state sections i acc llm log).1
        = Some d ->
        forall k, In k (map fst d) ->
          In k (map fst acc) \/ In k (map SectionData.section_id sections))
  /\ ((forall j s, sections !! j = Some s ->
         AgentState.sections state !! (i + j) = Some s) ->
      Forall (fun s => SectionData.is_large s = false) sections ->
      exists d,
        (summarize_sections_streaming cfg state sections i acc llm log).1
        = Some d).
Proof.
  induction sections as [|section rest IH]; intros i acc log.
  - split; [reflexivity|]. split.
    + intros d [= <-] k Hk. now left.
    + intros _ _. exists acc. reflexivity.
  - split; [discriminate|].
    cbn [summarize_sections_streaming]. unfold mbind, LLM_bind.
    destruct (process_section_streaming cfg state i llm log)
      as [[text|] log1] eqn:Hp.
    + destruct (IH (S i)
                  (Dict.set (SectionData.section_id section) text acc) log1)
        as (_ & Hkeys & Hsome).
      split.
      * intros d Hd k Hk. destruct (Hkeys d Hd k Hk) as [Hin|Hin].
        -- apply dict_set_keys in Hin as [->|Hin]; [|now left].
           right. now left.
        -- right. now right.
      * intros Hidx Hall. apply Hsome.
        -- intros j s Hj. replace (S i + j) with (i + S j) by lia.
           now apply Hidx.
        -- now apply Forall_inv_tail in Hall.
    + split; [discriminate|]. intros Hidx Hall. exfalso.
      destruct (process_section_streaming_small cfg state i section llm log)
        as (text & more & Hsmall).
      * rewrite <- (Nat.add_0_r i). now apply Hidx.
      * now apply Forall_inv in Hall.
      * congruence.
Qed.

Section StreamingProofs.
Context `{Python} `{Hash} `{Embedder}.


(** On a page without sections the source embedding writes nothing,
    whatever raises. *)
Lemma embed_section_source_node_empty fault state
      (idx : gmap string (gmap string PineconeClient.Vector)) :
  AgentState.sections state = [] ->
  (embed_section_source_node fault state idx).2 = idx
  /\ AgentState.sections (embed_section_source_node fault state idx).1 = [].
Proof.
  intros Hnil. unfold embed_section_source_node. rewrite Hnil.
  destruct (RetrievalService.attempt_check_page_indexed fault idx _)
    as [e|[|]]; cbn [fst snd]; state_simpl; auto.
Qed.


End StreamingProofs.


(** X28.  A failing fact extraction is not contained in the streaming
    path: for a large section whose first chunk's fact extraction fails,
    [process_section_streaming] ends with the exception after that one
    request, where [process_section_node] on the same state records the
    placeholder as the section's summary. *)
Theorem streaming_fact_failure_aborts cfg state section chunk rest
        (llm : Oracle) log :
  AgentState.sections state !! AgentState.current_section_index state
  = Some section ->
  SectionData.is_large section = true ->
  _split_section_into_chunks cfg section = chunk :: rest ->
  llm log (fact_request section chunk) = None ->
  process_section_streaming
    cfg state (AgentState.current_section_index state) llm log
  = (None, log ++ [fact_request section chunk])
  /\ Dict.get (SectionData.section_id section)
       (AgentState.section_summaries
          (process_section_node cfg state llm log).1)
     = Some (error_placeholder section).
Proof.
  intros Hsec Hlarge Hchunks Hfail. split.
  - unfold process_section_streaming. rewrite Hsec, Hlarge, Hchunks.
    unfold mbind, LLM_bind. rewrite extract_facts_cons, Hfail. reflexivity.
  - rewrite (process_section_node_outcome cfg state llm log section Hsec).
    unfold summarize_section, _process_large_section.
    rewrite Hlarge, Hchunks. unfold mbind, LLM_bind.
    rewrite extract_facts_cons, Hfail. cbn [fst default].
    apply dict_get_set_eq.
Qed.

(** The large sample page with a generative service that fails on its
    first request. *)
Lemma streaming_fact_failure_aborts_witness :
  AgentState.sections large_page_state
  !! AgentState.current_section_index large_page_state = Some large_section
  /\ (process_section_streaming
        settings large_page_state
        (AgentState.current_section_index large_page_state)
        (fails_on_call 0) []).1 = None.
Proof.
  assert (Hsec : AgentState.sections large_page_state
                 !! AgentState.current_section_index large_page_state
                 = Some large_section) by (vm_compute; reflexivity).
  assert (Hlarge : SectionData.is_large large_section = true)
    by (vm_compute; reflexivity).
  assert (Hchunks : _split_section_into_chunks settings large_section
                    = large_first_chunk :: large_other_chunks)
    by (vm_compute; reflexivity).
  assert (Hfail : fails_on_call 0 []
                    (fact_request large_section large_first_chunk) = None)
    by reflexivity.
  split; [exact Hsec|].
  destruct (streaming_fact_failure_aborts settings large_page_state
              large_section large_first_chunk large_other_chunks
              (fails_on_call 0) [] Hsec Hlarge Hchunks Hfail) as [Hs _].
  now rewrite Hs.
Defined.
